(** * tropical-fish: colour-band decoder for capacitors and resistors

  A shallow embedding of the decoding engine (colour tables, capacitor
  type table, capacitor and resistor calculation, validation layer) and
  the properties of the specification checked against it.

  Conventions of the embedding:
  - [float64] values are IEEE 754 binary64 numbers, taken from the
    specification of floating-point arithmetic of the standard library
    ([SpecFloat], precision 53, maximal exponent 1024, rounding to
    nearest even); every arithmetic operation of the source is the
    corresponding rounded operation;
  - Go [int] values ([Color], digits, band counts) are integers in [Z];
    no arithmetic of the source leaves the 64-bit range;
  - Go maps are association lists built like the map literals of the
    source, read with the two forms of a Go map access;
  - a function returning [(value, error)] returns an [outcome]; a function
    returning [error] returns [option error], [None] being [nil];
  - a function mutating a result through a pointer takes the record and
    returns the updated record;
  - a Go [string] is a sequence of bytes read as UTF-8; [strings.TrimSpace],
    [strings.ToLower] and [strings.ToUpper] work on runes as the packages
    [utf8], [unicode] and [strings] define them.  The case tables of
    package [unicode] for the runes outside ASCII are data of the Go
    release and are a parameter of the embedding ([CaseTables]): every
    statement about text holds for every such table. *)

From Stdlib Require Import ZArith List String Ascii Bool Lia.
From Stdlib Require Import Floats.SpecFloat.
From Stdlib Require DecimalString.
Import ListNotations.

Local Open Scope string_scope.
Local Open Scope Z_scope.

(* ================================================================== *)
(** ** IEEE 754 binary64 *)
(* ================================================================== *)

Module F64.

Definition prec : Z := 53.
Definition emax : Z := 1024.

Definition float64 : Type := spec_float.

(** The zero value of a Go [float64]. *)
Definition zero : float64 := S754_zero false.

(** Conversion [float64(n)] of an integer. *)
Definition of_int (n : Z) : float64 := binary_normalize prec emax n 0 false.

Definition add : float64 -> float64 -> float64 := SFadd prec emax.
Definition sub : float64 -> float64 -> float64 := SFsub prec emax.
Definition mul : float64 -> float64 -> float64 := SFmul prec emax.
Definition div : float64 -> float64 -> float64 := SFdiv prec emax.

(** The decimal literal [n/d] (for instance [0.01] is [dec 1 100]): the
    binary64 number nearest to the quotient, which is what the rounded
    division of two exactly represented integers returns. *)
Definition dec (n d : Z) : float64 := div (of_int n) (of_int d).

Definition eqb : float64 -> float64 -> bool := SFeqb.
Definition ltb : float64 -> float64 -> bool := SFltb.
Definition leb : float64 -> float64 -> bool := SFleb.
(** Go's [x >= y]. *)
Definition geb (x y : float64) : bool := SFleb y x.

(** The values a binary64 variable can hold. *)
Definition is_float64 (x : float64) : Prop := valid_binary prec emax x = true.

End F64.

Declare Scope f64_scope.
Delimit Scope f64_scope with f64.
Bind Scope f64_scope with F64.float64.
Infix "+" := F64.add : f64_scope.
Infix "-" := F64.sub : f64_scope.
Infix "*" := F64.mul : f64_scope.
Infix "/" := F64.div : f64_scope.
Infix "=?" := F64.eqb : f64_scope.
Infix "<?" := F64.ltb : f64_scope.
Infix "<=?" := F64.leb : f64_scope.
Infix ">=?" := F64.geb : f64_scope.

(* ================================================================== *)
(** ** The Go constructs the source relies on *)
(* ================================================================== *)

Module Go.

(** An [error] value: either built by [fmt.Errorf] (only its message is
    observable) or a pointer to a [ValidationError] of the validation layer. *)
Inductive error : Type :=
| Errorf (msg : string)
| ValidationError (BandNumber : Z) (Message : string).

(** Result of a function returning a pointer to a result and an [error]. *)
Inductive outcome (A : Type) : Type :=
| Ok (a : A)
| Err (e : error).
Arguments Ok {A} a.
Arguments Err {A} e.

(** The verb [%d] of [fmt]. *)
Definition itoa (n : Z) : string :=
  DecimalString.NilZero.string_of_int (Z.to_int n).

(** The method [Error] of [ValidationError] and the message of an
    [fmt.Errorf] error. *)
Definition Error (e : error) : string :=
  match e with
  | Errorf msg => msg
  | ValidationError n msg => "Band " ++ itoa n ++ ": " ++ msg
  end.

(** Map access [v, ok := m[k]]: the zero value and [false] for a missing
    key. *)
Definition map_get {K V : Type} (eqb : K -> K -> bool) (zero : V)
           (m : list (K * V)) (k : K) : V * bool :=
  match find (fun kv => eqb (fst kv) k) m with
  | Some kv => (snd kv, true)
  | None => (zero, false)
  end.

(** Map access [m[k]]. *)
Definition map_index {K V : Type} (eqb : K -> K -> bool) (zero : V)
           (m : list (K * V)) (k : K) : V :=
  fst (map_get eqb zero m k).

(** [len(s)] and [s[i]] for a slice of integers; every index of the
    source is checked against [len] before it is used. *)
Definition len {A : Type} (s : list A) : Z := Z.of_nat (List.length s).
Definition index (s : list Z) (i : Z) : Z := nth (Z.to_nat i) s 0.

(** *** Strings: bytes, UTF-8 and the packages [unicode] and [strings] *)

Definition byte (a : ascii) : Z := Z.of_N (N_of_ascii a).
Definition char (b : Z) : ascii := ascii_of_N (Z.to_N b).

(** [strings.HasPrefix(s, prefix)]. *)
Definition HasPrefix (s prefix : string) : bool := String.prefix prefix s.

(** The slice [s[n:]]; the source takes it only for [n <= len(s)]. *)
Fixpoint slice_from (s : string) (n : nat) {struct n} : string :=
  match n, s with
  | O, _ => s
  | S n', String _ r => slice_from r n'
  | S _, EmptyString => EmptyString
  end.

Definition RuneError : Z := 0xFFFD.
Definition RuneSelf : Z := 0x80.
Definition MaxRune : Z := 0x10FFFF.
Definition MaxASCII : Z := 0x7F.

(** The table [first] of package [utf8] with its accept ranges: the size
    of the encoding that a first byte announces and the range of the
    second byte; [None] for a byte that starts no encoding. *)
Definition first (s0 : Z) : option (Z * Z * Z) :=
  if s0 <? 0xC2 then None
  else if s0 <=? 0xDF then Some (2, 0x80, 0xBF)
  else if s0 =? 0xE0 then Some (3, 0xA0, 0xBF)
  else if s0 <=? 0xEC then Some (3, 0x80, 0xBF)
  else if s0 =? 0xED then Some (3, 0x80, 0x9F)
  else if s0 <=? 0xEF then Some (3, 0x80, 0xBF)
  else if s0 =? 0xF0 then Some (4, 0x90, 0xBF)
  else if s0 <=? 0xF3 then Some (4, 0x80, 0xBF)
  else if s0 =? 0xF4 then Some (4, 0x80, 0x8F)
  else None.

(** The next byte when it lies in the range: its six payload bits and the
    rest of the string. *)
Definition cont_byte (lo hi : Z) (s : string) : option (Z * string) :=
  match s with
  | EmptyString => None
  | String a r =>
      let b := byte a in
      if ((b <? lo) || (hi <? b))%bool then None
      else Some (Z.land b 0x3F, r)
  end.

(** [utf8.DecodeRuneInString]: the first rune and its width in bytes;
    [(RuneError, 1)] for a byte that is no part of a well-formed
    encoding. *)
Definition DecodeRuneInString (s : string) : Z * nat :=
  match s with
  | EmptyString => (RuneError, 0%nat)
  | String a0 r0 =>
      let s0 := byte a0 in
      if s0 <? RuneSelf then (s0, 1%nat) else
      match first s0 with
      | None => (RuneError, 1%nat)
      | Some (sz, lo, hi) =>
          match cont_byte lo hi r0 with
          | None => (RuneError, 1%nat)
          | Some (c1, r1) =>
              if sz =? 2
              then (Z.lor (Z.shiftl (Z.land s0 0x1F) 6) c1, 2%nat)
              else
                match cont_byte 0x80 0xBF r1 with
                | None => (RuneError, 1%nat)
                | Some (c2, r2) =>
                    if sz =? 3
                    then (Z.lor (Z.shiftl (Z.land s0 0x0F) 12)
                                (Z.lor (Z.shiftl c1 6) c2), 3%nat)
                    else
                      match cont_byte 0x80 0xBF r2 with
                      | None => (RuneError, 1%nat)
                      | Some (c3, _) =>
                          (Z.lor (Z.shiftl (Z.land s0 0x07) 18)
                                 (Z.lor (Z.shiftl c1 12)
                                        (Z.lor (Z.shiftl c2 6) c3)), 4%nat)
                      end
                end
          end
      end
  end.

(** [utf8.AppendRune] on an empty buffer. *)
Definition tail_byte (r : Z) (shift : Z) : ascii :=
  char (Z.lor 0x80 (Z.land (Z.shiftr r shift) 0x3F)).

Definition encode3 (r : Z) : string :=
  String (char (Z.lor 0xE0 (Z.shiftr r 12)))
    (String (tail_byte r 6) (String (tail_byte r 0) "")).

Definition EncodeRune (r : Z) : string :=
  if ((0 <=? r) && (r <=? 0x7F))%bool then String (char r) ""
  else if ((0 <=? r) && (r <=? 0x7FF))%bool then
    String (char (Z.lor 0xC0 (Z.shiftr r 6))) (String (tail_byte r 0) "")
  else if ((r <? 0) || (MaxRune <? r)
           || ((0xD800 <=? r) && (r <=? 0xDFFF)))%bool then
    encode3 RuneError
  else if r <=? 0xFFFF then encode3 r
  else
    String (char (Z.lor 0xF0 (Z.shiftr r 18)))
      (String (tail_byte r 12)
         (String (tail_byte r 6) (String (tail_byte r 0) ""))).

(** [unicode.White_Space] and [unicode.IsSpace]. *)
Definition White_Space : list (Z * Z) :=
  [ (0x0009, 0x000D); (0x0020, 0x0020); (0x0085, 0x0085);
    (0x00A0, 0x00A0); (0x1680, 0x1680); (0x2000, 0x200A);
    (0x2028, 0x2029); (0x202F, 0x202F); (0x205F, 0x205F);
    (0x3000, 0x3000) ].

Definition IsSpace (r : Z) : bool :=
  existsb (fun range => ((fst range <=? r) && (r <=? snd range))%bool)
          White_Space.

(** The case tables of package [unicode] for the runes above [MaxASCII]:
    the data of [unicode.CaseRanges] is no part of the repository and
    depends on the Unicode version of the Go release, so the embedding
    takes it as a parameter.  Nothing is assumed about it. *)
Class CaseTables : Type := {
  LowerCase : Z -> Z;
  UpperCase : Z -> Z
}.

Section Case.
Context {tables : CaseTables}.

(** [unicode.ToLower] and [unicode.ToUpper]: the ASCII letters by
    arithmetic, the other runes by [unicode.To] on the case tables.  The
    white-space runes are no letters and have no entry in the tables of
    any Unicode version, so [unicode.To] returns them as they are; the
    parameter is read at the other runes only. *)
Definition unicode_ToLower (r : Z) : Z :=
  if r <=? MaxASCII then
    if ((0x41 <=? r) && (r <=? 0x5A))%bool then r + 0x20 else r
  else if IsSpace r then r
  else LowerCase r.

Definition unicode_ToUpper (r : Z) : Z :=
  if r <=? MaxASCII then
    if ((0x61 <=? r) && (r <=? 0x7A))%bool then r - 0x20 else r
  else if IsSpace r then r
  else UpperCase r.

End Case.

(** [strings.Map]: every rune of the string is replaced by its image; a
    byte that is no part of a well-formed encoding is read as
    [RuneError], and a negative image is dropped.  Every step consumes at
    least one byte, so the length of the string is fuel enough. *)
Fixpoint Map_from (fuel : nat) (mapping : Z -> Z) (s : string) : string :=
  match fuel with
  | O => ""
  | S fuel' =>
      match s with
      | EmptyString => ""
      | String _ _ =>
          let '(c, width) := DecodeRuneInString s in
          let r := mapping c in
          (if r <? 0 then "" else EncodeRune r)
          ++ Map_from fuel' mapping (slice_from s width)
      end
  end.

Definition Map (mapping : Z -> Z) (s : string) : string :=
  Map_from (String.length s) mapping s.

(** The ASCII paths of [strings.ToLower] and [strings.ToUpper]. *)
Fixpoint isASCII (s : string) : bool :=
  match s with
  | EmptyString => true
  | String a r => ((byte a <? RuneSelf) && isASCII r)%bool
  end.

Definition lower_ascii (a : ascii) : ascii :=
  let n := nat_of_ascii a in
  if (Nat.leb 65 n && Nat.leb n 90)%bool then ascii_of_nat (n + 32) else a.

Definition upper_ascii (a : ascii) : ascii :=
  let n := nat_of_ascii a in
  if (Nat.leb 97 n && Nat.leb n 122)%bool then ascii_of_nat (n - 32) else a.

Fixpoint map_bytes (f : ascii -> ascii) (s : string) : string :=
  match s with
  | EmptyString => EmptyString
  | String a r => String (f a) (map_bytes f r)
  end.

Section Strings.
Context {tables : CaseTables}.

(** [strings.ToLower] and [strings.ToUpper]. *)
Definition ToLower (s : string) : string :=
  if isASCII s then map_bytes lower_ascii s else Map unicode_ToLower s.

Definition ToUpper (s : string) : string :=
  if isASCII s then map_bytes upper_ascii s else Map unicode_ToUpper s.

End Strings.

(** The table [asciiSpace] of package [strings]. *)
Definition isSpace (a : ascii) : bool :=
  let n := nat_of_ascii a in
  (Nat.leb 9 n && Nat.leb n 13 || Nat.eqb n 32)%bool.

(** The white-space runes and their encodings. *)
Definition range_runes (range : Z * Z) : list Z :=
  map (fun i => fst range + Z.of_nat i)
      (seq 0 (Z.to_nat (snd range - fst range + 1))).

Definition space_runes : list Z := flat_map range_runes White_Space.

Definition space_encodings : list string := map EncodeRune space_runes.

Fixpoint reverse (s : string) : string :=
  match s with
  | EmptyString => EmptyString
  | String a r => reverse r ++ String a EmptyString
  end.

(** Removing one of the given byte sequences from the front, as long as
    there is one. *)
Fixpoint strip_prefix (p s : string) : option string :=
  match p, s with
  | EmptyString, _ => Some s
  | String a p', String b s' =>
      if Ascii.eqb a b then strip_prefix p' s' else None
  | String _ _, EmptyString => None
  end.

Fixpoint strip_any (ps : list string) (s : string) : option string :=
  match ps with
  | [] => None
  | p :: ps' =>
      match strip_prefix p s with
      | Some r => Some r
      | None => strip_any ps' s
      end
  end.

Fixpoint trim_from (fuel : nat) (ps : list string) (s : string) : string :=
  match fuel with
  | O => s
  | S fuel' =>
      match strip_any ps s with
      | Some r => trim_from fuel' ps r
      | None => s
      end
  end.

Definition trim (ps : list string) (s : string) : string :=
  trim_from (String.length s) ps s.

(** [strings.TrimSpace]: the white-space runes at the front are removed
    ([TrimLeftFunc] reads them with [DecodeRuneInString]), then those at
    the end ([TrimRightFunc] reads them with [DecodeLastRuneInString]);
    a rune is read as white space exactly where its encoding stands. *)
Definition TrimLeft (s : string) : string := trim space_encodings s.

Definition TrimRight (s : string) : string :=
  reverse (trim (map reverse space_encodings) (reverse s)).

Definition TrimSpace (s : string) : string := TrimRight (TrimLeft s).

End Go.
Import Go.

(* ================================================================== *)
(** ** Colour table (colors.go) *)
(* ================================================================== *)

Module Colors.
Import F64.

(** [type Color int] with the twelve constants numbered by [iota]. *)
Definition Color : Type := Z.

Definition ColorBlack : Color := 0.
Definition ColorBrown : Color := 1.
Definition ColorRed : Color := 2.
Definition ColorOrange : Color := 3.
Definition ColorYellow : Color := 4.
Definition ColorGreen : Color := 5.
Definition ColorBlue : Color := 6.
Definition ColorViolet : Color := 7.
Definition ColorGrey : Color := 8.
Definition ColorWhite : Color := 9.
Definition ColorGold : Color := 10.
Definition ColorSilver : Color := 11.

(** The twelve colours of the enumeration. *)
Definition AllColors : list Color :=
  [ColorBlack; ColorBrown; ColorRed; ColorOrange; ColorYellow; ColorGreen;
   ColorBlue; ColorViolet; ColorGrey; ColorWhite; ColorGold; ColorSilver].

Definition is_color (c : Color) : Prop := In c AllColors.

Record ColorInfo : Type := {
  Name : string;
  Digit : Z;
  Multiplier : float64;
  HexColor : string;
  ValidDigit : bool;
  ValidMult : bool;
  ValidTol : bool
}.

Definition zeroColorInfo : ColorInfo :=
  {| Name := ""; Digit := 0; Multiplier := zero; HexColor := "";
     ValidDigit := false; ValidMult := false; ValidTol := false |}.

Definition colorMap : list (Color * ColorInfo) :=
  [ (ColorBlack,
     {| Name := "Black"; Digit := 0; Multiplier := of_int 1;
        HexColor := "#000000";
        ValidDigit := true; ValidMult := true; ValidTol := true |});
    (ColorBrown,
     {| Name := "Brown"; Digit := 1; Multiplier := of_int 10;
        HexColor := "#8B4513";
        ValidDigit := true; ValidMult := true; ValidTol := true |});
    (ColorRed,
     {| Name := "Red"; Digit := 2; Multiplier := of_int 100;
        HexColor := "#FF0000";
        ValidDigit := true; ValidMult := true; ValidTol := true |});
    (ColorOrange,
     {| Name := "Orange"; Digit := 3; Multiplier := of_int 1000;
        HexColor := "#FF8C00";
        ValidDigit := true; ValidMult := true; ValidTol := true |});
    (ColorYellow,
     {| Name := "Yellow"; Digit := 4; Multiplier := of_int 10000;
        HexColor := "#FFFF00";
        ValidDigit := true; ValidMult := true; ValidTol := true |});
    (ColorGreen,
     {| Name := "Green"; Digit := 5; Multiplier := of_int 100000;
        HexColor := "#00FF00";
        ValidDigit := true; ValidMult := true; ValidTol := true |});
    (ColorBlue,
     {| Name := "Blue"; Digit := 6; Multiplier := of_int 1000000;
        HexColor := "#0000FF";
        ValidDigit := true; ValidMult := true; ValidTol := false |});
    (ColorViolet,
     {| Name := "Violet"; Digit := 7; Multiplier := of_int 10000000;
        HexColor := "#9400D3";
        ValidDigit := true; ValidMult := true; ValidTol := false |});
    (ColorGrey,
     {| Name := "Grey"; Digit := 8; Multiplier := dec 1 100;
        HexColor := "#808080";
        ValidDigit := true; ValidMult := true; ValidTol := true |});
    (ColorWhite,
     {| Name := "White"; Digit := 9; Multiplier := dec 1 10;
        HexColor := "#FFFFFF";
        ValidDigit := true; ValidMult := true; ValidTol := true |});
    (ColorGold,
     {| Name := "Gold"; Digit := -1; Multiplier := dec 1 10;
        HexColor := "#FFD700";
        ValidDigit := false; ValidMult := true; ValidTol := true |});
    (ColorSilver,
     {| Name := "Silver"; Digit := -1; Multiplier := dec 1 100;
        HexColor := "#C0C0C0";
        ValidDigit := false; ValidMult := true; ValidTol := true |}) ].

Record ToleranceInfo : Type := {
  PercentHigh : float64;
  PercentLow : float64;
  Symmetric : bool;
  AbsolutePF : float64
}.

Definition zeroToleranceInfo : ToleranceInfo :=
  {| PercentHigh := zero; PercentLow := zero; Symmetric := false;
     AbsolutePF := zero |}.

Definition toleranceMap : list (Color * ToleranceInfo) :=
  [ (ColorBlack,
     {| PercentHigh := of_int 20; PercentLow := of_int 20;
        Symmetric := true; AbsolutePF := of_int 0 |});
    (ColorBrown,
     {| PercentHigh := of_int 1; PercentLow := of_int 1;
        Symmetric := true; AbsolutePF := dec 1 10 |});
    (ColorRed,
     {| PercentHigh := of_int 2; PercentLow := of_int 2;
        Symmetric := true; AbsolutePF := dec 25 100 |});
    (ColorOrange,
     {| PercentHigh := of_int 3; PercentLow := of_int 3;
        Symmetric := true; AbsolutePF := of_int 0 |});
    (ColorYellow,
     {| PercentHigh := of_int 4; PercentLow := of_int 4;
        Symmetric := true; AbsolutePF := of_int 0 |});
    (ColorGreen,
     {| PercentHigh := of_int 5; PercentLow := of_int 5;
        Symmetric := true; AbsolutePF := dec 5 10 |});
    (ColorGold,
     {| PercentHigh := of_int 5; PercentLow := of_int 5;
        Symmetric := true; AbsolutePF := of_int 0 |});
    (ColorWhite,
     {| PercentHigh := of_int 10; PercentLow := of_int 10;
        Symmetric := true; AbsolutePF := of_int 1 |});
    (ColorSilver,
     {| PercentHigh := of_int 10; PercentLow := of_int 10;
        Symmetric := true; AbsolutePF := of_int 0 |});
    (ColorGrey,
     {| PercentHigh := of_int 80; PercentLow := of_int 20;
        Symmetric := false; AbsolutePF := of_int 0 |}) ].

Definition temperatureCoefficientMap : list (Color * Z) :=
  [ (ColorBrown, -33); (ColorRed, -75); (ColorOrange, -150);
    (ColorYellow, -220); (ColorGreen, -330); (ColorBlue, -470);
    (ColorViolet, -750) ].

Definition colorNameMap : list (string * Color) :=
  [ ("black", ColorBlack); ("brown", ColorBrown); ("red", ColorRed);
    ("orange", ColorOrange); ("yellow", ColorYellow);
    ("green", ColorGreen); ("blue", ColorBlue); ("violet", ColorViolet);
    ("grey", ColorGrey); ("gray", ColorGrey); ("white", ColorWhite);
    ("gold", ColorGold); ("silver", ColorSilver) ].

Section Parse.
Context {tables : CaseTables}.

Definition ParseColor (input : string) : Color * bool :=
  let input := ToLower (TrimSpace input) in
  map_get String.eqb ColorBlack colorNameMap input.

End Parse.

Definition GetColorInfo (c : Color) : ColorInfo :=
  map_index Z.eqb zeroColorInfo colorMap c.

Definition GetToleranceInfo (c : Color) : ToleranceInfo * bool :=
  map_get Z.eqb zeroToleranceInfo toleranceMap c.

Definition GetTempCoefficient (c : Color) : Z * bool :=
  map_get Z.eqb 0 temperatureCoefficientMap c.

Definition AllColorNames : list string :=
  [ "Black"; "Brown"; "Red"; "Orange"; "Yellow"; "Green";
    "Blue"; "Violet"; "Grey"; "White"; "Gold"; "Silver" ].

End Colors.

(* ================================================================== *)
(** ** Capacitor types and voltage tables (types.go) *)
(* ================================================================== *)

Module Types.
Import F64 Colors.

(** [type CapacitorType string]. *)
Definition CapacitorType : Type := string.

Definition TypeJ : CapacitorType := "J".
Definition TypeK : CapacitorType := "K".
Definition TypeL : CapacitorType := "L".
Definition TypeM : CapacitorType := "M".
Definition TypeN : CapacitorType := "N".

(** The field [Type] of the source is [Type_] here. *)
Record TypeInfo : Type := {
  Type_ : CapacitorType;
  Name : string;
  Description : string;
  Voltages : list Z
}.

Definition zeroTypeInfo : TypeInfo :=
  {| Type_ := ""; Name := ""; Description := ""; Voltages := [] |}.

Definition typeInfoMap : list (CapacitorType * TypeInfo) :=
  [ (TypeJ,
     {| Type_ := TypeJ; Name := "Dipped Tantalum";
        Description := "Type J (Dipped Tantalum)";
        Voltages := [3; 4; 6; 10; 15; 20; 25; 35; 50] |});
    (TypeK,
     {| Type_ := TypeK; Name := "Mica";
        Description := "Type K (Mica)";
        Voltages := [100; 200; 300; 400; 500; 600; 700; 800; 900; 1000; 2000] |});
    (TypeL,
     {| Type_ := TypeL; Name := "Polyester / Polystyrene";
        Description := "Type L (Polyester / Polystyrene)";
        Voltages := [100; 250; 400; 630] |});
    (TypeM,
     {| Type_ := TypeM; Name := "Electrolytic (4-band style)";
        Description := "Type M (Electrolytic 4-Band)";
        Voltages := [0; 2; 4; 6; 10; 16; 25; 40] |});
    (TypeN,
     {| Type_ := TypeN; Name := "Electrolytic (3-band style)";
        Description := "Type N (Electrolytic 3-Band)";
        Voltages := [3; 6; 0; 10; 15; 20; 25; 35] |}) ].

(** The map literal local to [GetVoltageRatingFractional]. *)
Definition voltageMap : list (Z * float64) :=
  [ (0, of_int 0); (1, dec 16 10); (2, dec 25 10); (3, of_int 4);
    (4, dec 63 10); (5, of_int 10); (6, of_int 16); (7, of_int 25);
    (8, of_int 40) ].

Definition GetVoltageRatingFractional (capType : CapacitorType)
           (band5Color : Color) : float64 * bool :=
  let '(typeInfo, exists_) := map_get String.eqb zeroTypeInfo typeInfoMap capType in
  if negb exists_ then (zero, false) else
  let colorInfo := GetColorInfo band5Color in
  if Digit colorInfo <? 0 then (zero, false) else
  if String.eqb capType TypeM then
    let '(v, ok) := map_get Z.eqb zero voltageMap (Digit colorInfo) in
    if (ok && (zero <? v)%f64)%bool then (v, true) else (zero, false)
  else
  if (String.eqb capType TypeN && (Digit colorInfo =? 2))%bool
  then (dec 63 10, true) else
  if Digit colorInfo >=? len (Voltages typeInfo) then (zero, false) else
  let voltage := index (Voltages typeInfo) (Digit colorInfo) in
  if voltage =? 0 then (zero, false) else
  (of_int voltage, true).

Definition GetTypeInfo (capType : CapacitorType) : TypeInfo * bool :=
  map_get String.eqb zeroTypeInfo typeInfoMap capType.

Definition GetVoltageRating (capType : CapacitorType) (band5Color : Color)
  : Z * bool :=
  let '(typeInfo, exists_) := map_get String.eqb zeroTypeInfo typeInfoMap capType in
  if negb exists_ then (0, false) else
  let colorInfo := GetColorInfo band5Color in
  if ((Digit colorInfo <? 0)
      || (Digit colorInfo >=? len (Voltages typeInfo)))%bool
  then (0, false) else
  let voltage := index (Voltages typeInfo) (Digit colorInfo) in
  let afterSwitch := if voltage =? 0 then (0, false) else (voltage, true) in
  if String.eqb capType TypeM then
    if Digit colorInfo =? 0 then (0, false) else
    if Digit colorInfo =? 1 then (2, true) else
    if Digit colorInfo =? 2 then (0, false) else
    if Digit colorInfo =? 3 then (4, true) else
    if Digit colorInfo =? 4 then (0, false) else
    if Digit colorInfo =? 5 then (10, true) else
    if Digit colorInfo =? 6 then (16, true) else
    if Digit colorInfo =? 7 then (25, true) else
    if Digit colorInfo =? 8 then (40, true) else
    afterSwitch
  else if String.eqb capType TypeN then
    if Digit colorInfo =? 2 then (0, false) else afterSwitch
  else afterSwitch.

Section Parse.
Context {tables : CaseTables}.

Definition ParseCapacitorType (input : string) : CapacitorType * bool :=
  let input := ToUpper (TrimSpace input) in
  if String.eqb input "J" then (TypeJ, true) else
  if String.eqb input "K" then (TypeK, true) else
  if String.eqb input "L" then (TypeL, true) else
  if String.eqb input "M" then (TypeM, true) else
  if String.eqb input "N" then (TypeN, true) else
  ("", false).

End Parse.

Definition AllCapacitorTypes : list string := ["J"; "K"; "L"; "M"; "N"].

End Types.

(* ================================================================== *)
(** ** Capacitor calculation (calculator.go) *)
(* ================================================================== *)

Module Calculator.
Import F64 Colors Types.

Record CapacitorReading : Type := {
  Band1 : Color;
  Band2 : Color;
  Band3 : Color;
  Band4 : Color;
  Band5 : Color;
  BandCount : Z;
  CapType : CapacitorType
}.

Record CalculationResult : Type := {
  CapacitancePF : float64;
  CapacitanceValue : float64;
  CapacitanceUnit : string;
  ToleranceType : string;
  TolerancePercent : float64;
  ToleranceAbsolutePF : float64;
  ToleranceSymmetric : bool;
  ToleranceHigh : float64;
  ToleranceLow : float64;
  MinValue : float64;
  MaxValue : float64;
  MinUnit : string;
  MaxUnit : string;
  VoltageRating : float64;
  VoltageValid : bool;
  TempCoefficient : Z;
  TempCoeffValid : bool;
  Reading : CapacitorReading
}.

(** [&CalculationResult{Reading: reading}]: every other field has its zero
    value. *)
Definition newResult (reading : CapacitorReading) : CalculationResult :=
  {| CapacitancePF := zero; CapacitanceValue := zero; CapacitanceUnit := "";
     ToleranceType := ""; TolerancePercent := zero;
     ToleranceAbsolutePF := zero; ToleranceSymmetric := false;
     ToleranceHigh := zero; ToleranceLow := zero;
     MinValue := zero; MaxValue := zero; MinUnit := ""; MaxUnit := "";
     VoltageRating := zero; VoltageValid := false;
     TempCoefficient := 0; TempCoeffValid := false;
     Reading := reading |}.

(** Field assignments [result.F = v]. *)
Definition set_CapacitancePF (v : float64) (r : CalculationResult) : CalculationResult :=
  {| CapacitancePF := v; CapacitanceValue := CapacitanceValue r;
     CapacitanceUnit := CapacitanceUnit r; ToleranceType := ToleranceType r;
     TolerancePercent := TolerancePercent r; ToleranceAbsolutePF :=
     ToleranceAbsolutePF r; ToleranceSymmetric := ToleranceSymmetric r;
     ToleranceHigh := ToleranceHigh r; ToleranceLow := ToleranceLow r;
     MinValue := MinValue r; MaxValue := MaxValue r; MinUnit := MinUnit r;
     MaxUnit := MaxUnit r; VoltageRating := VoltageRating r; VoltageValid :=
     VoltageValid r; TempCoefficient := TempCoefficient r; TempCoeffValid :=
     TempCoeffValid r; Reading := Reading r |}.

Definition set_CapacitanceValue (v : float64) (r : CalculationResult) : CalculationResult :=
  {| CapacitancePF := CapacitancePF r; CapacitanceValue := v;
     CapacitanceUnit := CapacitanceUnit r; ToleranceType := ToleranceType r;
     TolerancePercent := TolerancePercent r; ToleranceAbsolutePF :=
     ToleranceAbsolutePF r; ToleranceSymmetric := ToleranceSymmetric r;
     ToleranceHigh := ToleranceHigh r; ToleranceLow := ToleranceLow r;
     MinValue := MinValue r; MaxValue := MaxValue r; MinUnit := MinUnit r;
     MaxUnit := MaxUnit r; VoltageRating := VoltageRating r; VoltageValid :=
     VoltageValid r; TempCoefficient := TempCoefficient r; TempCoeffValid :=
     TempCoeffValid r; Reading := Reading r |}.

Definition set_CapacitanceUnit (v : string) (r : CalculationResult) : CalculationResult :=
  {| CapacitancePF := CapacitancePF r; CapacitanceValue := CapacitanceValue
     r; CapacitanceUnit := v; ToleranceType := ToleranceType r;
     TolerancePercent := TolerancePercent r; ToleranceAbsolutePF :=
     ToleranceAbsolutePF r; ToleranceSymmetric := ToleranceSymmetric r;
     ToleranceHigh := ToleranceHigh r; ToleranceLow := ToleranceLow r;
     MinValue := MinValue r; MaxValue := MaxValue r; MinUnit := MinUnit r;
     MaxUnit := MaxUnit r; VoltageRating := VoltageRating r; VoltageValid :=
     VoltageValid r; TempCoefficient := TempCoefficient r; TempCoeffValid :=
     TempCoeffValid r; Reading := Reading r |}.

Definition set_ToleranceType (v : string) (r : CalculationResult) : CalculationResult :=
  {| CapacitancePF := CapacitancePF r; CapacitanceValue := CapacitanceValue
     r; CapacitanceUnit := CapacitanceUnit r; ToleranceType := v;
     TolerancePercent := TolerancePercent r; ToleranceAbsolutePF :=
     ToleranceAbsolutePF r; ToleranceSymmetric := ToleranceSymmetric r;
     ToleranceHigh := ToleranceHigh r; ToleranceLow := ToleranceLow r;
     MinValue := MinValue r; MaxValue := MaxValue r; MinUnit := MinUnit r;
     MaxUnit := MaxUnit r; VoltageRating := VoltageRating r; VoltageValid :=
     VoltageValid r; TempCoefficient := TempCoefficient r; TempCoeffValid :=
     TempCoeffValid r; Reading := Reading r |}.

Definition set_TolerancePercent (v : float64) (r : CalculationResult) : CalculationResult :=
  {| CapacitancePF := CapacitancePF r; CapacitanceValue := CapacitanceValue
     r; CapacitanceUnit := CapacitanceUnit r; ToleranceType := ToleranceType
     r; TolerancePercent := v; ToleranceAbsolutePF := ToleranceAbsolutePF r;
     ToleranceSymmetric := ToleranceSymmetric r; ToleranceHigh :=
     ToleranceHigh r; ToleranceLow := ToleranceLow r; MinValue := MinValue
     r; MaxValue := MaxValue r; MinUnit := MinUnit r; MaxUnit := MaxUnit r;
     VoltageRating := VoltageRating r; VoltageValid := VoltageValid r;
     TempCoefficient := TempCoefficient r; TempCoeffValid := TempCoeffValid
     r; Reading := Reading r |}.

Definition set_ToleranceAbsolutePF (v : float64) (r : CalculationResult) : CalculationResult :=
  {| CapacitancePF := CapacitancePF r; CapacitanceValue := CapacitanceValue
     r; CapacitanceUnit := CapacitanceUnit r; ToleranceType := ToleranceType
     r; TolerancePercent := TolerancePercent r; ToleranceAbsolutePF := v;
     ToleranceSymmetric := ToleranceSymmetric r; ToleranceHigh :=
     ToleranceHigh r; ToleranceLow := ToleranceLow r; MinValue := MinValue
     r; MaxValue := MaxValue r; MinUnit := MinUnit r; MaxUnit := MaxUnit r;
     VoltageRating := VoltageRating r; VoltageValid := VoltageValid r;
     TempCoefficient := TempCoefficient r; TempCoeffValid := TempCoeffValid
     r; Reading := Reading r |}.

Definition set_ToleranceSymmetric (v : bool) (r : CalculationResult) : CalculationResult :=
  {| CapacitancePF := CapacitancePF r; CapacitanceValue := CapacitanceValue
     r; CapacitanceUnit := CapacitanceUnit r; ToleranceType := ToleranceType
     r; TolerancePercent := TolerancePercent r; ToleranceAbsolutePF :=
     ToleranceAbsolutePF r; ToleranceSymmetric := v; ToleranceHigh :=
     ToleranceHigh r; ToleranceLow := ToleranceLow r; MinValue := MinValue
     r; MaxValue := MaxValue r; MinUnit := MinUnit r; MaxUnit := MaxUnit r;
     VoltageRating := VoltageRating r; VoltageValid := VoltageValid r;
     TempCoefficient := TempCoefficient r; TempCoeffValid := TempCoeffValid
     r; Reading := Reading r |}.

Definition set_ToleranceHigh (v : float64) (r : CalculationResult) : CalculationResult :=
  {| CapacitancePF := CapacitancePF r; CapacitanceValue := CapacitanceValue
     r; CapacitanceUnit := CapacitanceUnit r; ToleranceType := ToleranceType
     r; TolerancePercent := TolerancePercent r; ToleranceAbsolutePF :=
     ToleranceAbsolutePF r; ToleranceSymmetric := ToleranceSymmetric r;
     ToleranceHigh := v; ToleranceLow := ToleranceLow r; MinValue :=
     MinValue r; MaxValue := MaxValue r; MinUnit := MinUnit r; MaxUnit :=
     MaxUnit r; VoltageRating := VoltageRating r; VoltageValid :=
     VoltageValid r; TempCoefficient := TempCoefficient r; TempCoeffValid :=
     TempCoeffValid r; Reading := Reading r |}.

Definition set_ToleranceLow (v : float64) (r : CalculationResult) : CalculationResult :=
  {| CapacitancePF := CapacitancePF r; CapacitanceValue := CapacitanceValue
     r; CapacitanceUnit := CapacitanceUnit r; ToleranceType := ToleranceType
     r; TolerancePercent := TolerancePercent r; ToleranceAbsolutePF :=
     ToleranceAbsolutePF r; ToleranceSymmetric := ToleranceSymmetric r;
     ToleranceHigh := ToleranceHigh r; ToleranceLow := v; MinValue :=
     MinValue r; MaxValue := MaxValue r; MinUnit := MinUnit r; MaxUnit :=
     MaxUnit r; VoltageRating := VoltageRating r; VoltageValid :=
     VoltageValid r; TempCoefficient := TempCoefficient r; TempCoeffValid :=
     TempCoeffValid r; Reading := Reading r |}.

Definition set_MinValue (v : float64) (r : CalculationResult) : CalculationResult :=
  {| CapacitancePF := CapacitancePF r; CapacitanceValue := CapacitanceValue
     r; CapacitanceUnit := CapacitanceUnit r; ToleranceType := ToleranceType
     r; TolerancePercent := TolerancePercent r; ToleranceAbsolutePF :=
     ToleranceAbsolutePF r; ToleranceSymmetric := ToleranceSymmetric r;
     ToleranceHigh := ToleranceHigh r; ToleranceLow := ToleranceLow r;
     MinValue := v; MaxValue := MaxValue r; MinUnit := MinUnit r; MaxUnit :=
     MaxUnit r; VoltageRating := VoltageRating r; VoltageValid :=
     VoltageValid r; TempCoefficient := TempCoefficient r; TempCoeffValid :=
     TempCoeffValid r; Reading := Reading r |}.

Definition set_MaxValue (v : float64) (r : CalculationResult) : CalculationResult :=
  {| CapacitancePF := CapacitancePF r; CapacitanceValue := CapacitanceValue
     r; CapacitanceUnit := CapacitanceUnit r; ToleranceType := ToleranceType
     r; TolerancePercent := TolerancePercent r; ToleranceAbsolutePF :=
     ToleranceAbsolutePF r; ToleranceSymmetric := ToleranceSymmetric r;
     ToleranceHigh := ToleranceHigh r; ToleranceLow := ToleranceLow r;
     MinValue := MinValue r; MaxValue := v; MinUnit := MinUnit r; MaxUnit :=
     MaxUnit r; VoltageRating := VoltageRating r; VoltageValid :=
     VoltageValid r; TempCoefficient := TempCoefficient r; TempCoeffValid :=
     TempCoeffValid r; Reading := Reading r |}.

Definition set_MinUnit (v : string) (r : CalculationResult) : CalculationResult :=
  {| CapacitancePF := CapacitancePF r; CapacitanceValue := CapacitanceValue
     r; CapacitanceUnit := CapacitanceUnit r; ToleranceType := ToleranceType
     r; TolerancePercent := TolerancePercent r; ToleranceAbsolutePF :=
     ToleranceAbsolutePF r; ToleranceSymmetric := ToleranceSymmetric r;
     ToleranceHigh := ToleranceHigh r; ToleranceLow := ToleranceLow r;
     MinValue := MinValue r; MaxValue := MaxValue r; MinUnit := v; MaxUnit
     := MaxUnit r; VoltageRating := VoltageRating r; VoltageValid :=
     VoltageValid r; TempCoefficient := TempCoefficient r; TempCoeffValid :=
     TempCoeffValid r; Reading := Reading r |}.

Definition set_MaxUnit (v : string) (r : CalculationResult) : CalculationResult :=
  {| CapacitancePF := CapacitancePF r; CapacitanceValue := CapacitanceValue
     r; CapacitanceUnit := CapacitanceUnit r; ToleranceType := ToleranceType
     r; TolerancePercent := TolerancePercent r; ToleranceAbsolutePF :=
     ToleranceAbsolutePF r; ToleranceSymmetric := ToleranceSymmetric r;
     ToleranceHigh := ToleranceHigh r; ToleranceLow := ToleranceLow r;
     MinValue := MinValue r; MaxValue := MaxValue r; MinUnit := MinUnit r;
     MaxUnit := v; VoltageRating := VoltageRating r; VoltageValid :=
     VoltageValid r; TempCoefficient := TempCoefficient r; TempCoeffValid :=
     TempCoeffValid r; Reading := Reading r |}.

Definition set_VoltageRating (v : float64) (r : CalculationResult) : CalculationResult :=
  {| CapacitancePF := CapacitancePF r; CapacitanceValue := CapacitanceValue
     r; CapacitanceUnit := CapacitanceUnit r; ToleranceType := ToleranceType
     r; TolerancePercent := TolerancePercent r; ToleranceAbsolutePF :=
     ToleranceAbsolutePF r; ToleranceSymmetric := ToleranceSymmetric r;
     ToleranceHigh := ToleranceHigh r; ToleranceLow := ToleranceLow r;
     MinValue := MinValue r; MaxValue := MaxValue r; MinUnit := MinUnit r;
     MaxUnit := MaxUnit r; VoltageRating := v; VoltageValid := VoltageValid
     r; TempCoefficient := TempCoefficient r; TempCoeffValid :=
     TempCoeffValid r; Reading := Reading r |}.

Definition set_VoltageValid (v : bool) (r : CalculationResult) : CalculationResult :=
  {| CapacitancePF := CapacitancePF r; CapacitanceValue := CapacitanceValue
     r; CapacitanceUnit := CapacitanceUnit r; ToleranceType := ToleranceType
     r; TolerancePercent := TolerancePercent r; ToleranceAbsolutePF :=
     ToleranceAbsolutePF r; ToleranceSymmetric := ToleranceSymmetric r;
     ToleranceHigh := ToleranceHigh r; ToleranceLow := ToleranceLow r;
     MinValue := MinValue r; MaxValue := MaxValue r; MinUnit := MinUnit r;
     MaxUnit := MaxUnit r; VoltageRating := VoltageRating r; VoltageValid :=
     v; TempCoefficient := TempCoefficient r; TempCoeffValid :=
     TempCoeffValid r; Reading := Reading r |}.

Definition set_TempCoefficient (v : Z) (r : CalculationResult) : CalculationResult :=
  {| CapacitancePF := CapacitancePF r; CapacitanceValue := CapacitanceValue
     r; CapacitanceUnit := CapacitanceUnit r; ToleranceType := ToleranceType
     r; TolerancePercent := TolerancePercent r; ToleranceAbsolutePF :=
     ToleranceAbsolutePF r; ToleranceSymmetric := ToleranceSymmetric r;
     ToleranceHigh := ToleranceHigh r; ToleranceLow := ToleranceLow r;
     MinValue := MinValue r; MaxValue := MaxValue r; MinUnit := MinUnit r;
     MaxUnit := MaxUnit r; VoltageRating := VoltageRating r; VoltageValid :=
     VoltageValid r; TempCoefficient := v; TempCoeffValid := TempCoeffValid
     r; Reading := Reading r |}.

Definition set_TempCoeffValid (v : bool) (r : CalculationResult) : CalculationResult :=
  {| CapacitancePF := CapacitancePF r; CapacitanceValue := CapacitanceValue
     r; CapacitanceUnit := CapacitanceUnit r; ToleranceType := ToleranceType
     r; TolerancePercent := TolerancePercent r; ToleranceAbsolutePF :=
     ToleranceAbsolutePF r; ToleranceSymmetric := ToleranceSymmetric r;
     ToleranceHigh := ToleranceHigh r; ToleranceLow := ToleranceLow r;
     MinValue := MinValue r; MaxValue := MaxValue r; MinUnit := MinUnit r;
     MaxUnit := MaxUnit r; VoltageRating := VoltageRating r; VoltageValid :=
     VoltageValid r; TempCoefficient := TempCoefficient r; TempCoeffValid :=
     v; Reading := Reading r |}.

Definition scaleCapacitance (pF : float64) : float64 * string :=
  let pFToNF := of_int 1000 in
  let pFToUF := of_int 1000000 in
  let pFToMF := of_int 1000000000 in
  if (pF >=? pFToMF)%f64 then ((pF / pFToMF)%f64, "mF") else
  if (pF >=? pFToUF)%f64 then ((pF / pFToUF)%f64, "µF") else
  if (pF >=? pFToNF)%f64 then ((pF / pFToNF)%f64, "nF") else
  (pF, "pF").

Definition calculateTolerance (result : CalculationResult)
  : outcome CalculationResult :=
  let '(tolInfo, exists_) := GetToleranceInfo (Band4 (Reading result)) in
  if negb exists_ then Err (Errorf "invalid tolerance color for band 4") else
  let result := set_ToleranceSymmetric (Symmetric tolInfo) result in
  let result := set_ToleranceHigh (PercentHigh tolInfo) result in
  let result := set_ToleranceLow (PercentLow tolInfo) result in
  let hundred := of_int 100 in
  let one := of_int 1 in
  let result :=
    if (CapacitancePF result <=? of_int 10)%f64 then
      let result := set_ToleranceType "absolute" result in
      let result := set_ToleranceAbsolutePF (AbsolutePF tolInfo) result in
      if (AbsolutePF tolInfo =? of_int 0)%f64 then
        let result := set_ToleranceType "percentage" result in
        let result := set_TolerancePercent (PercentHigh tolInfo) result in
        let result :=
          set_MinValue
            (CapacitancePF result * (one - PercentLow tolInfo / hundred))%f64
            result in
        set_MaxValue
          (CapacitancePF result * (one + PercentHigh tolInfo / hundred))%f64
          result
      else
        let result :=
          set_MinValue (CapacitancePF result - AbsolutePF tolInfo)%f64 result in
        let result :=
          set_MaxValue (CapacitancePF result + AbsolutePF tolInfo)%f64 result in
        if (MinValue result <? of_int 0)%f64
        then set_MinValue (of_int 0) result
        else result
    else
      let result := set_ToleranceType "percentage" result in
      let result := set_TolerancePercent (PercentHigh tolInfo) result in
      let result :=
        set_MinValue
          (CapacitancePF result * (one - PercentLow tolInfo / hundred))%f64
          result in
      set_MaxValue
        (CapacitancePF result * (one + PercentHigh tolInfo / hundred))%f64
        result in
  let '(minValue, minUnit) := scaleCapacitance (MinValue result) in
  let result := set_MinUnit minUnit (set_MinValue minValue result) in
  let '(maxValue, maxUnit) := scaleCapacitance (MaxValue result) in
  let result := set_MaxUnit maxUnit (set_MaxValue maxValue result) in
  Ok result.

Definition Calculate (reading : CapacitorReading) : outcome CalculationResult :=
  let result := newResult reading in
  let info1 := GetColorInfo (Band1 reading) in
  let info2 := GetColorInfo (Band2 reading) in
  let info3 := GetColorInfo (Band3 reading) in
  if (negb (ValidDigit info1) || negb (ValidDigit info2))%bool
  then Err (Errorf "invalid digit colors for bands 1 or 2") else
  if negb (ValidMult info3)
  then Err (Errorf "invalid multiplier color for band 3") else
  let baseValue := of_int (Digit info1 * 10 + Digit info2) in
  let result := set_CapacitancePF (baseValue * Multiplier info3)%f64 result in
  let '(value, unit_) := scaleCapacitance (CapacitancePF result) in
  let result := set_CapacitanceUnit unit_ (set_CapacitanceValue value result) in
  match calculateTolerance result with
  | Err err => Err err
  | Ok result =>
      let result :=
        if ((BandCount reading >=? 4) && negb (Band5 reading =? ColorBlack))%bool
        then
          let '(voltage, valid) :=
            GetVoltageRatingFractional (CapType reading) (Band5 reading) in
          set_VoltageValid valid (set_VoltageRating voltage result)
        else result in
      let result :=
        if BandCount reading =? 5 then
          let '(coeff, valid) := GetTempCoefficient (Band5 reading) in
          set_TempCoeffValid valid (set_TempCoefficient coeff result)
        else result in
      Ok result
  end.

End Calculator.

(* ================================================================== *)
(** ** Resistor calculation (resistor.go) *)
(* ================================================================== *)

Module Resistor.
Import F64 Colors.

Record ResistorReading : Type := {
  Band1 : Color;
  Band2 : Color;
  Band3 : Color;
  Band4 : Color;
  Band5 : Color;
  Band6 : Color;
  BandCount : Z
}.

Record ResistorResult : Type := {
  ResistanceOhms : float64;
  ResistanceValue : float64;
  ResistanceUnit : string;
  TolerancePercent : float64;
  MinValue : float64;
  MaxValue : float64;
  MinUnit : string;
  MaxUnit : string;
  TempCoefficient : Z;
  TempCoeffValid : bool;
  Reading : ResistorReading
}.

Definition newResult (reading : ResistorReading) : ResistorResult :=
  {| ResistanceOhms := zero; ResistanceValue := zero; ResistanceUnit := "";
     TolerancePercent := zero; MinValue := zero; MaxValue := zero;
     MinUnit := ""; MaxUnit := "";
     TempCoefficient := 0; TempCoeffValid := false;
     Reading := reading |}.

(** Field assignments [result.F = v]. *)
Definition set_ResistanceOhms (v : float64) (r : ResistorResult) : ResistorResult :=
  {| ResistanceOhms := v; ResistanceValue := ResistanceValue r;
     ResistanceUnit := ResistanceUnit r; TolerancePercent :=
     TolerancePercent r; MinValue := MinValue r; MaxValue := MaxValue r;
     MinUnit := MinUnit r; MaxUnit := MaxUnit r; TempCoefficient :=
     TempCoefficient r; TempCoeffValid := TempCoeffValid r; Reading :=
     Reading r |}.

Definition set_ResistanceValue (v : float64) (r : ResistorResult) : ResistorResult :=
  {| ResistanceOhms := ResistanceOhms r; ResistanceValue := v;
     ResistanceUnit := ResistanceUnit r; TolerancePercent :=
     TolerancePercent r; MinValue := MinValue r; MaxValue := MaxValue r;
     MinUnit := MinUnit r; MaxUnit := MaxUnit r; TempCoefficient :=
     TempCoefficient r; TempCoeffValid := TempCoeffValid r; Reading :=
     Reading r |}.

Definition set_ResistanceUnit (v : string) (r : ResistorResult) : ResistorResult :=
  {| ResistanceOhms := ResistanceOhms r; ResistanceValue := ResistanceValue
     r; ResistanceUnit := v; TolerancePercent := TolerancePercent r;
     MinValue := MinValue r; MaxValue := MaxValue r; MinUnit := MinUnit r;
     MaxUnit := MaxUnit r; TempCoefficient := TempCoefficient r;
     TempCoeffValid := TempCoeffValid r; Reading := Reading r |}.

Definition set_TolerancePercent (v : float64) (r : ResistorResult) : ResistorResult :=
  {| ResistanceOhms := ResistanceOhms r; ResistanceValue := ResistanceValue
     r; ResistanceUnit := ResistanceUnit r; TolerancePercent := v; MinValue
     := MinValue r; MaxValue := MaxValue r; MinUnit := MinUnit r; MaxUnit :=
     MaxUnit r; TempCoefficient := TempCoefficient r; TempCoeffValid :=
     TempCoeffValid r; Reading := Reading r |}.

Definition set_MinValue (v : float64) (r : ResistorResult) : ResistorResult :=
  {| ResistanceOhms := ResistanceOhms r; ResistanceValue := ResistanceValue
     r; ResistanceUnit := ResistanceUnit r; TolerancePercent :=
     TolerancePercent r; MinValue := v; MaxValue := MaxValue r; MinUnit :=
     MinUnit r; MaxUnit := MaxUnit r; TempCoefficient := TempCoefficient r;
     TempCoeffValid := TempCoeffValid r; Reading := Reading r |}.

Definition set_MaxValue (v : float64) (r : ResistorResult) : ResistorResult :=
  {| ResistanceOhms := ResistanceOhms r; ResistanceValue := ResistanceValue
     r; ResistanceUnit := ResistanceUnit r; TolerancePercent :=
     TolerancePercent r; MinValue := MinValue r; MaxValue := v; MinUnit :=
     MinUnit r; MaxUnit := MaxUnit r; TempCoefficient := TempCoefficient r;
     TempCoeffValid := TempCoeffValid r; Reading := Reading r |}.

Definition set_MinUnit (v : string) (r : ResistorResult) : ResistorResult :=
  {| ResistanceOhms := ResistanceOhms r; ResistanceValue := ResistanceValue
     r; ResistanceUnit := ResistanceUnit r; TolerancePercent :=
     TolerancePercent r; MinValue := MinValue r; MaxValue := MaxValue r;
     MinUnit := v; MaxUnit := MaxUnit r; TempCoefficient := TempCoefficient
     r; TempCoeffValid := TempCoeffValid r; Reading := Reading r |}.

Definition set_MaxUnit (v : string) (r : ResistorResult) : ResistorResult :=
  {| ResistanceOhms := ResistanceOhms r; ResistanceValue := ResistanceValue
     r; ResistanceUnit := ResistanceUnit r; TolerancePercent :=
     TolerancePercent r; MinValue := MinValue r; MaxValue := MaxValue r;
     MinUnit := MinUnit r; MaxUnit := v; TempCoefficient := TempCoefficient
     r; TempCoeffValid := TempCoeffValid r; Reading := Reading r |}.

Definition set_TempCoefficient (v : Z) (r : ResistorResult) : ResistorResult :=
  {| ResistanceOhms := ResistanceOhms r; ResistanceValue := ResistanceValue
     r; ResistanceUnit := ResistanceUnit r; TolerancePercent :=
     TolerancePercent r; MinValue := MinValue r; MaxValue := MaxValue r;
     MinUnit := MinUnit r; MaxUnit := MaxUnit r; TempCoefficient := v;
     TempCoeffValid := TempCoeffValid r; Reading := Reading r |}.

Definition set_TempCoeffValid (v : bool) (r : ResistorResult) : ResistorResult :=
  {| ResistanceOhms := ResistanceOhms r; ResistanceValue := ResistanceValue
     r; ResistanceUnit := ResistanceUnit r; TolerancePercent :=
     TolerancePercent r; MinValue := MinValue r; MaxValue := MaxValue r;
     MinUnit := MinUnit r; MaxUnit := MaxUnit r; TempCoefficient :=
     TempCoefficient r; TempCoeffValid := v; Reading := Reading r |}.

Record ResistorToleranceInfo : Type := {
  Percent : float64;
  Name : string
}.

Definition zeroResistorToleranceInfo : ResistorToleranceInfo :=
  {| Percent := zero; Name := "" |}.

Definition resistorToleranceMap : list (Color * ResistorToleranceInfo) :=
  [ (ColorBrown, {| Percent := of_int 1; Name := "±1% (precision)" |});
    (ColorRed, {| Percent := of_int 2; Name := "±2% (precision)" |});
    (ColorGreen, {| Percent := dec 5 10; Name := "±0.5% (high precision)" |});
    (ColorBlue, {| Percent := dec 25 100; Name := "±0.25% (high precision)" |});
    (ColorViolet, {| Percent := dec 1 10; Name := "±0.1% (ultra precision)" |});
    (ColorGrey, {| Percent := dec 5 100; Name := "±0.05% (ultra precision)" |});
    (ColorGold, {| Percent := of_int 5; Name := "±5% (standard)" |});
    (ColorSilver, {| Percent := of_int 10; Name := "±10% (standard)" |}) ].

Definition resistorTempCoefficientMap : list (Color * Z) :=
  [ (ColorBlack, 250); (ColorBrown, 100); (ColorRed, 50); (ColorOrange, 15);
    (ColorYellow, 25); (ColorGreen, 20); (ColorBlue, 10); (ColorViolet, 5);
    (ColorGrey, 1) ].

Definition resistorMultiplierMap : list (Color * float64) :=
  [ (ColorBlack, of_int 1); (ColorBrown, of_int 10); (ColorRed, of_int 100);
    (ColorOrange, of_int 1000); (ColorYellow, of_int 10000);
    (ColorGreen, of_int 100000); (ColorBlue, of_int 1000000);
    (ColorViolet, of_int 10000000); (ColorGrey, of_int 100000000);
    (ColorWhite, of_int 1000000000); (ColorGold, dec 1 10);
    (ColorSilver, dec 1 100) ].

Definition GetResistorMultiplier (c : Color) : float64 * bool :=
  map_get Z.eqb zero resistorMultiplierMap c.

Definition GetResistorTolerance (c : Color) : ResistorToleranceInfo * bool :=
  map_get Z.eqb zeroResistorToleranceInfo resistorToleranceMap c.

Definition GetResistorTempCoefficient (c : Color) : Z * bool :=
  map_get Z.eqb 0 resistorTempCoefficientMap c.

Definition scaleResistance (ohms : float64) : float64 * string :=
  let ohmsToKOhms := of_int 1000 in
  let ohmsToMOhms := of_int 1000000 in
  let ohmsToGOhms := of_int 1000000000 in
  if (ohms >=? ohmsToGOhms)%f64 then ((ohms / ohmsToGOhms)%f64, "GΩ") else
  if (ohms >=? ohmsToMOhms)%f64 then ((ohms / ohmsToMOhms)%f64, "MΩ") else
  if (ohms >=? ohmsToKOhms)%f64 then ((ohms / ohmsToKOhms)%f64, "kΩ") else
  (ohms, "Ω").

(** The [switch] on the band count: the base value, the colour of the
    multiplier band and the result (updated for six bands), or the error
    of the case. *)
Definition baseAndMultiplier (reading : ResistorReading) (result : ResistorResult)
  : outcome (float64 * Color * ResistorResult) :=
  let info1 := GetColorInfo (Band1 reading) in
  let info2 := GetColorInfo (Band2 reading) in
  let info3 := GetColorInfo (Band3 reading) in
  if BandCount reading =? 4 then
    if (negb (ValidDigit info1) || negb (ValidDigit info2))%bool
    then Err (Errorf "invalid digit colors for bands 1 or 2") else
    Ok (of_int (Digit info1 * 10 + Digit info2), Band3 reading, result)
  else if BandCount reading =? 5 then
    if (negb (ValidDigit info1) || negb (ValidDigit info2)
        || negb (ValidDigit info3))%bool
    then Err (Errorf "invalid digit colors for bands 1, 2, or 3") else
    Ok (of_int (Digit info1 * 100 + Digit info2 * 10 + Digit info3),
        Band4 reading, result)
  else if BandCount reading =? 6 then
    if (negb (ValidDigit info1) || negb (ValidDigit info2)
        || negb (ValidDigit info3))%bool
    then Err (Errorf "invalid digit colors for bands 1, 2, or 3") else
    let '(tempCoeff, valid) := GetResistorTempCoefficient (Band6 reading) in
    let result := set_TempCoeffValid valid (set_TempCoefficient tempCoeff result) in
    Ok (of_int (Digit info1 * 100 + Digit info2 * 10 + Digit info3),
        Band4 reading, result)
  else
    Err (Errorf ("invalid band count: " ++ itoa (BandCount reading)
                 ++ " (must be 4, 5, or 6)")).

Definition CalculateResistor (reading : ResistorReading)
  : outcome ResistorResult :=
  let result := newResult reading in
  match baseAndMultiplier reading result with
  | Err err => Err err
  | Ok (baseValue, multiplierColor, result) =>
      let '(multiplier, valid) := GetResistorMultiplier multiplierColor in
      if negb valid then Err (Errorf "invalid multiplier color") else
      let result := set_ResistanceOhms (baseValue * multiplier)%f64 result in
      let '(value, unit_) := scaleResistance (ResistanceOhms result) in
      let result := set_ResistanceUnit unit_ (set_ResistanceValue value result) in
      let toleranceColor :=
        if BandCount reading >=? 5 then Band5 reading else Band4 reading in
      let '(tolInfo, exists_) := GetResistorTolerance toleranceColor in
      if negb exists_ then Err (Errorf "invalid tolerance color") else
      let result := set_TolerancePercent (Percent tolInfo) result in
      let hundred := of_int 100 in
      let one := of_int 1 in
      let result :=
        set_MinValue
          (ResistanceOhms result * (one - Percent tolInfo / hundred))%f64
          result in
      let result :=
        set_MaxValue
          (ResistanceOhms result * (one + Percent tolInfo / hundred))%f64
          result in
      let '(minValue, minUnit) := scaleResistance (MinValue result) in
      let result := set_MinUnit minUnit (set_MinValue minValue result) in
      let '(maxValue, maxUnit) := scaleResistance (MaxValue result) in
      let result := set_MaxUnit maxUnit (set_MaxValue maxValue result) in
      Ok result
  end.

End Resistor.

(* ================================================================== *)
(** ** Validation layer (validation.go) *)
(* ================================================================== *)

Module Validation.
Import F64 Colors Types Calculator.

Definition ValidateBand1 (color : Color) : option error :=
  let info := GetColorInfo color in
  if negb (ValidDigit info) then
    Some (ValidationError 1
            (Colors.Name info
             ++ " is not valid for first digit band (must be Black-White, 0-9)"))
  else None.

Definition ValidateBand2 (color : Color) : option error :=
  let info := GetColorInfo color in
  if negb (ValidDigit info) then
    Some (ValidationError 2
            (Colors.Name info
             ++ " is not valid for second digit band (must be Black-White, 0-9)"))
  else None.

Definition ValidateBand3 (color : Color) : option error :=
  let info := GetColorInfo color in
  if negb (ValidMult info) then
    Some (ValidationError 3
            (Colors.Name info ++ " is not valid for multiplier band"))
  else None.

Definition ValidateBand4 (color : Color) (capacitancePF : float64)
  : option error :=
  let '(_, exists_) := GetToleranceInfo color in
  if negb exists_ then
    let info := GetColorInfo color in
    Some (ValidationError 4
            (Colors.Name info ++ " is not valid for tolerance band"))
  else
  let '(tolInfo, _) := GetToleranceInfo color in
  if ((capacitancePF <=? of_int 10)%f64
      && (AbsolutePF tolInfo =? of_int 0)%f64)%bool then
    let info := GetColorInfo color in
    Some (ValidationError 4
            (Colors.Name info
             ++ " tolerance not typically used for capacitors ≤10pF (use Brown, Red, Green, or White for absolute tolerance)"))
  else None.

Definition ValidateBand5 (color : Color) (capType : CapacitorType)
           (bandCount : Z) : option error :=
  if bandCount <? 4 then None else
  let info := GetColorInfo color in
  let '(_, valid) := GetVoltageRatingFractional capType color in
  if ((bandCount >=? 4) && negb valid)%bool then
    let '(typeInfo, _) := GetTypeInfo capType in
    Some (ValidationError 5
            (Colors.Name info ++ " is not a valid voltage code for "
             ++ Description typeInfo ++ " capacitors"))
  else None.

Definition ValidateReading (reading : CapacitorReading) : option error :=
  match ValidateBand1 (Band1 reading) with
  | Some err => Some err
  | None =>
  match ValidateBand2 (Band2 reading) with
  | Some err => Some err
  | None =>
  match ValidateBand3 (Band3 reading) with
  | Some err => Some err
  | None =>
  let info1 := GetColorInfo (Band1 reading) in
  let info2 := GetColorInfo (Band2 reading) in
  let info3 := GetColorInfo (Band3 reading) in
  let capacitancePF :=
    (of_int (Digit info1 * 10 + Digit info2) * Multiplier info3)%f64 in
  match ValidateBand4 (Band4 reading) capacitancePF with
  | Some err => Some err
  | None =>
  if BandCount reading >=? 4 then
    match ValidateBand5 (Band5 reading) (CapType reading) (BandCount reading) with
    | Some err => Some err
    | None => None
    end
  else None
  end end end end.

Definition ValidateBandCount (count : Z) : option error :=
  if ((count <? 3) || (count >? 5))%bool
  then Some (Errorf "band count must be 3, 4, or 5")
  else None.

Definition ValidateResistorMultiplier (color : Color) (bandNum : Z)
  : option error :=
  let '(_, valid) := Resistor.GetResistorMultiplier color in
  if negb valid then
    let info := GetColorInfo color in
    Some (ValidationError bandNum
            (Colors.Name info ++ " is not valid for multiplier band"))
  else None.

Definition ValidateResistorBandCount (count : Z) : option error :=
  if ((count <? 4) || (count >? 6))%bool
  then Some (Errorf "resistor band count must be 4, 5, or 6")
  else None.

Definition ValidateCapacitorType (capType : CapacitorType) : option error :=
  let '(_, exists_) := GetTypeInfo capType in
  if negb exists_
  then Some (Errorf "invalid capacitor type (must be J, K, L, M, or N)")
  else None.

Definition ValidateResistorBand1 (color : Color) : option error :=
  let info := GetColorInfo color in
  if negb (ValidDigit info) then
    Some (ValidationError 1
            (Colors.Name info
             ++ " is not valid for first digit band (must be Black-White, 0-9)"))
  else None.

Definition ValidateResistorBand2 (color : Color) : option error :=
  let info := GetColorInfo color in
  if negb (ValidDigit info) then
    Some (ValidationError 2
            (Colors.Name info
             ++ " is not valid for second digit band (must be Black-White, 0-9)"))
  else None.

Definition ValidateResistorBand3 (color : Color) : option error :=
  let info := GetColorInfo color in
  if negb (ValidDigit info) then
    Some (ValidationError 3
            (Colors.Name info
             ++ " is not valid for third digit band (must be Black-White, 0-9)"))
  else None.

Definition ValidateResistorTolerance (color : Color) (bandNum : Z)
  : option error :=
  let '(_, exists_) := Resistor.GetResistorTolerance color in
  if negb exists_ then
    let info := GetColorInfo color in
    Some (ValidationError bandNum
            (Colors.Name info ++ " is not valid for tolerance band"))
  else None.

Definition ValidateResistorTempCoeff (color : Color) : option error :=
  let '(_, exists_) := Resistor.GetResistorTempCoefficient color in
  if negb exists_ then
    let info := GetColorInfo color in
    Some (ValidationError 6
            (Colors.Name info
             ++ " is not valid for temperature coefficient band"))
  else None.

(** [if err := f(); err != nil { return err }] followed by the rest. *)
Definition check_then (err : option error) (rest : option error)
  : option error :=
  match err with
  | Some e => Some e
  | None => rest
  end.

Definition ValidateResistorReading (reading : Resistor.ResistorReading)
  : option error :=
  if Resistor.BandCount reading =? 4 then
    check_then (ValidateResistorBand1 (Resistor.Band1 reading))
   (check_then (ValidateResistorBand2 (Resistor.Band2 reading))
   (check_then (ValidateResistorMultiplier (Resistor.Band3 reading) 3)
   (check_then (ValidateResistorTolerance (Resistor.Band4 reading) 4)
    None)))
  else if Resistor.BandCount reading =? 5 then
    check_then (ValidateResistorBand1 (Resistor.Band1 reading))
   (check_then (ValidateResistorBand2 (Resistor.Band2 reading))
   (check_then (ValidateResistorBand3 (Resistor.Band3 reading))
   (check_then (ValidateResistorMultiplier (Resistor.Band4 reading) 4)
   (check_then (ValidateResistorTolerance (Resistor.Band5 reading) 5)
    None))))
  else if Resistor.BandCount reading =? 6 then
    check_then (ValidateResistorBand1 (Resistor.Band1 reading))
   (check_then (ValidateResistorBand2 (Resistor.Band2 reading))
   (check_then (ValidateResistorBand3 (Resistor.Band3 reading))
   (check_then (ValidateResistorMultiplier (Resistor.Band4 reading) 4)
   (check_then (ValidateResistorTolerance (Resistor.Band5 reading) 5)
   (check_then (ValidateResistorTempCoeff (Resistor.Band6 reading))
    None)))))
  else
    Some (Errorf ("invalid band count: " ++ itoa (Resistor.BandCount reading)
                  ++ " (must be 4, 5, or 6)")).

End Validation.

(* ================================================================== *)
(** ** Autocomplete (autocomplete.go) *)
(* ================================================================== *)

Module Autocomplete.
Import Colors.

Section Suggest.
Context {tables : CaseTables}.

(** The loop over the candidate names: the first name that starts with the
    input gives the suggestion, the rest of that name. *)
Fixpoint firstCompletion (input : string) (validColors : list string)
  : string :=
  match validColors with
  | [] => ""
  | color :: rest =>
      let colorLower := ToLower color in
      if HasPrefix colorLower input
      then slice_from color (String.length input)
      else firstCompletion input rest
  end.

Definition GetColorSuggestion (input : string) (bandNum : Z) : string :=
  if String.eqb input "" then "" else
  let input := ToLower (TrimSpace input) in
  let validColors := AllColorNames in
  let validColors :=
    if ((bandNum =? 1) || (bandNum =? 2))%bool then
      filter (fun color =>
                (negb (String.eqb color "Gold")
                 && negb (String.eqb color "Silver"))%bool)
             validColors
    else validColors in
  firstCompletion input validColors.

End Suggest.

Definition GetFullColorFromInput (input suggestion : string) : string :=
  if String.eqb suggestion "" then input else input ++ suggestion.

End Autocomplete.

(* ================================================================== *)
(** ** Vocabulary of the specification *)
(* ================================================================== *)

(** The quantities and conditions the specification speaks about, written
    from its sentences; the theorems below relate them to the functions of
    the source. *)

Module Spec.
Import F64 Colors Types.

(** Raw picofarads of a capacitor reading:
    [(digit(Band1)*10 + digit(Band2)) * multiplier(Band3)]. *)
Definition rawPF (r : Calculator.CapacitorReading) : float64 :=
  (of_int (Digit (GetColorInfo (Calculator.Band1 r)) * 10
           + Digit (GetColorInfo (Calculator.Band2 r)))
   * Multiplier (GetColorInfo (Calculator.Band3 r)))%f64.

(** A minimum floored at 0. *)
Definition floor0 (x : float64) : float64 :=
  if (x <? of_int 0)%f64 then of_int 0 else x.

(** Lower and upper bound [raw*(1 - pct/100)] and [raw*(1 + pct/100)]. *)
Definition pct_low (raw pct : float64) : float64 :=
  (raw * (of_int 1 - pct / of_int 100))%f64.
Definition pct_high (raw pct : float64) : float64 :=
  (raw * (of_int 1 + pct / of_int 100))%f64.

(** Absolute tolerance: min/max = raw -/+ absolutePF, min floored at 0;
    the bounds are stored unit-scaled. *)
Definition absolute_range (raw : float64) (tol : ToleranceInfo)
           (res : Calculator.CalculationResult) : Prop :=
  Calculator.ToleranceType res = "absolute"
  /\ Calculator.ToleranceAbsolutePF res = AbsolutePF tol
  /\ (Calculator.MinValue res, Calculator.MinUnit res)
     = Calculator.scaleCapacitance (floor0 (raw - AbsolutePF tol)%f64)
  /\ (Calculator.MaxValue res, Calculator.MaxUnit res)
     = Calculator.scaleCapacitance (raw + AbsolutePF tol)%f64.

(** Percentage tolerance: min/max = raw*(1 -/+ pct/100) with the low and
    high percentages of the colour; the bounds are stored unit-scaled. *)
Definition percentage_range (raw : float64) (tol : ToleranceInfo)
           (res : Calculator.CalculationResult) : Prop :=
  Calculator.ToleranceType res = "percentage"
  /\ Calculator.TolerancePercent res = PercentHigh tol
  /\ (Calculator.MinValue res, Calculator.MinUnit res)
     = Calculator.scaleCapacitance (pct_low raw (PercentLow tol))
  /\ (Calculator.MaxValue res, Calculator.MaxUnit res)
     = Calculator.scaleCapacitance (pct_high raw (PercentHigh tol)).

(** Selection of the tolerance branch by the raw value and the colour. *)
Record tolerance_applied (raw : float64) (tol : ToleranceInfo)
       (res : Calculator.CalculationResult) : Prop := {
  ta_symmetric : Calculator.ToleranceSymmetric res = Symmetric tol;
  ta_high : Calculator.ToleranceHigh res = PercentHigh tol;
  ta_low : Calculator.ToleranceLow res = PercentLow tol;
  ta_small_absolute :
    (raw <=? of_int 10)%f64 = true ->
    (AbsolutePF tol =? of_int 0)%f64 = false ->
    absolute_range raw tol res;
  ta_small_percentage :
    (raw <=? of_int 10)%f64 = true ->
    (AbsolutePF tol =? of_int 0)%f64 = true ->
    percentage_range raw tol res;
  ta_large :
    (raw <=? of_int 10)%f64 = false ->
    percentage_range raw tol res
}.

(** A capacitor reading every step of the decode accepts. *)
Definition decodable (r : Calculator.CapacitorReading) : Prop :=
  ValidDigit (GetColorInfo (Calculator.Band1 r)) = true
  /\ ValidDigit (GetColorInfo (Calculator.Band2 r)) = true
  /\ ValidMult (GetColorInfo (Calculator.Band3 r)) = true
  /\ snd (GetToleranceInfo (Calculator.Band4 r)) = true.

(** What a successful capacitor decode returns: raw and scaled value, the
    tolerance by the branch selected, the voltage looked up only for a band
    count of at least 4 and a band 5 other than Black, the temperature
    coefficient looked up only for a band count of 5. *)
Record decoded (r : Calculator.CapacitorReading) (tol : ToleranceInfo)
       (res : Calculator.CalculationResult) : Prop := {
  d_reading : Calculator.Reading res = r;
  d_raw : Calculator.CapacitancePF res = rawPF r;
  d_scaled :
    (Calculator.CapacitanceValue res, Calculator.CapacitanceUnit res)
    = Calculator.scaleCapacitance (rawPF r);
  d_tolerance : tolerance_applied (rawPF r) tol res;
  d_voltage :
    (Calculator.VoltageRating res, Calculator.VoltageValid res)
    = if ((Calculator.BandCount r >=? 4)
          && negb (Calculator.Band5 r =? ColorBlack))%bool
      then GetVoltageRatingFractional (Calculator.CapType r)
                                      (Calculator.Band5 r)
      else (zero, false);
  d_temperature :
    (Calculator.TempCoefficient res, Calculator.TempCoeffValid res)
    = if Calculator.BandCount r =? 5
      then GetTempCoefficient (Calculator.Band5 r)
      else (0, false)
}.

(** Band layout of a resistor: two digits, multiplier, tolerance for four
    bands; three digits, multiplier, tolerance (and a temperature
    coefficient in band 6) for five and six bands. *)
Definition resistor_base (r : Resistor.ResistorReading) : Z :=
  let d1 := Digit (GetColorInfo (Resistor.Band1 r)) in
  let d2 := Digit (GetColorInfo (Resistor.Band2 r)) in
  let d3 := Digit (GetColorInfo (Resistor.Band3 r)) in
  if Resistor.BandCount r =? 4 then d1 * 10 + d2
  else d1 * 100 + d2 * 10 + d3.

Definition multiplier_band (r : Resistor.ResistorReading) : Color :=
  if Resistor.BandCount r =? 4 then Resistor.Band3 r else Resistor.Band4 r.

Definition tolerance_band (r : Resistor.ResistorReading) : Color :=
  if Resistor.BandCount r =? 4 then Resistor.Band4 r else Resistor.Band5 r.

Definition digits_valid (r : Resistor.ResistorReading) : bool :=
  (ValidDigit (GetColorInfo (Resistor.Band1 r))
   && ValidDigit (GetColorInfo (Resistor.Band2 r))
   && ((Resistor.BandCount r =? 4)
       || ValidDigit (GetColorInfo (Resistor.Band3 r))))%bool.

(** A resistor reading every step of the decode accepts. *)
Definition resistor_decodable (r : Resistor.ResistorReading) : Prop :=
  (Resistor.BandCount r = 4 \/ Resistor.BandCount r = 5
   \/ Resistor.BandCount r = 6)
  /\ digits_valid r = true
  /\ snd (Resistor.GetResistorMultiplier (multiplier_band r)) = true
  /\ snd (Resistor.GetResistorTolerance (tolerance_band r)) = true.

(** What a successful resistor decode returns. *)
Record resistor_decoded (r : Resistor.ResistorReading)
       (res : Resistor.ResistorResult) : Prop := {
  rd_reading : Resistor.Reading res = r;
  rd_raw :
    Resistor.ResistanceOhms res
    = (of_int (resistor_base r)
       * fst (Resistor.GetResistorMultiplier (multiplier_band r)))%f64;
  rd_scaled :
    (Resistor.ResistanceValue res, Resistor.ResistanceUnit res)
    = Resistor.scaleResistance (Resistor.ResistanceOhms res);
  rd_percent :
    Resistor.TolerancePercent res
    = Resistor.Percent
        (fst (Resistor.GetResistorTolerance (tolerance_band r)));
  rd_min :
    (Resistor.MinValue res, Resistor.MinUnit res)
    = Resistor.scaleResistance
        (pct_low (Resistor.ResistanceOhms res)
                 (Resistor.TolerancePercent res));
  rd_max :
    (Resistor.MaxValue res, Resistor.MaxUnit res)
    = Resistor.scaleResistance
        (pct_high (Resistor.ResistanceOhms res)
                  (Resistor.TolerancePercent res));
  rd_temperature :
    (Resistor.TempCoefficient res, Resistor.TempCoeffValid res)
    = if Resistor.BandCount r =? 6
      then Resistor.GetResistorTempCoefficient (Resistor.Band6 r)
      else (0, false)
}.

(** The error values of the decode functions, by the names of the
    specification. *)
Definition InvalidDigit : error :=
  Errorf "invalid digit colors for bands 1 or 2".
Definition InvalidDigit3 : error :=
  Errorf "invalid digit colors for bands 1, 2, or 3".
Definition InvalidMultiplier : error :=
  Errorf "invalid multiplier color for band 3".
Definition InvalidResistorMultiplier : error :=
  Errorf "invalid multiplier color".
Definition InvalidTolerance : error :=
  Errorf "invalid tolerance color for band 4".
Definition InvalidResistorTolerance : error :=
  Errorf "invalid tolerance color".
Definition InvalidBandCount (n : Z) : error :=
  Errorf ("invalid band count: " ++ itoa n ++ " (must be 4, 5, or 6)").

(** Text made of ASCII white space only. *)
Fixpoint all_space (s : string) : bool :=
  match s with
  | EmptyString => true
  | String a r => (isSpace a && all_space r)%bool
  end.

(** Text made of white space only: the encodings of white-space runes,
    ASCII or not. *)
Inductive white_space : string -> Prop :=
| white_empty : white_space ""
| white_rune (r : Z) (s : string) :
    IsSpace r = true -> white_space s -> white_space (EncodeRune r ++ s).

(** Concatenations of byte sequences of a list. *)
Inductive made_of (ps : list string) : string -> Prop :=
| made_of_nil : made_of ps ""
| made_of_cons (p r : string) :
    In p ps -> made_of ps r -> made_of ps (p ++ r).

(** No sequence of the list starts with another one, and none is empty. *)
Definition prefix_free (ps : list string) : bool :=
  forallb (fun p =>
             (negb (String.eqb p "")
              && forallb (fun q => implb (String.prefix p q) (String.eqb p q))
                         ps)%bool) ps.

(** The encodings of the white-space runes, read from the end. *)
Definition rev_encodings : list string := map reverse space_encodings.

(** A byte that continues an encoding, and a text that does not start
    with one. *)
Definition continuation (a : ascii) : bool :=
  ((0x80 <=? byte a) && (byte a <=? 0xBF))%bool.

Definition starts_rune (t : string) : bool :=
  match t with
  | EmptyString => true
  | String a _ => negb (continuation a)
  end.

Fixpoint all_continuation (s : string) : bool :=
  match s with
  | EmptyString => true
  | String a r => (continuation a && all_continuation r)%bool
  end.

(** An encoding: one byte that starts a rune, then continuation bytes. *)
Definition well_formed (p : string) : bool :=
  match p with
  | EmptyString => false
  | String a r => (negb (continuation a) && all_continuation r)%bool
  end.

(** A text without white space at its two ends. *)
Definition clear_edges (s : string) : Prop :=
  strip_any space_encodings s = None
  /\ strip_any rev_encodings (reverse s) = None.

(** A text of ASCII bytes other than white space. *)
Definition plain (a : ascii) : bool :=
  ((byte a <? RuneSelf) && negb (isSpace a))%bool.

Fixpoint plain_text (s : string) : bool :=
  match s with
  | EmptyString => true
  | String a r => (plain a && plain_text r)%bool
  end.

(** The keys of the name table: the twelve display names in lower case,
    and the spelling gray. *)
Definition recognized : list string := map fst Colors.colorNameMap.

(** The message of the band-4 validator for a small capacitor. *)
Definition small_capacitor_message (c : Color) : string :=
  Colors.Name (GetColorInfo c)
  ++ " tolerance not typically used for capacitors ≤10pF (use Brown, Red, Green, or White for absolute tolerance)".

(** Fields [calculateTolerance] leaves alone. *)
Definition same_outside_tolerance (a b : Calculator.CalculationResult) : Prop :=
  Calculator.CapacitancePF b = Calculator.CapacitancePF a
  /\ Calculator.CapacitanceValue b = Calculator.CapacitanceValue a
  /\ Calculator.CapacitanceUnit b = Calculator.CapacitanceUnit a
  /\ Calculator.VoltageRating b = Calculator.VoltageRating a
  /\ Calculator.VoltageValid b = Calculator.VoltageValid a
  /\ Calculator.TempCoefficient b = Calculator.TempCoefficient a
  /\ Calculator.TempCoeffValid b = Calculator.TempCoeffValid a
  /\ Calculator.Reading b = Calculator.Reading a.

(** Structural equality test on binary64 numbers, to check finitely many
    cases by computation. *)
Definition same_float (x y : float64) : bool :=
  match x, y with
  | S754_zero a, S754_zero b => Bool.eqb a b
  | S754_infinity a, S754_infinity b => Bool.eqb a b
  | S754_nan, S754_nan => true
  | S754_finite a m e, S754_finite b n f =>
      (Bool.eqb a b && Pos.eqb m n && Z.eqb e f)%bool
  | _, _ => false
  end.

(** The integers [0 .. n-1]. *)
Definition upto (n : nat) : list Z := map Z.of_nat (seq 0 n).


End Spec.

(* ================================================================== *)
(** ** Sample readings *)
(* ================================================================== *)

Module Samples.
Import F64 Colors Types.

(** Entries of the case tables of Unicode: the Latin-1 block, and the
    runes outside ASCII whose lower case or upper case is an ASCII letter
    (U+0130 and the Kelvin sign U+212A; U+0131 and U+017F).  The
    statements at concrete inputs are given for these tables. *)
Definition latin_tables : CaseTables :=
  {| LowerCase := fun r =>
       if ((0xC0 <=? r) && (r <=? 0xDE) && negb (r =? 0xD7))%bool
       then r + 0x20
       else if r =? 0x130 then 0x69
       else if r =? 0x212A then 0x6B
       else if r =? 0x212B then 0xE5
       else r;
     UpperCase := fun r =>
       if ((0xE0 <=? r) && (r <=? 0xFE) && negb (r =? 0xF7))%bool
       then r - 0x20
       else if r =? 0xB5 then 0x39C
       else if r =? 0xFF then 0x178
       else if r =? 0x131 then 0x49
       else if r =? 0x17F then 0x53
       else r |}.

Definition capacitor_10pF_brown : Calculator.CapacitorReading :=
  {| Calculator.Band1 := ColorBrown; Calculator.Band2 := ColorBlack;
     Calculator.Band3 := ColorBlack; Calculator.Band4 := ColorBrown;
     Calculator.Band5 := ColorBrown; Calculator.BandCount := 4;
     Calculator.CapType := TypeM |}.

Definition capacitor_10pF_black : Calculator.CapacitorReading :=
  {| Calculator.Band1 := ColorBrown; Calculator.Band2 := ColorBlack;
     Calculator.Band3 := ColorBlack; Calculator.Band4 := ColorBlack;
     Calculator.Band5 := ColorBlack; Calculator.BandCount := 3;
     Calculator.CapType := TypeK |}.

Definition capacitor_1000pF_grey : Calculator.CapacitorReading :=
  {| Calculator.Band1 := ColorBrown; Calculator.Band2 := ColorBlack;
     Calculator.Band3 := ColorRed; Calculator.Band4 := ColorGrey;
     Calculator.Band5 := ColorBlack; Calculator.BandCount := 4;
     Calculator.CapType := TypeK |}.

Definition resistor_4k7 (bandCount : Z) : Resistor.ResistorReading :=
  {| Resistor.Band1 := ColorYellow; Resistor.Band2 := ColorViolet;
     Resistor.Band3 := ColorBlack; Resistor.Band4 := ColorBrown;
     Resistor.Band5 := ColorBrown; Resistor.Band6 := ColorBlack;
     Resistor.BandCount := bandCount |}.

Definition brown_tolerance : ToleranceInfo :=
  {| PercentHigh := of_int 1; PercentLow := of_int 1; Symmetric := true;
     AbsolutePF := dec 1 10 |}.

Definition black_tolerance : ToleranceInfo :=
  {| PercentHigh := of_int 20; PercentLow := of_int 20; Symmetric := true;
     AbsolutePF := of_int 0 |}.

End Samples.

(* ================================================================== *)
(** ** Orders on units and finite checks *)
(* ================================================================== *)

Module Checks.
Import F64 Colors Types.

(** Position of a unit in the scale pF, nF, µF, mF and in the scale
    Ω, kΩ, MΩ, GΩ. *)
Definition capacitance_rank (u : string) : Z :=
  if String.eqb u "pF" then 0 else
  if String.eqb u "nF" then 1 else
  if String.eqb u "µF" then 2 else
  if String.eqb u "mF" then 3 else -1.

Definition resistance_rank (u : string) : Z :=
  if String.eqb u "Ω" then 0 else
  if String.eqb u "kΩ" then 1 else
  if String.eqb u "MΩ" then 2 else
  if String.eqb u "GΩ" then 3 else -1.

(** The bounds of a capacitor before unit scaling, by the branch of
    [calculateTolerance]; [bounds_with] takes the two percentage factors,
    the absolute value, the limit of 10 pF and whether the colour has an
    absolute value. *)
Definition bounds_with (flo fhi ab ten : float64) (has_abs : bool)
           (raw : float64) : float64 * float64 :=
  if ((raw <=? ten)%f64 && has_abs)%bool
  then (Spec.floor0 (raw - ab)%f64, (raw + ab)%f64)
  else ((raw * flo)%f64, (raw * fhi)%f64).

Definition tolerance_bounds (raw : float64) (tol : ToleranceInfo)
  : float64 * float64 :=
  bounds_with (of_int 1 - PercentLow tol / of_int 100)%f64
              (of_int 1 + PercentHigh tol / of_int 100)%f64
              (AbsolutePF tol) (of_int 10)
              (negb (AbsolutePF tol =? of_int 0)%f64) raw.

(** [0 <= lo <= raw <= hi]. *)
Definition brackets (raw : float64) (b : float64 * float64) : bool :=
  ((zero <=? fst b)%f64 && (fst b <=? raw)%f64 && (raw <=? snd b)%f64)%bool.

(** Every raw value two digit bands and a multiplier band can give. *)
Definition raws_for (m : float64) : list float64 :=
  map (fun n => (of_int n * m)%f64) (Spec.upto 100).

Definition capacitor_raws : list float64 :=
  flat_map (fun b3 => raws_for (Multiplier (GetColorInfo b3))) (Spec.upto 12).

(** The finite checks: every raw value is bracketed by its bounds for
    every tolerance colour; every raw value is between 0 and 990000000 pF,
    below the threshold of mF; a resistor base of up to three digits times
    a multiplier 1 .. 10^9 is the exact integer. *)
Definition bracketed_by (f : float64 -> float64 * float64)
           (raws : list float64) : bool :=
  forallb (fun raw => brackets raw (f raw)) raws.

Definition bracketed_for (raws : list float64) (p : ToleranceInfo * bool)
  : bool :=
  if snd p then
    bracketed_by
      (bounds_with (of_int 1 - PercentLow (fst p) / of_int 100)%f64
                   (of_int 1 + PercentHigh (fst p) / of_int 100)%f64
                   (AbsolutePF (fst p)) (of_int 10)
                   (negb (AbsolutePF (fst p) =? of_int 0)%f64))
      raws
  else true.

Definition bracketed_all (raws : list float64) : bool :=
  forallb (fun b4 => bracketed_for raws (GetToleranceInfo b4)) (Spec.upto 12).

Definition below_mF (top mF : float64) (raws : list float64) : bool :=
  forallb (fun raw =>
             ((zero <=? raw)%f64 && (raw <=? top)%f64
              && negb (raw >=? mF)%f64)%bool)
          raws.

Definition ohms_exact_for (m : float64) (k : Z) : bool :=
  forallb (fun n =>
             Spec.same_float (of_int n * m)%f64 (of_int (n * 10 ^ k)))
          (Spec.upto 1000).

Definition ohms_exact (ks : list Z) : bool :=
  forallb (fun k => ohms_exact_for (fst (Resistor.GetResistorMultiplier k)) k)
          ks.

(** The resistances a two-digit base can give, for each multiplier colour
    (Gold and Silver included). *)
Definition resistor_raws : list float64 :=
  flat_map (fun k => raws_for (fst (Resistor.GetResistorMultiplier k)))
           (Spec.upto 12).

(** Lower and upper bound of a percentage range around the value. *)
Definition factors_bracket (flo fhi raw : float64) : bool :=
  ((zero <=? raw * flo)%f64 && (raw * flo <=? raw)%f64
   && (raw <=? raw * fhi)%f64)%bool.

Definition percent_bracketed_for (raws : list float64)
           (p : Resistor.ResistorToleranceInfo * bool) : bool :=
  if snd p
  then forallb
         (factors_bracket
            (of_int 1 - Resistor.Percent (fst p) / of_int 100)%f64
            (of_int 1 + Resistor.Percent (fst p) / of_int 100)%f64) raws
  else true.

Definition percent_bracketed_all (raws : list float64) : bool :=
  forallb (fun b => percent_bracketed_for raws (Resistor.GetResistorTolerance b))
          (Spec.upto 12).

(** The candidates of the autocomplete for a band. *)
Definition candidates (bandNum : Z) : list string :=
  if ((bandNum =? 1) || (bandNum =? 2))%bool
  then filter (fun color =>
                 (negb (String.eqb color "Gold")
                  && negb (String.eqb color "Silver"))%bool) AllColorNames
  else AllColorNames.

End Checks.

(* ================================================================== *)
(** * Properties *)
(* ================================================================== *)

(** ** Proof steps shared by the sections below *)

(** Projections of assigned fields. *)
Ltac cap_fields :=
  cbn [Calculator.CapacitancePF Calculator.CapacitanceValue
       Calculator.CapacitanceUnit Calculator.ToleranceType
       Calculator.TolerancePercent Calculator.ToleranceAbsolutePF
       Calculator.ToleranceSymmetric Calculator.ToleranceHigh
       Calculator.ToleranceLow Calculator.MinValue Calculator.MaxValue
       Calculator.MinUnit Calculator.MaxUnit Calculator.VoltageRating
       Calculator.VoltageValid Calculator.TempCoefficient
       Calculator.TempCoeffValid Calculator.Reading
       Calculator.set_CapacitancePF Calculator.set_CapacitanceValue
       Calculator.set_CapacitanceUnit Calculator.set_ToleranceType
       Calculator.set_TolerancePercent Calculator.set_ToleranceAbsolutePF
       Calculator.set_ToleranceSymmetric Calculator.set_ToleranceHigh
       Calculator.set_ToleranceLow Calculator.set_MinValue
       Calculator.set_MaxValue Calculator.set_MinUnit Calculator.set_MaxUnit
       Calculator.set_VoltageRating Calculator.set_VoltageValid
       Calculator.set_TempCoefficient Calculator.set_TempCoeffValid
       Calculator.newResult Calculator.Band1 Calculator.Band2
       Calculator.Band3 Calculator.Band4 Calculator.Band5
       Calculator.BandCount Calculator.CapType].

Ltac res_fields :=
  cbn [Resistor.ResistanceOhms Resistor.ResistanceValue
       Resistor.ResistanceUnit Resistor.TolerancePercent Resistor.MinValue
       Resistor.MaxValue Resistor.MinUnit Resistor.MaxUnit
       Resistor.TempCoefficient Resistor.TempCoeffValid Resistor.Reading
       Resistor.set_ResistanceOhms Resistor.set_ResistanceValue
       Resistor.set_ResistanceUnit Resistor.set_TolerancePercent
       Resistor.set_MinValue Resistor.set_MaxValue Resistor.set_MinUnit
       Resistor.set_MaxUnit Resistor.set_TempCoefficient
       Resistor.set_TempCoeffValid Resistor.newResult Resistor.Band1
       Resistor.Band2 Resistor.Band3 Resistor.Band4 Resistor.Band5
       Resistor.Band6 Resistor.BandCount].

(** Name the two components of a scaled value. *)
Ltac scaled_pair E :=
  match goal with
  | |- context [Calculator.scaleCapacitance ?x] =>
      destruct (Calculator.scaleCapacitance x) as [? ?] eqn:E
  | |- context [Resistor.scaleResistance ?x] =>
      destruct (Resistor.scaleResistance x) as [? ?] eqn:E
  end.

(** Closed equations are settled by evaluation. *)
Ltac evaluate := vm_compute; reflexivity.

(** A decode that stopped with an error returned no result. *)
Ltac failed_decode :=
  match goal with
  | |- Err _ = Ok _ -> _ => discriminate
  end.

(** The twelve colour constants as integers. *)
Ltac unfold_colors :=
  unfold Colors.ColorBlack, Colors.ColorBrown, Colors.ColorRed,
    Colors.ColorOrange, Colors.ColorYellow, Colors.ColorGreen,
    Colors.ColorBlue, Colors.ColorViolet, Colors.ColorGrey,
    Colors.ColorWhite, Colors.ColorGold, Colors.ColorSilver in *.

(** ** Order of binary64 numbers *)

Section FloatOrder.
Import F64.

Lemma compare_antisym (x y : float64) :
  SFcompare y x = option_map CompOpp (SFcompare x y).
Proof.
  destruct x as [sx | sx | | sx mx ex], y as [sy | sy | | sy my ey];
    simpl; try reflexivity;
    try (destruct sx; reflexivity); try (destruct sy; reflexivity);
    try (destruct sx, sy; reflexivity).
  change (Pos.compare_cont Eq my mx) with (Pos.compare my mx).
  change (Pos.compare_cont Eq mx my) with (Pos.compare mx my).
  rewrite (Z.compare_antisym ex ey), (Pos.compare_antisym mx my).
  destruct sx, sy; simpl; try reflexivity;
    destruct (ex ?= ey); simpl; try reflexivity;
    destruct (mx ?= my)%positive; reflexivity.
Qed.

(** [x < y] excludes [x >= y]. *)
Lemma ltb_not_geb (x y : float64) :
  (x <? y)%f64 = true -> (x >=? y)%f64 = false.
Proof.
  unfold ltb, geb, SFltb, SFleb. rewrite (compare_antisym x y).
  destruct (SFcompare x y) as [[ | | ] | ]; simpl; congruence.
Qed.

(** [x >= y] excludes [x < y]. *)
Lemma geb_not_ltb (x y : float64) :
  (x >=? y)%f64 = true -> (x <? y)%f64 = false.
Proof.
  intros H. destruct (x <? y)%f64 eqn:E; [ | reflexivity ].
  apply ltb_not_geb in E. congruence.
Qed.

Lemma ltb_trans (x y z : float64) :
  (x <? y)%f64 = true -> (y <? z)%f64 = true -> (x <? z)%f64 = true.
Proof.
  unfold ltb, SFltb.
  destruct x as [sx | sx | | sx mx ex], y as [sy | sy | | sy my ey],
           z as [sz | sz | | sz mz ez]; simpl;
    try discriminate; try reflexivity;
    try (destruct sx; simpl; congruence);
    try (destruct sy; simpl; congruence);
    try (destruct sz; simpl; congruence);
    try (destruct sx, sy; simpl; congruence);
    try (destruct sx, sz; simpl; congruence);
    try (destruct sy, sz; simpl; congruence);
    try (destruct sx, sy, sz; simpl; congruence).
  change (Pos.compare_cont Eq mx my) with (Pos.compare mx my).
  change (Pos.compare_cont Eq my mz) with (Pos.compare my mz).
  change (Pos.compare_cont Eq mx mz) with (Pos.compare mx mz).
  destruct sx, sy, sz; try discriminate; try reflexivity;
    destruct (Z.compare_spec ex ey), (Z.compare_spec ey ez),
             (Z.compare_spec ex ez); try discriminate; try reflexivity;
    try lia; subst;
    destruct (Pos.compare_spec mx my), (Pos.compare_spec my mz),
             (Pos.compare_spec mx mz); simpl; try discriminate;
    try reflexivity; try lia.
Qed.

(** Below a threshold means below every larger threshold. *)
Lemma ltb_below (x a b : float64) :
  (x <? a)%f64 = true -> (a <? b)%f64 = true -> (x >=? b)%f64 = false.
Proof.
  intros Hx Hab. apply ltb_not_geb. exact (ltb_trans x a b Hx Hab).
Qed.

End FloatOrder.

(** ** Unit scaling *)

Section UnitScaling.
Import F64.

Lemma thresholds_ordered :
  (of_int 1000 <? of_int 1000000)%f64 = true
  /\ (of_int 1000000 <? of_int 1000000000)%f64 = true
  /\ (of_int 1000 <? of_int 1000000000)%f64 = true.
Proof. repeat split; vm_compute; reflexivity. Qed.

Lemma scaleCapacitance_cases (x : float64) :
  ((x <? of_int 1000)%f64 = true ->
     Calculator.scaleCapacitance x = (x, "pF"))
  /\ ((x >=? of_int 1000)%f64 = true -> (x <? of_int 1000000)%f64 = true ->
     Calculator.scaleCapacitance x = ((x / of_int 1000)%f64, "nF"))
  /\ ((x >=? of_int 1000000)%f64 = true ->
      (x <? of_int 1000000000)%f64 = true ->
     Calculator.scaleCapacitance x = ((x / of_int 1000000)%f64, "µF"))
  /\ ((x >=? of_int 1000000000)%f64 = true ->
     Calculator.scaleCapacitance x = ((x / of_int 1000000000)%f64, "mF")).
Proof.
  destruct thresholds_ordered as (H36 & H69 & H39).
  unfold Calculator.scaleCapacitance; cbv zeta. repeat split.
  - intros H.
    rewrite (ltb_below x _ _ H H39), (ltb_below x _ _ H H36),
      (ltb_not_geb x _ H). reflexivity.
  - intros H1 H2.
    rewrite (ltb_below x _ _ H2 H69), (ltb_not_geb x _ H2), H1. reflexivity.
  - intros H1 H2. rewrite (ltb_not_geb x _ H2), H1. reflexivity.
  - intros H. rewrite H. reflexivity.
Qed.

Lemma scaleResistance_cases (x : float64) :
  ((x <? of_int 1000)%f64 = true ->
     Resistor.scaleResistance x = (x, "Ω"))
  /\ ((x >=? of_int 1000)%f64 = true -> (x <? of_int 1000000)%f64 = true ->
     Resistor.scaleResistance x = ((x / of_int 1000)%f64, "kΩ"))
  /\ ((x >=? of_int 1000000)%f64 = true ->
      (x <? of_int 1000000000)%f64 = true ->
     Resistor.scaleResistance x = ((x / of_int 1000000)%f64, "MΩ"))
  /\ ((x >=? of_int 1000000000)%f64 = true ->
     Resistor.scaleResistance x = ((x / of_int 1000000000)%f64, "GΩ")).
Proof.
  destruct thresholds_ordered as (H36 & H69 & H39).
  unfold Resistor.scaleResistance; cbv zeta. repeat split.
  - intros H.
    rewrite (ltb_below x _ _ H H39), (ltb_below x _ _ H H36),
      (ltb_not_geb x _ H). reflexivity.
  - intros H1 H2.
    rewrite (ltb_below x _ _ H2 H69), (ltb_not_geb x _ H2), H1. reflexivity.
  - intros H1 H2. rewrite (ltb_not_geb x _ H2), H1. reflexivity.
  - intros H. rewrite H. reflexivity.
Qed.

(** C7. Unit auto-scaling is boundary-exact with thresholds 1000, 10^6 and
    10^9: every value below 1000 stays in pF, every value in [1000, 10^6)
    becomes nF, every value in [10^6, 10^9) becomes µF and every value at
    or above 10^9 becomes mF, the scaled value being the quotient by the
    threshold; 999 pF stays pF, exactly 1000 pF becomes 1 nF, 999999 pF
    stays nF, 1000000 pF becomes 1 µF.  Resistance follows the same
    pattern over Ω, kΩ, MΩ and GΩ. *)
Theorem C7_unit_scaling_boundary_exact :
  (forall x : float64,
      ((x <? of_int 1000)%f64 = true ->
         Calculator.scaleCapacitance x = (x, "pF"))
      /\ ((x >=? of_int 1000)%f64 = true ->
          (x <? of_int 1000000)%f64 = true ->
         Calculator.scaleCapacitance x = ((x / of_int 1000)%f64, "nF"))
      /\ ((x >=? of_int 1000000)%f64 = true ->
          (x <? of_int 1000000000)%f64 = true ->
         Calculator.scaleCapacitance x = ((x / of_int 1000000)%f64, "µF"))
      /\ ((x >=? of_int 1000000000)%f64 = true ->
         Calculator.scaleCapacitance x
         = ((x / of_int 1000000000)%f64, "mF")))
  /\ (forall x : float64,
      ((x <? of_int 1000)%f64 = true ->
         Resistor.scaleResistance x = (x, "Ω"))
      /\ ((x >=? of_int 1000)%f64 = true ->
          (x <? of_int 1000000)%f64 = true ->
         Resistor.scaleResistance x = ((x / of_int 1000)%f64, "kΩ"))
      /\ ((x >=? of_int 1000000)%f64 = true ->
          (x <? of_int 1000000000)%f64 = true ->
         Resistor.scaleResistance x = ((x / of_int 1000000)%f64, "MΩ"))
      /\ ((x >=? of_int 1000000000)%f64 = true ->
         Resistor.scaleResistance x
         = ((x / of_int 1000000000)%f64, "GΩ")))
  /\ Calculator.scaleCapacitance (of_int 999) = (of_int 999, "pF")
  /\ Calculator.scaleCapacitance (of_int 1000) = (of_int 1, "nF")
  /\ Calculator.scaleCapacitance (of_int 999999) = (dec 999999 1000, "nF")
  /\ Calculator.scaleCapacitance (of_int 1000000) = (of_int 1, "µF")
  /\ Calculator.scaleCapacitance (of_int 999999999)
     = (dec 999999999 1000000, "µF")
  /\ Calculator.scaleCapacitance (of_int 1000000000) = (of_int 1, "mF")
  /\ Resistor.scaleResistance (of_int 999) = (of_int 999, "Ω")
  /\ Resistor.scaleResistance (of_int 1000) = (of_int 1, "kΩ")
  /\ Resistor.scaleResistance (of_int 999999) = (dec 999999 1000, "kΩ")
  /\ Resistor.scaleResistance (of_int 1000000) = (of_int 1, "MΩ")
  /\ Resistor.scaleResistance (of_int 999999999)
     = (dec 999999999 1000000, "MΩ")
  /\ Resistor.scaleResistance (of_int 1000000000) = (of_int 1, "GΩ").
Proof.
  split; [ exact scaleCapacitance_cases | ].
  split; [ exact scaleResistance_cases | ].
  repeat split; vm_compute; reflexivity.
Qed.

End UnitScaling.

(** ** Integers used as colours *)

Section ColourCases.
Import F64 Colors.

Lemma is_color_range (c : Color) : is_color c <-> 0 <= c <= 11.
Proof.
  unfold is_color, AllColors, ColorBlack, ColorBrown, ColorRed, ColorOrange,
    ColorYellow, ColorGreen, ColorBlue, ColorViolet, ColorGrey, ColorWhite,
    ColorGold, ColorSilver.
  simpl. lia.
Qed.

(** A key that occurs nowhere in a map literal reads as the zero value. *)
Lemma map_get_absent {V : Type} (z : V) (m : list (Z * V)) (c : Z) :
  (forall kv, In kv m -> fst kv <> c) ->
  map_get Z.eqb z m c = (z, false).
Proof.
  intros H. unfold map_get.
  destruct (find (fun kv => fst kv =? c) m) as [kv | ] eqn:E;
    [ | reflexivity ].
  apply find_some in E. destruct E as [Hin Heq].
  apply Z.eqb_eq in Heq. elim (H kv Hin Heq).
Qed.

(** Case analysis on an integer used as a colour: one of the twelve
    constants, or a value outside the enumeration. *)
Lemma color_cases (c : Color) :
  (c < 0 \/ 11 < c)
  \/ c = ColorBlack \/ c = ColorBrown \/ c = ColorRed \/ c = ColorOrange
  \/ c = ColorYellow \/ c = ColorGreen \/ c = ColorBlue \/ c = ColorViolet
  \/ c = ColorGrey \/ c = ColorWhite \/ c = ColorGold \/ c = ColorSilver.
Proof.
  unfold ColorBlack, ColorBrown, ColorRed, ColorOrange, ColorYellow,
    ColorGreen, ColorBlue, ColorViolet, ColorGrey, ColorWhite, ColorGold,
    ColorSilver. lia.
Qed.

End ColourCases.

(** A key outside the keys of a map literal. *)
Ltac absent_key :=
  apply map_get_absent; intros kv Hin; simpl in Hin;
  repeat (destruct Hin as [<- | Hin]; [ cbv; lia | ]); contradiction.

(** One case for a value outside the enumeration, then one per colour. *)
Ltac by_color c :=
  destruct (color_cases c)
    as [? | [? | [? | [? | [? | [? | [? | [? | [? | [? | [? | [? | ?]]]]]]]]]]]];
  [ | subst c .. ].

(** ** Facts about the colour tables *)

Section ColourTables.
Import F64 Colors.

Lemma GetColorInfo_unknown (c : Color) :
  c < 0 \/ 11 < c -> GetColorInfo c = zeroColorInfo.
Proof.
  intros H. unfold GetColorInfo, map_index.
  replace (map_get Z.eqb zeroColorInfo colorMap c) with (zeroColorInfo, false);
    [ reflexivity | symmetry; unfold colorMap; absent_key ].
Qed.

Lemma GetToleranceInfo_unknown (c : Color) :
  c < 0 \/ 11 < c -> GetToleranceInfo c = (zeroToleranceInfo, false).
Proof. intros H. unfold GetToleranceInfo, toleranceMap. absent_key. Qed.

Lemma GetResistorMultiplier_unknown (c : Color) :
  c < 0 \/ 11 < c -> Resistor.GetResistorMultiplier c = (zero, false).
Proof.
  intros H. unfold Resistor.GetResistorMultiplier,
    Resistor.resistorMultiplierMap. absent_key.
Qed.

(** Exactly Black..White are digit colours. *)
Lemma ValidDigit_iff (c : Color) :
  ValidDigit (GetColorInfo c) = true <-> ColorBlack <= c <= ColorWhite.
Proof.
  by_color c;
    [ rewrite GetColorInfo_unknown by assumption;
      unfold ColorBlack, ColorWhite; simpl; split; [ discriminate | lia ]
    | .. ];
    vm_compute; split; intros; try discriminate; try reflexivity;
    try (split; discriminate);
    match goal with H : _ /\ _ |- _ => destruct H as [H1 H2] end;
    try (elim H1; reflexivity); try (elim H2; reflexivity).
Qed.

(** Every colour of the enumeration, and no other value, is a multiplier
    colour of the capacitor table. *)
Lemma ValidMult_iff (c : Color) :
  ValidMult (GetColorInfo c) = true <-> is_color c.
Proof.
  rewrite is_color_range.
  by_color c;
    [ rewrite GetColorInfo_unknown by assumption; simpl;
      split; [ discriminate | lia ]
    | .. ];
    vm_compute; split; intros; try reflexivity; split; discriminate.
Qed.

(** The digit of a digit colour is its rank, and the multiplier of
    Black..Violet is the power of ten of its rank. *)
Lemma Digit_rank (c : Color) :
  ColorBlack <= c <= ColorWhite -> Digit (GetColorInfo c) = c.
Proof.
  intros H. by_color c; unfold_colors; try lia; reflexivity.
Qed.

Lemma Multiplier_power (c : Color) :
  ColorBlack <= c <= ColorViolet ->
  Multiplier (GetColorInfo c) = of_int (10 ^ c).
Proof.
  intros H. by_color c; unfold_colors; try lia; vm_compute; reflexivity.
Qed.

(** The capacitor tolerance table holds every colour but Blue and Violet. *)
Lemma tolerance_table_colors (c : Color) :
  snd (GetToleranceInfo c) = true
  <-> is_color c /\ c <> ColorBlue /\ c <> ColorViolet.
Proof.
  rewrite is_color_range.
  by_color c;
    [ rewrite GetToleranceInfo_unknown by assumption; simpl;
      split; [ discriminate | lia ]
    | .. ];
    vm_compute; split; intros; try reflexivity; try discriminate;
    try (repeat split; discriminate);
    match goal with H : _ /\ _ /\ _ |- _ => destruct H as (_ & H1 & H2) end;
    try (elim H1; reflexivity); try (elim H2; reflexivity).
Qed.

(** The colours of the tolerance table with an absolute value are Brown,
    Red, Green and White. *)
Lemma absolute_colors (c : Color) (tol : ToleranceInfo) :
  GetToleranceInfo c = (tol, true) ->
  ((AbsolutePF tol =? of_int 0)%f64 = false
   <-> c = ColorBrown \/ c = ColorRed \/ c = ColorGreen \/ c = ColorWhite).
Proof.
  intros H.
  by_color c;
    [ rewrite GetToleranceInfo_unknown in H by assumption; discriminate
    | .. ];
    vm_compute in H; try discriminate; injection H as <-;
    vm_compute; split; intros; try reflexivity; try discriminate; try tauto;
    repeat match goal with H : _ \/ _ |- _ => destruct H as [H | H] end;
    discriminate.
Qed.

(** Grey is the asymmetric colour of the tolerance table, +80% / -20%;
    every other colour has equal high and low percentages. *)
Lemma symmetric_colors (c : Color) (tol : ToleranceInfo) :
  GetToleranceInfo c = (tol, true) ->
  (c = ColorGrey ->
     Symmetric tol = false /\ PercentHigh tol = of_int 80
     /\ PercentLow tol = of_int 20)
  /\ (c <> ColorGrey ->
     Symmetric tol = true /\ PercentHigh tol = PercentLow tol).
Proof.
  intros H.
  by_color c;
    [ rewrite GetToleranceInfo_unknown in H by assumption; discriminate
    | .. ];
    vm_compute in H; try discriminate; injection H as <-;
    split; intros Hc; try discriminate; try (elim Hc; reflexivity);
    repeat split.
Qed.

(** The resistor multiplier table holds every colour of the enumeration
    and nothing else. *)
Lemma resistor_multiplier_total (c : Color) :
  snd (Resistor.GetResistorMultiplier c) = true <-> is_color c.
Proof.
  rewrite is_color_range.
  by_color c;
    [ rewrite GetResistorMultiplier_unknown by assumption; simpl;
      split; [ discriminate | lia ]
    | .. ];
    vm_compute; split; intros; try reflexivity; split; discriminate.
Qed.

(** Every number of the tables is a binary64 number. *)
Lemma table_values_binary64 :
  Forall is_float64
    (map (fun kv => Multiplier (snd kv)) colorMap
     ++ map (fun kv => PercentHigh (snd kv)) toleranceMap
     ++ map (fun kv => PercentLow (snd kv)) toleranceMap
     ++ map (fun kv => AbsolutePF (snd kv)) toleranceMap
     ++ map snd Types.voltageMap
     ++ map snd Resistor.resistorMultiplierMap
     ++ map (fun kv => Resistor.Percent (snd kv))
            Resistor.resistorToleranceMap)%list.
Proof.
  apply Forall_forall. intros x Hx.
  assert (Hall :
    forallb (valid_binary prec emax)
      (map (fun kv => Multiplier (snd kv)) colorMap
       ++ map (fun kv => PercentHigh (snd kv)) toleranceMap
       ++ map (fun kv => PercentLow (snd kv)) toleranceMap
       ++ map (fun kv => AbsolutePF (snd kv)) toleranceMap
       ++ map snd Types.voltageMap
       ++ map snd Resistor.resistorMultiplierMap
       ++ map (fun kv => Resistor.Percent (snd kv))
              Resistor.resistorToleranceMap)%list = true) by evaluate.
  rewrite forallb_forall in Hall. exact (Hall x Hx).
Qed.

End ColourTables.


(** ** The capacitor decode, step by step *)

Section CapacitorDecode.
Import F64 Colors Types Calculator Spec.

Lemma calculateTolerance_missing (res : CalculationResult) :
  snd (GetToleranceInfo (Band4 (Reading res))) = false ->
  calculateTolerance res = Err InvalidTolerance.
Proof.
  intros H. unfold calculateTolerance.
  destruct (GetToleranceInfo (Band4 (Reading res))) as [tol ex].
  simpl in H. subst ex. reflexivity.
Qed.

Lemma calculateTolerance_ok (res : CalculationResult) (tol : ToleranceInfo) :
  GetToleranceInfo (Band4 (Reading res)) = (tol, true) ->
  exists res',
    calculateTolerance res = Ok res'
    /\ tolerance_applied (CapacitancePF res) tol res'
    /\ same_outside_tolerance res res'.
Proof.
  intros H. unfold calculateTolerance. rewrite H. cbv zeta. cbn [negb].
  cbv beta iota. cap_fields.
  destruct (CapacitancePF res <=? of_int 10)%f64 eqn:Hsmall;
    [ destruct (AbsolutePF tol =? of_int 0)%f64 eqn:Habs;
      [ | cap_fields;
          destruct (CapacitancePF res - AbsolutePF tol <? of_int 0)%f64
            eqn:Hneg ] | ];
    cap_fields; scaled_pair Emin; cap_fields; scaled_pair Emax;
    (eexists; split; [ reflexivity | ]);
    (split; [ | repeat split ]);
    (split; cap_fields; try reflexivity; try congruence; intros;
     unfold absolute_range, percentage_range, pct_low, pct_high, floor0;
     try rewrite Hneg; cap_fields; rewrite ?Emin, ?Emax; repeat split).
Qed.

Lemma Calculate_invalid_digit (r : CapacitorReading) :
  ValidDigit (GetColorInfo (Band1 r)) = false
  \/ ValidDigit (GetColorInfo (Band2 r)) = false ->
  Calculate r = Err InvalidDigit.
Proof.
  intros H. unfold Calculate. cbv zeta.
  destruct H as [H | H]; rewrite H; cbn [negb orb];
    rewrite ?orb_true_r; reflexivity.
Qed.

Lemma Calculate_invalid_multiplier (r : CapacitorReading) :
  ValidDigit (GetColorInfo (Band1 r)) = true ->
  ValidDigit (GetColorInfo (Band2 r)) = true ->
  ValidMult (GetColorInfo (Band3 r)) = false ->
  Calculate r = Err InvalidMultiplier.
Proof.
  intros H1 H2 H3. unfold Calculate. cbv zeta.
  rewrite H1, H2, H3. reflexivity.
Qed.

Lemma Calculate_invalid_tolerance (r : CapacitorReading) :
  ValidDigit (GetColorInfo (Band1 r)) = true ->
  ValidDigit (GetColorInfo (Band2 r)) = true ->
  ValidMult (GetColorInfo (Band3 r)) = true ->
  snd (GetToleranceInfo (Band4 r)) = false ->
  Calculate r = Err InvalidTolerance.
Proof.
  intros H1 H2 H3 H4. unfold Calculate. cbv zeta.
  rewrite H1, H2, H3. cbn [negb orb]. cbv beta iota.
  scaled_pair E. rewrite calculateTolerance_missing; [ reflexivity | ].
  exact H4.
Qed.

Lemma Calculate_ok (r : CapacitorReading) (tol : ToleranceInfo) :
  ValidDigit (GetColorInfo (Band1 r)) = true ->
  ValidDigit (GetColorInfo (Band2 r)) = true ->
  ValidMult (GetColorInfo (Band3 r)) = true ->
  GetToleranceInfo (Band4 r) = (tol, true) ->
  exists res, Calculate r = Ok res /\ decoded r tol res.
Proof.
  intros H1 H2 H3 H4. unfold Calculate. cbv zeta.
  rewrite H1, H2, H3. cbn [negb orb]. cbv beta iota. cap_fields.
  fold (rawPF r). scaled_pair Escale.
  match goal with
  | |- context [calculateTolerance ?x] =>
      destruct (calculateTolerance_ok x tol H4)
        as (res' & Hcalc & Htol & Hsame);
      rewrite Hcalc; clear Hcalc; revert Htol Hsame; cap_fields;
      intros Htol Hsame
  end.
  unfold same_outside_tolerance in Hsame. cbn in Hsame.
  destruct Hsame as (Sraw & Sval & Sunit & Svr & Svv & Stc & Stv & Sread).
  destruct Htol as [Tsym Thi Tlo Tabs Tpct Tlarge].
  unfold absolute_range, percentage_range in Tabs, Tpct, Tlarge.
  destruct ((BandCount r >=? 4) && negb (Band5 r =? ColorBlack))%bool eqn:Ev;
    [ destruct (GetVoltageRatingFractional (CapType r) (Band5 r))
        as [voltage vvalid] eqn:Evolt | ];
    (destruct (BandCount r =? 5) eqn:Et;
     [ destruct (GetTempCoefficient (Band5 r)) as [coeff cvalid] eqn:Etemp | ]);
    (eexists; split; [ reflexivity | ]);
    (split; cap_fields; rewrite ?Ev, ?Et, ?Evolt, ?Etemp;
     [ exact Sread | exact Sraw | congruence
     | split; unfold absolute_range, percentage_range; cap_fields; auto
     | try reflexivity; congruence | try reflexivity; congruence ]).
Qed.

End CapacitorDecode.

(** ** Capacitor decode: the claims *)

Section CapacitorClaims.
Import F64 Colors Types Calculator Spec.

Lemma same_float_eq (x y : float64) : same_float x y = true -> x = y.
Proof.
  destruct x as [a | a | | a m e], y as [b | b | | b n f]; simpl;
    try discriminate; try reflexivity; intros H.
  - apply eqb_prop in H. congruence.
  - apply eqb_prop in H. congruence.
  - apply andb_prop in H. destruct H as [H He].
    apply andb_prop in H. destruct H as [Hs Hm].
    apply eqb_prop in Hs. apply Pos.eqb_eq in Hm. apply Z.eqb_eq in He.
    congruence.
Qed.

Lemma In_upto (n : nat) (z : Z) : 0 <= z < Z.of_nat n -> In z (upto n).
Proof.
  intros H. unfold upto. apply in_map_iff. exists (Z.to_nat z).
  split; [ lia | apply in_seq; lia ].
Qed.

(** For a two-digit base and a multiplier 1 .. 10^7 the rounded product is
    the exact integer product. *)
Lemma product_exact (n k : Z) :
  0 <= n <= 99 -> 0 <= k <= 7 ->
  (of_int n * of_int (10 ^ k))%f64 = of_int (n * 10 ^ k).
Proof.
  intros Hn Hk.
  assert (Hall :
    forallb (fun n =>
      forallb (fun k =>
        same_float (of_int n * of_int (10 ^ k))%f64 (of_int (n * 10 ^ k)))
        (upto 8)) (upto 100) = true) by (vm_compute; reflexivity).
  rewrite forallb_forall in Hall.
  specialize (Hall n (In_upto 100 n ltac:(lia))).
  rewrite forallb_forall in Hall.
  apply same_float_eq. apply Hall. apply In_upto. lia.
Qed.

Lemma rawPF_exact (r : CapacitorReading) :
  ColorBlack <= Band1 r <= ColorWhite ->
  ColorBlack <= Band2 r <= ColorWhite ->
  ColorBlack <= Band3 r <= ColorViolet ->
  rawPF r = of_int ((Band1 r * 10 + Band2 r) * 10 ^ Band3 r).
Proof.
  intros H1 H2 H3. unfold rawPF.
  rewrite (Digit_rank _ H1), (Digit_rank _ H2), (Multiplier_power _ H3).
  unfold_colors. apply product_exact; lia.
Qed.

(** The decode succeeds exactly on the readings whose bands 1 to 4 are
    accepted; band 5, the band count and the type play no part. *)
Lemma Calculate_Ok_iff (r : CapacitorReading) :
  (exists res, Calculate r = Ok res) <-> decodable r.
Proof.
  unfold decodable. split.
  - intros [res Hres].
    destruct (ValidDigit (GetColorInfo (Band1 r))) eqn:H1;
      [ | rewrite Calculate_invalid_digit in Hres by (left; exact H1);
          discriminate ].
    destruct (ValidDigit (GetColorInfo (Band2 r))) eqn:H2;
      [ | rewrite Calculate_invalid_digit in Hres by (right; exact H2);
          discriminate ].
    destruct (ValidMult (GetColorInfo (Band3 r))) eqn:H3;
      [ | rewrite Calculate_invalid_multiplier in Hres by assumption;
          discriminate ].
    destruct (snd (GetToleranceInfo (Band4 r))) eqn:H4;
      [ | rewrite Calculate_invalid_tolerance in Hres by assumption;
          discriminate ].
    repeat split.
  - intros (H1 & H2 & H3 & H4).
    destruct (GetToleranceInfo (Band4 r)) as [tol ex] eqn:E.
    simpl in H4. subst ex.
    destruct (Calculate_ok r tol H1 H2 H3 E) as (res & Hres & _).
    exists res. exact Hres.
Qed.

(** C5. For every capacitor reading with digit colours in bands 1 and 2 and
    a multiplier colour in band 3, the raw picofarads of the decode are
    [(digit(Band1)*10 + digit(Band2)) * multiplier(Band3)]: the decode
    returns a result with that value whenever band 4 is in the tolerance
    table (and stops with the tolerance error otherwise), the product being
    the exact integer for the multipliers 1 .. 10^7.  A band 1 or 2 that is
    not a digit colour (Gold, Silver) fails with InvalidDigit, a band 3 that
    is not a multiplier colour fails with InvalidMultiplier. *)
Theorem C5_raw_picofarads :
  (forall r : CapacitorReading,
      (ValidDigit (GetColorInfo (Band1 r)) = false
       \/ ValidDigit (GetColorInfo (Band2 r)) = false ->
       Calculate r = Err InvalidDigit)
      /\ (ValidDigit (GetColorInfo (Band1 r)) = true ->
          ValidDigit (GetColorInfo (Band2 r)) = true ->
          ValidMult (GetColorInfo (Band3 r)) = false ->
          Calculate r = Err InvalidMultiplier)
      /\ (ValidDigit (GetColorInfo (Band1 r)) = true ->
          ValidDigit (GetColorInfo (Band2 r)) = true ->
          ValidMult (GetColorInfo (Band3 r)) = true ->
          (snd (GetToleranceInfo (Band4 r)) = true ->
           exists res, Calculate r = Ok res /\ CapacitancePF res = rawPF r)
          /\ (snd (GetToleranceInfo (Band4 r)) = false ->
              Calculate r = Err InvalidTolerance)))
  /\ (forall c : Color,
         ValidDigit (GetColorInfo c) = true <-> ColorBlack <= c <= ColorWhite)
  /\ (forall c : Color, ValidMult (GetColorInfo c) = true <-> is_color c)
  /\ (forall r : CapacitorReading,
         ColorBlack <= Band1 r <= ColorWhite ->
         ColorBlack <= Band2 r <= ColorWhite ->
         ColorBlack <= Band3 r <= ColorViolet ->
         rawPF r = of_int ((Band1 r * 10 + Band2 r) * 10 ^ Band3 r))
  /\ (exists res,
         Calculate {| Band1 := ColorRed; Band2 := ColorViolet;
                      Band3 := ColorOrange; Band4 := ColorBrown;
                      Band5 := ColorOrange; BandCount := 5;
                      CapType := TypeK |} = Ok res
         /\ CapacitancePF res = of_int 27000)
  /\ (exists res,
         Calculate {| Band1 := ColorRed; Band2 := ColorViolet;
                      Band3 := ColorGrey; Band4 := ColorBrown;
                      Band5 := ColorBlack; BandCount := 4;
                      CapType := TypeK |} = Ok res
         /\ CapacitancePF res = (of_int 27 * dec 1 100)%f64
         /\ CapacitancePF res = dec 27 100)
  /\ Calculate {| Band1 := ColorGold; Band2 := ColorViolet;
                  Band3 := ColorOrange; Band4 := ColorBrown;
                  Band5 := ColorOrange; BandCount := 5;
                  CapType := TypeK |} = Err InvalidDigit
  /\ Calculate {| Band1 := ColorRed; Band2 := ColorSilver;
                  Band3 := ColorOrange; Band4 := ColorBrown;
                  Band5 := ColorOrange; BandCount := 5;
                  CapType := TypeK |} = Err InvalidDigit
  /\ Calculate {| Band1 := ColorRed; Band2 := ColorViolet;
                  Band3 := 12; Band4 := ColorBrown;
                  Band5 := ColorOrange; BandCount := 5;
                  CapType := TypeK |} = Err InvalidMultiplier.
Proof.
  split.
  { intros r. split; [ apply Calculate_invalid_digit | ].
    split; [ apply Calculate_invalid_multiplier | ].
    intros H1 H2 H3. split.
    - intros H4. destruct (GetToleranceInfo (Band4 r)) as [tol ex] eqn:E.
      simpl in H4. subst ex.
      destruct (Calculate_ok r tol H1 H2 H3 E) as (res & Hres & D).
      exists res. split; [ exact Hres | exact (d_raw _ _ _ D) ].
    - apply Calculate_invalid_tolerance; assumption. }
  split; [ exact ValidDigit_iff | ].
  split; [ exact ValidMult_iff | ].
  split; [ exact rawPF_exact | ].
  split; [ eexists; split; evaluate | ].
  split; [ eexists; split; [ evaluate | split; evaluate ] | ].
  split; [ evaluate | ].
  split; evaluate.
Qed.

(** C1. Selection of the tolerance branch, for every capacitor reading whose
    band 4 is in the tolerance table (and for every raw value given to
    [calculateTolerance]): raw <= 10 with a colour that has an absolute
    value (Brown, Red, Green, White) gives min/max = raw -/+ absolutePF with
    the minimum floored at 0; raw <= 10 with a colour without absolute
    value (Black, Orange, Yellow, Gold, Silver among them) falls back to
    the percentage bounds raw*(1 -/+ pct/100); raw > 10 always gives the
    percentage bounds.  Raw 10.0 with Brown is absolute, 0.1 pF, range
    [9.9, 10.1] pF; raw 10.0 with Orange is percentage, 3%; raw 10.01 with
    Brown is percentage, 1%. *)
Theorem C1_tolerance_branch_selection :
  (forall (r : CapacitorReading) (tol : ToleranceInfo),
      ValidDigit (GetColorInfo (Band1 r)) = true ->
      ValidDigit (GetColorInfo (Band2 r)) = true ->
      ValidMult (GetColorInfo (Band3 r)) = true ->
      GetToleranceInfo (Band4 r) = (tol, true) ->
      exists res,
        Calculate r = Ok res
        /\ CapacitancePF res = rawPF r
        /\ ((rawPF r <=? of_int 10)%f64 = true ->
            (AbsolutePF tol =? of_int 0)%f64 = false ->
            absolute_range (rawPF r) tol res)
        /\ ((rawPF r <=? of_int 10)%f64 = true ->
            (AbsolutePF tol =? of_int 0)%f64 = true ->
            percentage_range (rawPF r) tol res)
        /\ ((of_int 10 <? rawPF r)%f64 = true ->
            percentage_range (rawPF r) tol res))
  /\ (forall (res : CalculationResult) (tol : ToleranceInfo),
      GetToleranceInfo (Band4 (Reading res)) = (tol, true) ->
      exists res',
        calculateTolerance res = Ok res'
        /\ ((CapacitancePF res <=? of_int 10)%f64 = true ->
            (AbsolutePF tol =? of_int 0)%f64 = false ->
            absolute_range (CapacitancePF res) tol res')
        /\ ((CapacitancePF res <=? of_int 10)%f64 = true ->
            (AbsolutePF tol =? of_int 0)%f64 = true ->
            percentage_range (CapacitancePF res) tol res')
        /\ ((of_int 10 <? CapacitancePF res)%f64 = true ->
            percentage_range (CapacitancePF res) tol res'))
  /\ (forall (c : Color) (tol : ToleranceInfo),
      GetToleranceInfo c = (tol, true) ->
      ((AbsolutePF tol =? of_int 0)%f64 = false
       <-> c = ColorBrown \/ c = ColorRed \/ c = ColorGreen
           \/ c = ColorWhite))
  /\ (forall c : Color,
      In c [ColorBlack; ColorOrange; ColorYellow; ColorGold; ColorSilver] ->
      exists tol,
        GetToleranceInfo c = (tol, true)
        /\ (AbsolutePF tol =? of_int 0)%f64 = true)
  /\ (exists res,
      Calculate {| Band1 := ColorBrown; Band2 := ColorBlack;
                   Band3 := ColorBlack; Band4 := ColorBrown;
                   Band5 := ColorBlack; BandCount := 4;
                   CapType := TypeK |} = Ok res
      /\ CapacitancePF res = of_int 10
      /\ ToleranceType res = "absolute"
      /\ ToleranceAbsolutePF res = dec 1 10
      /\ (MinValue res, MinUnit res) = (dec 99 10, "pF")
      /\ (MaxValue res, MaxUnit res) = (dec 101 10, "pF"))
  /\ (exists res,
      Calculate {| Band1 := ColorBrown; Band2 := ColorBlack;
                   Band3 := ColorBlack; Band4 := ColorOrange;
                   Band5 := ColorBlack; BandCount := 4;
                   CapType := TypeK |} = Ok res
      /\ CapacitancePF res = of_int 10
      /\ ToleranceType res = "percentage"
      /\ TolerancePercent res = of_int 3
      /\ (MinValue res, MinUnit res) = (dec 97 10, "pF")
      /\ (MaxValue res, MaxUnit res) = (dec 103 10, "pF"))
  /\ (exists res,
      calculateTolerance
        (set_CapacitancePF (dec 1001 100)
           (newResult {| Band1 := ColorBrown; Band2 := ColorBlack;
                         Band3 := ColorBlack; Band4 := ColorBrown;
                         Band5 := ColorBlack; BandCount := 4;
                         CapType := TypeK |})) = Ok res
      /\ CapacitancePF res = dec 1001 100
      /\ ToleranceType res = "percentage"
      /\ TolerancePercent res = of_int 1
      /\ (MinValue res, MinUnit res) = (dec 99099 10000, "pF")
      /\ (MaxValue res, MaxUnit res) = (dec 101101 10000, "pF"))
  /\ (exists res,
      Calculate {| Band1 := ColorBlack; Band2 := ColorBlack;
                   Band3 := ColorBlack; Band4 := ColorBrown;
                   Band5 := ColorBlack; BandCount := 4;
                   CapType := TypeK |} = Ok res
      /\ CapacitancePF res = of_int 0
      /\ ToleranceType res = "absolute"
      /\ (MinValue res, MinUnit res) = (of_int 0, "pF")
      /\ (MaxValue res, MaxUnit res) = (dec 1 10, "pF")).
Proof.
  split.
  { intros r tol H1 H2 H3 H4.
    destruct (Calculate_ok r tol H1 H2 H3 H4) as (res & Hres & D).
    exists res. destruct D as [_ Draw _ [_ _ _ Tabs Tpct Tlarge] _ _].
    split; [ exact Hres | ]. split; [ exact Draw | ].
    split; [ exact Tabs | ]. split; [ exact Tpct | ].
    intros Hgt. apply Tlarge. exact (ltb_not_geb _ _ Hgt). }
  split.
  { intros res tol H.
    destruct (calculateTolerance_ok res tol H)
      as (res' & Hres & [_ _ _ Tabs Tpct Tlarge] & _).
    exists res'. split; [ exact Hres | ].
    split; [ exact Tabs | ]. split; [ exact Tpct | ].
    intros Hgt. apply Tlarge. exact (ltb_not_geb _ _ Hgt). }
  split; [ exact absolute_colors | ].
  split.
  { intros c Hc. simpl in Hc.
    destruct Hc as [<- | [<- | [<- | [<- | [<- | []]]]]];
      eexists; split; evaluate. }
  split; [ eexists; do 5 (split; [ evaluate | ]); evaluate | ].
  split; [ eexists; do 5 (split; [ evaluate | ]); evaluate | ].
  split; [ eexists; do 5 (split; [ evaluate | ]); evaluate | ].
  eexists; do 4 (split; [ evaluate | ]); evaluate.
Qed.

(** C4. Voltage of a capacitor: the decode looks the voltage up only when
    the band count is at least 4 and band 5 is not Black, and otherwise
    leaves VoltageValid false (so band 5 = Black always gives VoltageValid
    = false, with no error); a digit without voltage for the selected type
    gives VoltageValid = false and never an error, the decode succeeding
    exactly when bands 1 to 4 are accepted; type M with Brown is 1.6 V,
    type N with Red is 6.3 V, type M with Black is invalid. *)
Theorem C4_voltage_resolution :
  (forall (r : CapacitorReading) (tol : ToleranceInfo),
      ValidDigit (GetColorInfo (Band1 r)) = true ->
      ValidDigit (GetColorInfo (Band2 r)) = true ->
      ValidMult (GetColorInfo (Band3 r)) = true ->
      GetToleranceInfo (Band4 r) = (tol, true) ->
      exists res,
        Calculate r = Ok res
        /\ (4 <= BandCount r -> Band5 r <> ColorBlack ->
            (VoltageRating res, VoltageValid res)
            = GetVoltageRatingFractional (CapType r) (Band5 r))
        /\ (BandCount r < 4 \/ Band5 r = ColorBlack ->
            VoltageValid res = false /\ VoltageRating res = zero))
  /\ (forall r : CapacitorReading,
      (exists res, Calculate r = Ok res) <-> decodable r)
  /\ GetVoltageRatingFractional TypeM ColorBrown = (dec 16 10, true)
  /\ GetVoltageRatingFractional TypeN ColorRed = (dec 63 10, true)
  /\ GetVoltageRatingFractional TypeM ColorBlack = (zero, false)
  /\ GetVoltageRatingFractional TypeM ColorWhite = (zero, false)
  /\ GetVoltageRatingFractional TypeL ColorYellow = (zero, false)
  /\ (exists res,
      Calculate {| Band1 := ColorBrown; Band2 := ColorBlack;
                   Band3 := ColorBrown; Band4 := ColorBrown;
                   Band5 := ColorWhite; BandCount := 4;
                   CapType := TypeM |} = Ok res
      /\ VoltageValid res = false)
  /\ (exists res,
      Calculate {| Band1 := ColorBrown; Band2 := ColorBlack;
                   Band3 := ColorBrown; Band4 := ColorBrown;
                   Band5 := ColorBlack; BandCount := 5;
                   CapType := TypeK |} = Ok res
      /\ VoltageValid res = false)
  /\ (exists res,
      Calculate {| Band1 := ColorBrown; Band2 := ColorBlack;
                   Band3 := ColorBrown; Band4 := ColorBrown;
                   Band5 := ColorBrown; BandCount := 4;
                   CapType := TypeM |} = Ok res
      /\ VoltageValid res = true /\ VoltageRating res = dec 16 10).
Proof.
  split.
  { intros r tol H1 H2 H3 H4.
    destruct (Calculate_ok r tol H1 H2 H3 H4) as (res & Hres & D).
    exists res. destruct D as [_ _ _ _ Dvolt _].
    split; [ exact Hres | ]. split.
    - intros Hn Hb. rewrite Dvolt.
      replace (BandCount r >=? 4) with true by (symmetry; apply Z.geb_le; lia).
      replace (Band5 r =? ColorBlack) with false
        by (symmetry; apply Z.eqb_neq; exact Hb).
      reflexivity.
    - intros Hn.
      assert (E : ((BandCount r >=? 4)
                   && negb (Band5 r =? ColorBlack))%bool = false).
      { destruct Hn as [Hn | Hn].
        - replace (BandCount r >=? 4) with false; [ reflexivity | ].
          symmetry. rewrite Z.geb_leb. apply Z.leb_gt. exact Hn.
        - rewrite Hn, Z.eqb_refl. apply andb_false_r. }
      rewrite E in Dvolt. injection Dvolt as Hr Hv. split; assumption. }
  split; [ exact Calculate_Ok_iff | ].
  do 5 (split; [ evaluate | ]).
  split; [ eexists; split; evaluate | ].
  split; [ eexists; split; evaluate | ].
  eexists; split; [ evaluate | split; evaluate ].
Qed.

End CapacitorClaims.

(** ** The resistor decode, step by step *)

Section ResistorDecode.
Import F64 Colors Resistor Spec.

Lemma CalculateResistor_band_count (r : ResistorReading) :
  BandCount r <> 4 -> BandCount r <> 5 -> BandCount r <> 6 ->
  CalculateResistor r = Err (InvalidBandCount (BandCount r)).
Proof.
  intros H4 H5 H6. unfold CalculateResistor, baseAndMultiplier. cbv zeta.
  apply Z.eqb_neq in H4, H5, H6. rewrite H4, H5, H6. reflexivity.
Qed.

Lemma band_count_cases (r : ResistorReading) :
  BandCount r = 4 \/ BandCount r = 5 \/ BandCount r = 6 ->
  ((BandCount r =? 4) = true /\ (BandCount r =? 5) = false
   /\ (BandCount r =? 6) = false /\ (BandCount r >=? 5) = false)
  \/ ((BandCount r =? 4) = false /\ (BandCount r =? 5) = true
      /\ (BandCount r =? 6) = false /\ (BandCount r >=? 5) = true)
  \/ ((BandCount r =? 4) = false /\ (BandCount r =? 5) = false
      /\ (BandCount r =? 6) = true /\ (BandCount r >=? 5) = true).
Proof.
  intros [H | [H | H]]; rewrite H; [ left | right; left | right; right ];
    repeat split.
Qed.

Lemma CalculateResistor_ok (r : ResistorReading) :
  resistor_decodable r ->
  exists res, CalculateResistor r = Ok res /\ resistor_decoded r res.
Proof.
  intros (Hn & Hd & Hm & Ht).
  unfold digits_valid in Hd.
  apply andb_prop in Hd. destruct Hd as [Hd Hd3].
  apply andb_prop in Hd. destruct Hd as [Hd1 Hd2].
  unfold multiplier_band in Hm. unfold tolerance_band in Ht.
  unfold CalculateResistor, baseAndMultiplier. cbv zeta.
  destruct (band_count_cases r Hn)
    as [(E4 & E5 & E6 & G5) | [(E4 & E5 & E6 & G5) | (E4 & E5 & E6 & G5)]];
    rewrite E4 in Hd3, Hm, Ht; rewrite ?E4, ?E5, ?E6, ?G5;
    cbn [orb] in Hd3; rewrite Hd1, Hd2, ?Hd3; cbn [negb orb];
    cbv beta iota;
    try (destruct (GetResistorTempCoefficient (Band6 r))
           as [tc tv] eqn:Etemp; cbv beta iota);
    match type of Hm with
    | snd (GetResistorMultiplier ?c) = true =>
        destruct (GetResistorMultiplier c) as [mult mv] eqn:Emult;
        cbn [snd] in Hm; subst mv
    end;
    match type of Ht with
    | snd (GetResistorTolerance ?c) = true =>
        destruct (GetResistorTolerance c) as [tinfo tv'] eqn:Etol;
        cbn [snd] in Ht; subst tv'
    end;
    cbn [negb]; cbv beta iota; res_fields;
    scaled_pair Escale; res_fields;
    scaled_pair Emin; res_fields;
    scaled_pair Emax;
    (eexists; split; [ reflexivity | ]);
    (split; res_fields;
     unfold resistor_base, multiplier_band, tolerance_band,
       pct_low, pct_high;
     rewrite ?E4, ?E5, ?E6, ?Emult, ?Etol, ?Etemp; cbn [fst];
     rewrite ?Escale, ?Emin, ?Emax; reflexivity).
Qed.

(** The errors of the resistor decode, in the order of its checks. *)
Lemma CalculateResistor_errors (r : ResistorReading) (e : error) :
  CalculateResistor r = Err e ->
  e = InvalidBandCount (BandCount r)
  \/ e = InvalidDigit
  \/ e = InvalidDigit3
  \/ (e = InvalidResistorMultiplier
      /\ snd (GetResistorMultiplier (multiplier_band r)) = false)
  \/ e = InvalidResistorTolerance.
Proof.
  unfold CalculateResistor, baseAndMultiplier, multiplier_band. cbv zeta.
  destruct (BandCount r =? 4) eqn:E4;
    [ | destruct (BandCount r =? 5) eqn:E5;
        [ | destruct (BandCount r =? 6) eqn:E6 ] ];
    try match goal with
      | |- context [negb (ValidDigit ?a) || negb (ValidDigit ?b)
                    || negb (ValidDigit ?c)] =>
          destruct (negb (ValidDigit a) || negb (ValidDigit b)
                    || negb (ValidDigit c))%bool
      | |- context [negb (ValidDigit ?a) || negb (ValidDigit ?b)] =>
          destruct (negb (ValidDigit a) || negb (ValidDigit b))%bool
      end;
    try (intros H; injection H as <-; auto; fail);
    try destruct (GetResistorTempCoefficient (Band6 r)) as [tc tv];
    cbv beta iota;
    match goal with
    | |- context [GetResistorMultiplier ?c] =>
        destruct (GetResistorMultiplier c) as [mult mv]; destruct mv
    end;
    cbn [negb snd]; cbv beta iota;
    try (intros H; injection H as <-; auto 6; fail);
    res_fields; scaled_pair Escale;
    match goal with
    | |- context [GetResistorTolerance ?c] =>
        destruct (GetResistorTolerance c) as [tinfo tv']; destruct tv'
    end;
    cbn [negb]; cbv beta iota;
    try (intros H; injection H as <-; auto 6; fail);
    res_fields; scaled_pair Emin; res_fields; scaled_pair Emax;
    discriminate.
Qed.

End ResistorDecode.

(** ** Resistor decode and band counts: the claims *)

Section ResistorClaims.
Import F64 Colors Resistor Spec.

Lemma resistor_error_names_differ (n : Z) :
  InvalidResistorMultiplier <> InvalidBandCount n
  /\ InvalidResistorMultiplier <> InvalidDigit
  /\ InvalidResistorMultiplier <> InvalidDigit3
  /\ InvalidResistorMultiplier <> InvalidResistorTolerance.
Proof.
  unfold InvalidResistorMultiplier, InvalidBandCount, InvalidDigit,
    InvalidDigit3, InvalidResistorTolerance.
  split; [ cbn [append]; discriminate | ].
  split; [ discriminate | ]. split; discriminate.
Qed.

Lemma CalculateResistor_never_multiplier_error (r : ResistorReading) :
  is_color (multiplier_band r) ->
  CalculateResistor r <> Err InvalidResistorMultiplier.
Proof.
  intros Hc H.
  destruct (resistor_error_names_differ (BandCount r))
    as (N1 & N2 & N3 & N4).
  destruct (CalculateResistor_errors r _ H)
    as [E | [E | [E | [[_ E] | E]]]]; try congruence.
  apply resistor_multiplier_total in Hc. congruence.
Qed.

(** C6. Band semantics of a resistor shift with the band count: four bands
    give base digit(B1)*10 + digit(B2), multiplier from B3 and tolerance
    from B4; five and six bands give base digit(B1)*100 + digit(B2)*10 +
    digit(B3), multiplier from B4 and tolerance from B5, six bands reading
    the temperature coefficient from B6.  Yellow, Violet, Black, Brown,
    Brown with five bands gives base 470, multiplier 10, 4700 ohms, 1%,
    range 4653 to 4747 ohms. *)
Theorem C6_resistor_band_semantics :
  (forall r : ResistorReading,
      BandCount r = 4 ->
      ValidDigit (GetColorInfo (Band1 r)) = true ->
      ValidDigit (GetColorInfo (Band2 r)) = true ->
      snd (GetResistorMultiplier (Band3 r)) = true ->
      snd (GetResistorTolerance (Band4 r)) = true ->
      exists res,
        CalculateResistor r = Ok res
        /\ ResistanceOhms res
           = (of_int (Digit (GetColorInfo (Band1 r)) * 10
                      + Digit (GetColorInfo (Band2 r)))
              * fst (GetResistorMultiplier (Band3 r)))%f64
        /\ TolerancePercent res
           = Percent (fst (GetResistorTolerance (Band4 r)))
        /\ TempCoeffValid res = false)
  /\ (forall r : ResistorReading,
      BandCount r = 5 \/ BandCount r = 6 ->
      ValidDigit (GetColorInfo (Band1 r)) = true ->
      ValidDigit (GetColorInfo (Band2 r)) = true ->
      ValidDigit (GetColorInfo (Band3 r)) = true ->
      snd (GetResistorMultiplier (Band4 r)) = true ->
      snd (GetResistorTolerance (Band5 r)) = true ->
      exists res,
        CalculateResistor r = Ok res
        /\ ResistanceOhms res
           = (of_int (Digit (GetColorInfo (Band1 r)) * 100
                      + Digit (GetColorInfo (Band2 r)) * 10
                      + Digit (GetColorInfo (Band3 r)))
              * fst (GetResistorMultiplier (Band4 r)))%f64
        /\ TolerancePercent res
           = Percent (fst (GetResistorTolerance (Band5 r)))
        /\ (BandCount r = 5 -> TempCoeffValid res = false)
        /\ (BandCount r = 6 ->
            (TempCoefficient res, TempCoeffValid res)
            = GetResistorTempCoefficient (Band6 r)))
  /\ (exists res,
      CalculateResistor {| Band1 := ColorYellow; Band2 := ColorViolet;
                           Band3 := ColorBlack; Band4 := ColorBrown;
                           Band5 := ColorBrown; Band6 := ColorBlack;
                           BandCount := 5 |} = Ok res
      /\ ResistanceOhms res = (of_int 470 * of_int 10)%f64
      /\ ResistanceOhms res = of_int 4700
      /\ (ResistanceValue res, ResistanceUnit res) = (dec 47 10, "kΩ")
      /\ TolerancePercent res = of_int 1
      /\ (MinValue res, MinUnit res) = scaleResistance (of_int 4653)
      /\ (MaxValue res, MaxUnit res) = scaleResistance (of_int 4747)
      /\ (MinValue res, MinUnit res) = (dec 4653 1000, "kΩ")
      /\ (MaxValue res, MaxUnit res) = (dec 4747 1000, "kΩ"))
  /\ (exists res,
      CalculateResistor {| Band1 := ColorYellow; Band2 := ColorViolet;
                           Band3 := ColorBlack; Band4 := ColorGold;
                           Band5 := ColorBlack; Band6 := ColorBlack;
                           BandCount := 4 |} = Ok res
      /\ ResistanceOhms res = of_int 47
      /\ TolerancePercent res = of_int 5
      /\ (MinValue res, MinUnit res) = (dec 4465 100, "Ω")
      /\ (MaxValue res, MaxUnit res) = (dec 4935 100, "Ω"))
  /\ (exists res,
      CalculateResistor {| Band1 := ColorYellow; Band2 := ColorViolet;
                           Band3 := ColorBlack; Band4 := ColorBrown;
                           Band5 := ColorBrown; Band6 := ColorRed;
                           BandCount := 6 |} = Ok res
      /\ ResistanceOhms res = of_int 4700
      /\ (TempCoefficient res, TempCoeffValid res) = (50, true)).
Proof.
  split.
  { intros r Hn H1 H2 Hm Ht.
    assert (Hdec : resistor_decodable r).
    { unfold resistor_decodable, digits_valid, multiplier_band,
        tolerance_band. rewrite Hn, H1, H2. cbn. auto. }
    destruct (CalculateResistor_ok r Hdec) as (res & Hres & D).
    exists res. destruct D as [_ Draw _ Dpct _ _ Dtemp].
    unfold resistor_base, multiplier_band in Draw.
    unfold tolerance_band in Dpct. rewrite Hn in Draw, Dpct, Dtemp.
    cbn in Dtemp. split; [ exact Hres | ]. split; [ exact Draw | ].
    split; [ exact Dpct | congruence ]. }
  split.
  { intros r Hn H1 H2 H3 Hm Ht.
    assert (E4 : (BandCount r =? 4) = false)
      by (apply Z.eqb_neq; lia).
    assert (Hdec : resistor_decodable r).
    { unfold resistor_decodable, digits_valid, multiplier_band,
        tolerance_band. rewrite E4, H1, H2, H3. cbn.
      repeat split; auto; lia. }
    destruct (CalculateResistor_ok r Hdec) as (res & Hres & D).
    exists res. destruct D as [_ Draw _ Dpct _ _ Dtemp].
    unfold resistor_base, multiplier_band in Draw.
    unfold tolerance_band in Dpct. rewrite E4 in Draw, Dpct.
    split; [ exact Hres | ]. split; [ exact Draw | ].
    split; [ exact Dpct | ]. split.
    - intros H5. rewrite H5 in Dtemp. cbn in Dtemp. congruence.
    - intros H6. rewrite H6 in Dtemp. exact Dtemp. }
  split; [ eexists; do 8 (split; [ evaluate | ]); evaluate | ].
  split; [ eexists; do 4 (split; [ evaluate | ]); evaluate | ].
  eexists; do 2 (split; [ evaluate | ]); evaluate.
Qed.

(** C10. The resistor multiplier table is total over the colour
    enumeration: [GetResistorMultiplier] answers [true] for each of the
    twelve colours, so [CalculateResistor] never returns the
    invalid-multiplier error for a reading whose multiplier band holds one
    of them, and [ValidateResistorMultiplier] accepts each of them. *)
Theorem C10_resistor_multiplier_total :
  (forall c : Color,
      is_color c -> exists m, GetResistorMultiplier c = (m, true))
  /\ (forall r : ResistorReading,
      is_color (multiplier_band r) ->
      CalculateResistor r <> Err InvalidResistorMultiplier)
  /\ (forall r : ResistorReading,
      is_color (Band3 r) -> is_color (Band4 r) ->
      CalculateResistor r <> Err InvalidResistorMultiplier)
  /\ (forall (c : Color) (bandNum : Z),
      is_color c -> Validation.ValidateResistorMultiplier c bandNum = None)
  /\ CalculateResistor {| Band1 := ColorYellow; Band2 := ColorViolet;
                          Band3 := 12; Band4 := ColorGold;
                          Band5 := ColorBlack; Band6 := ColorBlack;
                          BandCount := 4 |} = Err InvalidResistorMultiplier.
Proof.
  split.
  { intros c Hc. apply resistor_multiplier_total in Hc.
    destruct (GetResistorMultiplier c) as [m v]. simpl in Hc. subst v.
    exists m. reflexivity. }
  split; [ exact CalculateResistor_never_multiplier_error | ].
  split.
  { intros r H3 H4. apply CalculateResistor_never_multiplier_error.
    unfold multiplier_band. destruct (BandCount r =? 4); assumption. }
  split.
  { intros c n Hc. apply resistor_multiplier_total in Hc.
    unfold Validation.ValidateResistorMultiplier.
    destruct (GetResistorMultiplier c) as [m v]. simpl in Hc. subst v.
    reflexivity. }
  evaluate.
Qed.

End ResistorClaims.

(** ** Asymmetric tolerance, band counts, small capacitors *)

Section ToleranceAndValidation.
Import F64 Colors Types Calculator Validation Spec.

Lemma grey_factors :
  (of_int 1 - of_int 20 / of_int 100)%f64 = dec 8 10
  /\ (of_int 1 + of_int 80 / of_int 100)%f64 = dec 18 10.
Proof. split; evaluate. Qed.

(** C3. Grey is the only asymmetric capacitor tolerance colour, +80% / -20%:
    for every capacitor reading with band 4 Grey and raw picofarads above
    10 the bounds are min = raw*0.8 and max = raw*1.8 (stored unit-scaled;
    raw 1000 pF gives 800 pF and 1800 pF); every other colour of the
    capacitor tolerance table has equal high and low percentages; the
    bounds of a resistor are always raw*(1 -/+ pct/100) with one
    percentage. *)
Theorem C3_grey_asymmetric :
  (forall r : CapacitorReading,
      ValidDigit (GetColorInfo (Band1 r)) = true ->
      ValidDigit (GetColorInfo (Band2 r)) = true ->
      ValidMult (GetColorInfo (Band3 r)) = true ->
      Band4 r = ColorGrey ->
      exists res,
        Calculate r = Ok res
        /\ CapacitancePF res = rawPF r
        /\ ToleranceSymmetric res = false
        /\ ToleranceHigh res = of_int 80
        /\ ToleranceLow res = of_int 20
        /\ ((of_int 10 <? rawPF r)%f64 = true ->
            (MinValue res, MinUnit res)
            = scaleCapacitance (rawPF r * dec 8 10)%f64
            /\ (MaxValue res, MaxUnit res)
               = scaleCapacitance (rawPF r * dec 18 10)%f64))
  /\ (exists res,
      Calculate {| Band1 := ColorBrown; Band2 := ColorBlack;
                   Band3 := ColorRed; Band4 := ColorGrey;
                   Band5 := ColorBlack; BandCount := 4;
                   CapType := TypeK |} = Ok res
      /\ CapacitancePF res = of_int 1000
      /\ (MinValue res, MinUnit res) = scaleCapacitance (of_int 800)
      /\ (MaxValue res, MaxUnit res) = scaleCapacitance (of_int 1800)
      /\ (MinValue res, MinUnit res) = (of_int 800, "pF")
      /\ (MaxValue res, MaxUnit res) = (dec 18 10, "nF"))
  /\ (forall (c : Color) (tol : ToleranceInfo),
      GetToleranceInfo c = (tol, true) ->
      (c = ColorGrey ->
         Symmetric tol = false /\ PercentHigh tol = of_int 80
         /\ PercentLow tol = of_int 20)
      /\ (c <> ColorGrey ->
         Symmetric tol = true /\ PercentHigh tol = PercentLow tol))
  /\ (forall r : Resistor.ResistorReading,
      resistor_decodable r ->
      exists res,
        Resistor.CalculateResistor r = Ok res
        /\ (Resistor.MinValue res, Resistor.MinUnit res)
           = Resistor.scaleResistance
               (Resistor.ResistanceOhms res
                * (of_int 1 - Resistor.TolerancePercent res / of_int 100))%f64
        /\ (Resistor.MaxValue res, Resistor.MaxUnit res)
           = Resistor.scaleResistance
               (Resistor.ResistanceOhms res
                * (of_int 1 + Resistor.TolerancePercent res / of_int 100))%f64)
  /\ (forall (r : Resistor.ResistorReading) (res : Resistor.ResistorResult),
      Resistor.CalculateResistor r = Ok res -> resistor_decodable r).
Proof.
  destruct grey_factors as [Flow Fhigh].
  split.
  { intros r H1 H2 H3 H4.
    assert (Htol : GetToleranceInfo (Band4 r)
                   = ({| PercentHigh := of_int 80; PercentLow := of_int 20;
                         Symmetric := false; AbsolutePF := of_int 0 |}, true))
      by (rewrite H4; evaluate).
    destruct (Calculate_ok r _ H1 H2 H3 Htol) as (res & Hres & D).
    exists res. destruct D as [_ Draw _ [Tsym Thi Tlo _ _ Tlarge] _ _].
    split; [ exact Hres | ]. split; [ exact Draw | ].
    split; [ exact Tsym | ]. split; [ exact Thi | ]. split; [ exact Tlo | ].
    intros Hgt. destruct (Tlarge (ltb_not_geb _ _ Hgt)) as (_ & _ & Hmin & Hmax).
    unfold pct_low, pct_high in Hmin, Hmax. cbn [PercentLow PercentHigh] in *.
    rewrite Flow in Hmin. rewrite Fhigh in Hmax. split; assumption. }
  split; [ eexists; do 5 (split; [ evaluate | ]); evaluate | ].
  split; [ exact symmetric_colors | ].
  split.
  { intros r Hdec.
    destruct (CalculateResistor_ok r Hdec) as (res & Hres & D).
    exists res. split; [ exact Hres | ].
    split; [ exact (rd_min _ _ D) | exact (rd_max _ _ D) ]. }
  intros r res Hres. unfold resistor_decodable.
  assert (Hn : Resistor.BandCount r = 4 \/ Resistor.BandCount r = 5
               \/ Resistor.BandCount r = 6).
  { destruct (Z.eq_dec (Resistor.BandCount r) 4) as [E | N4]; [ auto | ].
    destruct (Z.eq_dec (Resistor.BandCount r) 5) as [E | N5]; [ auto | ].
    destruct (Z.eq_dec (Resistor.BandCount r) 6) as [E | N6]; [ auto | ].
    rewrite CalculateResistor_band_count in Hres by assumption.
    discriminate. }
  split; [ exact Hn | ].
  revert Hres.
  unfold Resistor.CalculateResistor, Resistor.baseAndMultiplier,
    digits_valid, multiplier_band, tolerance_band. cbv zeta.
  destruct (band_count_cases r Hn)
    as [(E4 & E5 & E6 & G5) | [(E4 & E5 & E6 & G5) | (E4 & E5 & E6 & G5)]];
    rewrite ?E4, ?E5, ?E6, ?G5;
    destruct (ValidDigit (GetColorInfo (Resistor.Band1 r)));
    destruct (ValidDigit (GetColorInfo (Resistor.Band2 r)));
    try destruct (ValidDigit (GetColorInfo (Resistor.Band3 r)));
    cbn [negb orb andb]; try failed_decode;
    try destruct (Resistor.GetResistorTempCoefficient (Resistor.Band6 r))
      as [tc tv];
    cbv beta iota;
    match goal with
    | |- context [Resistor.GetResistorMultiplier ?c] =>
        destruct (Resistor.GetResistorMultiplier c) as [mult mv];
        destruct mv
    end;
    cbn [negb snd]; cbv beta iota; try failed_decode;
    res_fields; scaled_pair Escale;
    match goal with
    | |- context [Resistor.GetResistorTolerance ?c] =>
        destruct (Resistor.GetResistorTolerance c) as [tinfo tv'];
        destruct tv'
    end;
    cbn [negb snd]; cbv beta iota; try failed_decode;
    intros _; repeat split.
Qed.

(** The capacitor decode has three errors, none about the band count. *)
Lemma Calculate_errors (r : CapacitorReading) (e : error) :
  Calculate r = Err e ->
  e = InvalidDigit \/ e = InvalidMultiplier \/ e = InvalidTolerance.
Proof.
  intros H.
  destruct (ValidDigit (GetColorInfo (Band1 r))) eqn:H1;
    [ | rewrite Calculate_invalid_digit in H by (left; exact H1);
        injection H as <-; auto ].
  destruct (ValidDigit (GetColorInfo (Band2 r))) eqn:H2;
    [ | rewrite Calculate_invalid_digit in H by (right; exact H2);
        injection H as <-; auto ].
  destruct (ValidMult (GetColorInfo (Band3 r))) eqn:H3;
    [ | rewrite Calculate_invalid_multiplier in H by assumption;
        injection H as <-; auto ].
  destruct (snd (GetToleranceInfo (Band4 r))) eqn:H4;
    [ | rewrite Calculate_invalid_tolerance in H by assumption;
        injection H as <-; auto ].
  assert (Hd : decodable r) by (repeat split; assumption).
  apply Calculate_Ok_iff in Hd. destruct Hd as [res Hres]. congruence.
Qed.

(** The claim C2 fails for the capacitor decode: a reading with seven
    bands declared is decoded, no error is returned. *)
Lemma C2_capacitor_band_count_unchecked :
  let r := {| Band1 := ColorBrown; Band2 := ColorBlack; Band3 := ColorBrown;
              Band4 := ColorBrown; Band5 := ColorBlack; BandCount := 7;
              CapType := TypeK |} in
  ~ (3 <= BandCount r <= 5)
  /\ (exists res, Calculate r = Ok res /\ CapacitancePF res = of_int 100)
  /\ (forall e, Calculate r <> Err e).
Proof.
  cbv zeta. split; [ cbn; lia | ].
  split; [ eexists; split; evaluate | ].
  intros e. vm_compute. discriminate.
Qed.

(** C2, amended.  A band count outside 4, 5, 6 makes the resistor decode
    fail with InvalidBandCount, whatever the bands (seven bands for
    instance); for capacitors the band count is rejected by
    [ValidateBandCount], outside 3, 4, 5, while the capacitor decode
    returns no band-count error: its only errors are InvalidDigit,
    InvalidMultiplier and InvalidTolerance. *)
Theorem C2_band_count_rejection :
  (forall r : Resistor.ResistorReading,
      Resistor.BandCount r <> 4 -> Resistor.BandCount r <> 5 ->
      Resistor.BandCount r <> 6 ->
      Resistor.CalculateResistor r
      = Err (InvalidBandCount (Resistor.BandCount r)))
  /\ Resistor.CalculateResistor
       {| Resistor.Band1 := ColorYellow; Resistor.Band2 := ColorViolet;
          Resistor.Band3 := ColorBlack; Resistor.Band4 := ColorBrown;
          Resistor.Band5 := ColorBrown; Resistor.Band6 := ColorBlack;
          Resistor.BandCount := 7 |}
     = Err (Errorf "invalid band count: 7 (must be 4, 5, or 6)")
  /\ (forall n : Z,
      n < 3 \/ 5 < n ->
      ValidateBandCount n = Some (Errorf "band count must be 3, 4, or 5"))
  /\ (forall n : Z, 3 <= n <= 5 -> ValidateBandCount n = None)
  /\ (forall n : Z,
      n < 4 \/ 6 < n ->
      ValidateResistorBandCount n
      = Some (Errorf "resistor band count must be 4, 5, or 6"))
  /\ (forall n : Z, 4 <= n <= 6 -> ValidateResistorBandCount n = None)
  /\ (forall (r : CapacitorReading) (e : error),
      Calculate r = Err e ->
      e = InvalidDigit \/ e = InvalidMultiplier \/ e = InvalidTolerance)
  /\ (forall r : CapacitorReading,
      (exists res, Calculate r = Ok res) <-> decodable r).
Proof.
  split; [ exact CalculateResistor_band_count | ].
  split; [ evaluate | ].
  split.
  { intros n Hn. unfold ValidateBandCount.
    destruct Hn as [Hn | Hn].
    - replace (n <? 3) with true by (symmetry; apply Z.ltb_lt; exact Hn).
      reflexivity.
    - replace (n >? 5) with true
        by (symmetry; rewrite Z.gtb_ltb; apply Z.ltb_lt; exact Hn).
      rewrite orb_true_r. reflexivity. }
  split.
  { intros n Hn. unfold ValidateBandCount.
    replace (n <? 3) with false by (symmetry; apply Z.ltb_ge; lia).
    replace (n >? 5) with false
      by (symmetry; rewrite Z.gtb_ltb; apply Z.ltb_ge; lia).
    reflexivity. }
  split.
  { intros n Hn. unfold ValidateResistorBandCount.
    destruct Hn as [Hn | Hn].
    - replace (n <? 4) with true by (symmetry; apply Z.ltb_lt; exact Hn).
      reflexivity.
    - replace (n >? 6) with true
        by (symmetry; rewrite Z.gtb_ltb; apply Z.ltb_lt; exact Hn).
      rewrite orb_true_r. reflexivity. }
  split.
  { intros n Hn. unfold ValidateResistorBandCount.
    replace (n <? 4) with false by (symmetry; apply Z.ltb_ge; lia).
    replace (n >? 6) with false
      by (symmetry; rewrite Z.gtb_ltb; apply Z.ltb_ge; lia).
    reflexivity. }
  split; [ exact Calculate_errors | exact Calculate_Ok_iff ].
Qed.

(** The claim C8 fails: for Black in band 4 and 10 pF the validator returns
    an error, and the validation of the whole reading fails with it. *)
Lemma C8_small_capacitor_band4_is_error :
  ValidateBand4 ColorBlack (of_int 10) <> None
  /\ ValidateBand4 ColorBlack (of_int 10)
     = Some (ValidationError 4 (small_capacitor_message ColorBlack))
  /\ ValidateReading
       {| Band1 := ColorBrown; Band2 := ColorBlack; Band3 := ColorBlack;
          Band4 := ColorBlack; Band5 := ColorBlack; BandCount := 3;
          CapType := TypeK |}
     = Some (ValidationError 4 (small_capacitor_message ColorBlack)).
Proof.
  split; [ vm_compute; discriminate | ]. split; evaluate.
Qed.

(** C8, amended.  For every band-4 colour of the capacitor tolerance table
    without absolute value and a capacitance of at most 10 pF,
    [ValidateBand4] returns a validation error for band 4 with a
    descriptive message, as it does (with another message) for a colour
    outside the table, and [ValidateReading] fails with that error on every
    reading whose bands 1 to 3 are accepted; the decode itself accepts the
    reading and falls back to the percentage tolerance.  The validator
    accepts the colour when the capacitance is above 10 pF or the colour
    has an absolute value. *)
Theorem C8_small_capacitor_band4_rejected :
  (forall (c : Color) (tol : ToleranceInfo) (capacitancePF : float64),
      GetToleranceInfo c = (tol, true) ->
      (AbsolutePF tol =? of_int 0)%f64 = true ->
      (capacitancePF <=? of_int 10)%f64 = true ->
      ValidateBand4 c capacitancePF
      = Some (ValidationError 4 (small_capacitor_message c)))
  /\ (forall (c : Color) (capacitancePF : float64),
      snd (GetToleranceInfo c) = false ->
      ValidateBand4 c capacitancePF
      = Some (ValidationError 4
                (Colors.Name (GetColorInfo c)
                 ++ " is not valid for tolerance band")))
  /\ (forall (c : Color) (tol : ToleranceInfo) (capacitancePF : float64),
      GetToleranceInfo c = (tol, true) ->
      (AbsolutePF tol =? of_int 0)%f64 = false
      \/ (capacitancePF <=? of_int 10)%f64 = false ->
      ValidateBand4 c capacitancePF = None)
  /\ (forall (r : CapacitorReading) (tol : ToleranceInfo),
      ValidDigit (GetColorInfo (Band1 r)) = true ->
      ValidDigit (GetColorInfo (Band2 r)) = true ->
      ValidMult (GetColorInfo (Band3 r)) = true ->
      GetToleranceInfo (Band4 r) = (tol, true) ->
      (AbsolutePF tol =? of_int 0)%f64 = true ->
      (rawPF r <=? of_int 10)%f64 = true ->
      ValidateReading r
      = Some (ValidationError 4 (small_capacitor_message (Band4 r)))
      /\ exists res,
           Calculate r = Ok res /\ percentage_range (rawPF r) tol res)
  /\ (exists res,
      Calculate {| Band1 := ColorBrown; Band2 := ColorBlack;
                   Band3 := ColorBlack; Band4 := ColorBlack;
                   Band5 := ColorBlack; BandCount := 3;
                   CapType := TypeK |} = Ok res
      /\ ToleranceType res = "percentage"
      /\ TolerancePercent res = of_int 20).
Proof.
  split.
  { intros c tol cap Htol Habs Hcap. unfold ValidateBand4.
    rewrite Htol. cbn [negb]. cbv beta iota. rewrite Habs, Hcap.
    reflexivity. }
  split.
  { intros c cap Htol. unfold ValidateBand4.
    destruct (GetToleranceInfo c) as [tol ex]. simpl in Htol. subst ex.
    reflexivity. }
  split.
  { intros c tol cap Htol Hor. unfold ValidateBand4.
    rewrite Htol. cbn [negb]. cbv beta iota.
    destruct Hor as [H | H]; rewrite H; rewrite ?andb_false_r; reflexivity. }
  split.
  { intros r tol H1 H2 H3 Htol Habs Hsmall. split.
    - unfold ValidateReading, ValidateBand1, ValidateBand2, ValidateBand3.
      cbv zeta. rewrite H1, H2, H3. cbn [negb]. cbv beta iota.
      fold (rawPF r). unfold ValidateBand4.
      rewrite Htol. cbn [negb]. cbv beta iota. rewrite Habs, Hsmall.
      reflexivity.
    - destruct (Calculate_ok r tol H1 H2 H3 Htol) as (res & Hres & D).
      exists res. split; [ exact Hres | ].
      exact (ta_small_percentage _ _ _ (d_tolerance _ _ _ D) Hsmall Habs). }
  eexists; split; [ evaluate | split; evaluate ].
Qed.

End ToleranceAndValidation.

(** ** Text: bytes, white space and letter case *)

Section StringFacts.
Import Spec.

Lemma append_assoc (a b c : string) : (a ++ b) ++ c = a ++ (b ++ c).
Proof. induction a as [ | x a IH]; [ reflexivity | simpl; rewrite IH; reflexivity ]. Qed.

Lemma append_empty (a : string) : a ++ "" = a.
Proof. induction a as [ | x a IH]; [ reflexivity | simpl; rewrite IH; reflexivity ]. Qed.

Lemma append_length (a b : string) :
  String.length (a ++ b) = (String.length a + String.length b)%nat.
Proof. induction a as [ | x a IH]; [ reflexivity | simpl; rewrite IH; reflexivity ]. Qed.

Lemma append_cancel (p x y : string) : p ++ x = p ++ y -> x = y.
Proof.
  induction p as [ | a p IH]; [ auto | ].
  simpl. intros H. injection H as H. exact (IH H).
Qed.

Lemma reverse_app (a b : string) : reverse (a ++ b) = reverse b ++ reverse a.
Proof.
  induction a as [ | x a IH]; simpl.
  - symmetry. apply append_empty.
  - rewrite IH. apply append_assoc.
Qed.

Lemma reverse_involutive (s : string) : reverse (reverse s) = s.
Proof.
  induction s as [ | x s IH]; [ reflexivity | ].
  simpl. rewrite reverse_app, IH. reflexivity.
Qed.

Lemma reverse_length (s : string) :
  String.length (reverse s) = String.length s.
Proof.
  induction s as [ | x s IH]; [ reflexivity | ].
  simpl. rewrite append_length, IH. simpl. lia.
Qed.

Lemma slice_from_length (s : string) (n : nat) :
  String.length (slice_from s n) = (String.length s - n)%nat.
Proof.
  revert s. induction n as [ | n IH]; intros s.
  - simpl. lia.
  - destruct s as [ | a r]; [ reflexivity | ]. simpl. apply IH.
Qed.

Lemma slice_from_app (x t : string) (n : nat) :
  (n <= String.length x)%nat ->
  slice_from (x ++ t) n = slice_from x n ++ t.
Proof.
  revert x. induction n as [ | n IH]; intros x H; [ reflexivity | ].
  destruct x as [ | a r]; [ simpl in H; lia | ].
  simpl. apply IH. simpl in H. lia.
Qed.

Lemma slice_from_prefix (p r : string) :
  slice_from (p ++ r) (String.length p) = r.
Proof. induction p as [ | a p IH]; [ reflexivity | exact IH ]. Qed.

(** ** Removing byte sequences *)

Lemma strip_prefix_spec (p s r : string) :
  strip_prefix p s = Some r <-> s = p ++ r.
Proof.
  revert s. induction p as [ | a p IH]; intros s; simpl.
  - split; [ intros H; injection H as <-; reflexivity | intros ->; reflexivity ].
  - destruct s as [ | b s]; [ split; discriminate | ].
    destruct (Ascii.eqb_spec a b) as [<- | N].
    + rewrite IH. split; [ intros ->; reflexivity | intros H; injection H as H; exact H ].
    + split; [ discriminate | intros H; injection H as H _; congruence ].
Qed.

Lemma strip_any_Some (ps : list string) (s r : string) :
  strip_any ps s = Some r -> exists p, In p ps /\ s = p ++ r.
Proof.
  induction ps as [ | p ps IH]; simpl; [ discriminate | ].
  destruct (strip_prefix p s) as [r' | ] eqn:E.
  - intros H. injection H as <-. exists p. split; [ auto | ].
    apply strip_prefix_spec. exact E.
  - intros H. destruct (IH H) as (q & Hq & Hs). exists q. auto.
Qed.

Lemma strip_any_None (ps : list string) (s : string) :
  strip_any ps s = None <->
  (forall p, In p ps -> strip_prefix p s = None).
Proof.
  induction ps as [ | p ps IH]; simpl.
  - split; [ intros _ q [] | reflexivity ].
  - destruct (strip_prefix p s) as [r | ] eqn:E.
    + split; [ discriminate | ]. intros H.
      rewrite (H p (or_introl eq_refl)) in E. discriminate E.
    + rewrite IH. split.
      * intros H q [<- | Hq]; [ exact E | exact (H q Hq) ].
      * intros H q Hq. exact (H q (or_intror Hq)).
Qed.

Lemma prefix_spec (p q : string) :
  String.prefix p q = true <-> exists r, q = p ++ r.
Proof.
  revert q. induction p as [ | a p IH]; intros q.
  - split; [ intros _; exists q; reflexivity | intros _; destruct q; reflexivity ].
  - destruct q as [ | b q];
      [ split; [ discriminate | intros (r & H); discriminate H ] | ].
    simpl. destruct (ascii_dec a b) as [<- | N].
    + rewrite IH. split; intros (r & H); exists r;
        [ rewrite H; reflexivity | injection H as H; exact H ].
    + split; [ discriminate | intros (r & H); injection H as H _; congruence ].
Qed.

Lemma app_eq_prefix (p q x y : string) :
  p ++ x = q ++ y -> String.prefix p q = true \/ String.prefix q p = true.
Proof.
  revert q. induction p as [ | a p IH]; intros q H.
  - left. destruct q; reflexivity.
  - destruct q as [ | b q]; [ right; reflexivity | ].
    simpl in H. injection H as <- H.
    simpl. destruct (ascii_dec a a) as [_ | N]; [ | contradiction ].
    exact (IH q H).
Qed.

Lemma prefix_free_nonempty (ps : list string) (p : string) :
  prefix_free ps = true -> In p ps -> p <> "".
Proof.
  unfold prefix_free. rewrite forallb_forall. intros H Hp.
  specialize (H p Hp). apply andb_prop in H. destruct H as [H _].
  apply negb_true_iff in H. apply String.eqb_neq in H. exact H.
Qed.

Lemma prefix_free_unique (ps : list string) (p q x y : string) :
  prefix_free ps = true -> In p ps -> In q ps ->
  p ++ x = q ++ y -> p = q /\ x = y.
Proof.
  unfold prefix_free. rewrite forallb_forall. intros H Hp Hq E.
  assert (Hpq : p = q).
  { destruct (app_eq_prefix p q x y E) as [P | P].
    - pose proof (H p Hp) as Hpp. apply andb_prop in Hpp.
      destruct Hpp as [_ Hpp]. rewrite forallb_forall in Hpp.
      specialize (Hpp q Hq). rewrite P in Hpp. simpl in Hpp.
      apply String.eqb_eq in Hpp. exact Hpp.
    - pose proof (H q Hq) as Hqq. apply andb_prop in Hqq.
      destruct Hqq as [_ Hqq]. rewrite forallb_forall in Hqq.
      specialize (Hqq p Hp). rewrite P in Hqq. simpl in Hqq.
      apply String.eqb_eq in Hqq. symmetry. exact Hqq. }
  split; [ exact Hpq | ]. subst q. exact (append_cancel p x y E).
Qed.

Lemma strip_any_found (ps : list string) (p r : string) :
  prefix_free ps = true -> In p ps -> strip_any ps (p ++ r) = Some r.
Proof.
  intros Hfree Hp.
  destruct (strip_any ps (p ++ r)) as [r' | ] eqn:E.
  - destruct (strip_any_Some ps _ _ E) as (q & Hq & Hs).
    destruct (prefix_free_unique ps p q r r' Hfree Hp Hq Hs) as [_ <-].
    reflexivity.
  - rewrite strip_any_None in E. specialize (E p Hp).
    assert (H : strip_prefix p (p ++ r) = Some r)
      by (apply strip_prefix_spec; reflexivity).
    rewrite H in E. discriminate E.
Qed.

Lemma strip_any_shorter (ps : list string) (s r : string) :
  prefix_free ps = true -> strip_any ps s = Some r ->
  (String.length r < String.length s)%nat.
Proof.
  intros Hfree H. destruct (strip_any_Some ps s r H) as (p & Hp & ->).
  pose proof (prefix_free_nonempty ps p Hfree Hp) as Hne.
  rewrite append_length. destruct p; [ contradiction | simpl; lia ].
Qed.

Lemma trim_from_enough (ps : list string) (n m : nat) (s : string) :
  prefix_free ps = true ->
  (String.length s <= n)%nat -> (String.length s <= m)%nat ->
  trim_from n ps s = trim_from m ps s.
Proof.
  intros Hfree. revert m s.
  induction n as [ | n IH]; intros m s Hn Hm.
  - destruct s; [ | simpl in Hn; lia ].
    destruct m as [ | m]; [ reflexivity | ]. simpl.
    destruct (strip_any ps "") as [r | ] eqn:E; [ | reflexivity ].
    apply (strip_any_shorter ps) in E; [ simpl in E; lia | exact Hfree ].
  - destruct m as [ | m].
    + destruct s; [ | simpl in Hm; lia ]. simpl.
      destruct (strip_any ps "") as [r | ] eqn:E; [ | reflexivity ].
      apply (strip_any_shorter ps) in E; [ simpl in E; lia | exact Hfree ].
    + simpl. destruct (strip_any ps s) as [r | ] eqn:E; [ | reflexivity ].
      pose proof (strip_any_shorter ps s r Hfree E) as Hlt.
      apply IH; lia.
Qed.

Lemma trim_step (ps : list string) (s : string) :
  prefix_free ps = true ->
  trim ps s = match strip_any ps s with
              | Some r => trim ps r
              | None => s
              end.
Proof.
  intros Hfree. unfold trim.
  destruct (strip_any ps s) as [r | ] eqn:E.
  - pose proof (strip_any_shorter ps s r Hfree E) as Hlt.
    destruct (String.length s) as [ | n] eqn:L; [ lia | ].
    simpl. rewrite E. apply trim_from_enough; [ exact Hfree | lia | lia ].
  - destruct (String.length s) as [ | n]; simpl; [ | rewrite E ]; reflexivity.
Qed.

Lemma trim_clear (ps : list string) (s : string) :
  prefix_free ps = true -> strip_any ps s = None -> trim ps s = s.
Proof. intros Hfree H. rewrite (trim_step ps s Hfree), H. reflexivity. Qed.

Lemma made_of_app (ps : list string) (a b : string) :
  made_of ps a -> made_of ps b -> made_of ps (a ++ b).
Proof.
  intros Ha Hb. induction Ha as [ | p r Hp Hr IH]; [ exact Hb | ].
  rewrite append_assoc. apply made_of_cons; assumption.
Qed.

Lemma made_of_reverse (ps : list string) (s : string) :
  made_of ps s -> made_of (map reverse ps) (reverse s).
Proof.
  intros H. induction H as [ | p r Hp Hr IH]; [ constructor | ].
  rewrite reverse_app. apply made_of_app; [ exact IH | ].
  rewrite <- (append_empty (reverse p)).
  apply made_of_cons; [ apply in_map; exact Hp | constructor ].
Qed.

Lemma trim_made_of (ps : list string) (pre s : string) :
  prefix_free ps = true -> made_of ps pre ->
  trim ps (pre ++ s) = trim ps s.
Proof.
  intros Hfree H. induction H as [ | p r Hp Hr IH]; [ reflexivity | ].
  rewrite append_assoc, (trim_step ps _ Hfree),
    (strip_any_found ps p _ Hfree Hp).
  exact IH.
Qed.

Lemma trim_all (ps : list string) (s : string) :
  prefix_free ps = true -> made_of ps s -> trim ps s = "".
Proof.
  intros Hfree H. rewrite <- (append_empty s).
  rewrite (trim_made_of ps s "" Hfree H). reflexivity.
Qed.

(** A sequence found at the front of [s ++ t] is found at the front of
    [s], or it is [s] followed by a front of [t]. *)
Lemma strip_prefix_app (p s t r : string) :
  strip_prefix p (s ++ t) = Some r ->
  (exists r', strip_prefix p s = Some r')
  \/ (exists p2, p = s ++ p2 /\ p2 <> "" /\ strip_prefix p2 t = Some r).
Proof.
  revert s. induction p as [ | a p IH]; intros s H.
  - left. exists s. reflexivity.
  - destruct s as [ | b s].
    + right. exists (String a p). split; [ reflexivity | ].
      split; [ discriminate | exact H ].
    + simpl in H. simpl.
      destruct (Ascii.eqb_spec a b) as [<- | N]; [ | discriminate H ].
      destruct (IH s H) as [(r' & Hr) | (p2 & -> & Hne & Hp2)].
      * left. exists r'. exact Hr.
      * right. exists p2. auto.
Qed.

End StringFacts.

(** ** White space *)

Section WhiteSpace.
Import Spec.

Lemma encodings_prefix_free : prefix_free space_encodings = true.
Proof. vm_compute. reflexivity. Qed.

Lemma rev_encodings_prefix_free : prefix_free rev_encodings = true.
Proof. vm_compute. reflexivity. Qed.

Lemma encodings_well_formed : forallb well_formed space_encodings = true.
Proof. vm_compute. reflexivity. Qed.

Lemma all_continuation_app (a b : string) :
  all_continuation (a ++ b) = (all_continuation a && all_continuation b)%bool.
Proof.
  induction a as [ | x a IH]; [ reflexivity | ].
  simpl. rewrite IH. apply andb_assoc.
Qed.

Lemma starts_rune_app (a b : string) :
  a <> "" -> starts_rune (a ++ b) = starts_rune a.
Proof. destruct a; [ contradiction | reflexivity ]. Qed.

(** No encoding starts inside a text and ends in a following text that
    starts a rune. *)
Lemma strip_any_app (s t : string) :
  strip_any space_encodings s = None -> s <> "" ->
  starts_rune t = true ->
  strip_any space_encodings (s ++ t) = None.
Proof.
  intros Hs Hne Ht. rewrite strip_any_None in *. intros p Hp.
  destruct (strip_prefix p (s ++ t)) as [r | ] eqn:E; [ | reflexivity ].
  destruct (strip_prefix_app p s t r E)
    as [(r' & Hr) | (p2 & -> & Hp2 & Hr)].
  - rewrite (Hs p Hp) in Hr. discriminate Hr.
  - pose proof encodings_well_formed as W.
    rewrite forallb_forall in W. specialize (W _ Hp).
    destruct s as [ | a s]; [ contradiction | ].
    simpl in W. apply andb_prop in W. destruct W as [_ W].
    rewrite all_continuation_app in W. apply andb_prop in W.
    destruct W as [_ W].
    apply strip_prefix_spec in Hr. subst t.
    destruct p2 as [ | b p2]; [ contradiction | ].
    simpl in W, Ht. apply andb_prop in W. destruct W as [W _].
    rewrite W in Ht. discriminate Ht.
Qed.

Lemma made_of_starts_rune (s : string) :
  made_of space_encodings s -> starts_rune s = true.
Proof.
  intros H. destruct H as [ | p r Hp Hr]; [ reflexivity | ].
  pose proof encodings_well_formed as W.
  rewrite forallb_forall in W. specialize (W _ Hp).
  destruct p as [ | a p]; [ discriminate W | ].
  simpl in W. apply andb_prop in W. destruct W as [W _]. exact W.
Qed.

Lemma TrimSpace_clear (s : string) : clear_edges s -> TrimSpace s = s.
Proof.
  intros [Hl Hr]. unfold TrimSpace, TrimLeft, TrimRight.
  rewrite (trim_clear _ s encodings_prefix_free Hl).
  fold rev_encodings.
  rewrite (trim_clear _ _ rev_encodings_prefix_free Hr).
  apply reverse_involutive.
Qed.

(** White space around a text with clear edges is removed. *)
Lemma TrimSpace_around (pre s post : string) :
  made_of space_encodings pre -> made_of space_encodings post ->
  clear_edges s ->
  TrimSpace (pre ++ s ++ post) = s.
Proof.
  intros Hpre Hpost [Hl Hr]. unfold TrimSpace, TrimLeft, TrimRight.
  fold rev_encodings.
  rewrite (trim_made_of _ pre _ encodings_prefix_free Hpre).
  destruct s as [ | a s].
  - simpl. rewrite (trim_all _ post encodings_prefix_free Hpost).
    reflexivity.
  - rewrite (trim_clear _ _ encodings_prefix_free
               (strip_any_app _ post Hl ltac:(discriminate)
                  (made_of_starts_rune post Hpost))).
    rewrite reverse_app.
    rewrite (trim_made_of _ _ _ rev_encodings_prefix_free
               (made_of_reverse _ _ Hpost)).
    rewrite (trim_clear _ _ rev_encodings_prefix_free Hr).
    apply reverse_involutive.
Qed.

(** What trimming removes is white space, and what it leaves does not
    start with white space. *)
Lemma trim_decompose (ps : list string) (s : string) :
  prefix_free ps = true ->
  exists pre,
    s = pre ++ trim ps s /\ made_of ps pre
    /\ strip_any ps (trim ps s) = None.
Proof.
  intros Hfree.
  remember (String.length s) as n eqn:Hn. revert s Hn.
  induction n as [n IH] using lt_wf_ind. intros s Hn.
  rewrite (trim_step ps s Hfree).
  destruct (strip_any ps s) as [r | ] eqn:E.
  - pose proof (strip_any_shorter ps s r Hfree E) as Hlt.
    destruct (strip_any_Some ps s r E) as (p & Hp & Hs).
    destruct (IH (String.length r) ltac:(lia) r eq_refl)
      as (pre & Hr & Hpre & Hclear).
    exists (p ++ pre).
    split; [ rewrite append_assoc, <- Hr; exact Hs | ].
    split; [ apply made_of_cons; assumption | exact Hclear ].
  - exists "". split; [ reflexivity | ].
    split; [ constructor | exact E ].
Qed.

Lemma trim_length (ps : list string) (s : string) :
  prefix_free ps = true ->
  (String.length (trim ps s) <= String.length s)%nat.
Proof.
  intros Hfree. destruct (trim_decompose ps s Hfree) as (pre & Hs & _ & _).
  rewrite Hs at 2. rewrite append_length. lia.
Qed.

(** A text that [TrimRight] leaves as it is does not end in white space. *)
Lemma TrimRight_fixed (x : string) :
  TrimRight x = x -> strip_any rev_encodings (reverse x) = None.
Proof.
  unfold TrimRight. fold rev_encodings. intros H.
  apply (f_equal reverse) in H. rewrite reverse_involutive in H.
  rewrite (trim_step _ _ rev_encodings_prefix_free) in H.
  destruct (strip_any rev_encodings (reverse x)) as [r | ] eqn:E;
    [ | reflexivity ].
  pose proof (strip_any_shorter _ _ _ rev_encodings_prefix_free E) as Hlt.
  pose proof (trim_length rev_encodings r rev_encodings_prefix_free) as Hle.
  rewrite H in Hle. lia.
Qed.

(** The end of a text is the end of each of its non-empty final parts. *)
Lemma clear_end (pre y : string) :
  strip_any rev_encodings (reverse (pre ++ y)) = None ->
  strip_any rev_encodings (reverse y) = None.
Proof.
  rewrite reverse_app. intros H.
  destruct (strip_any rev_encodings (reverse y)) as [r | ] eqn:E;
    [ | reflexivity ].
  destruct (strip_any_Some _ _ _ E) as (q & Hq & Hy).
  rewrite Hy, append_assoc in H.
  rewrite (strip_any_found _ q _ rev_encodings_prefix_free Hq) in H.
  discriminate H.
Qed.

(** A text that [TrimRight] leaves as it is: its trimmed form is what
    [TrimLeft] leaves, with clear edges, after white space. *)
Lemma TrimSpace_left (x : string) :
  TrimRight x = x ->
  exists pre,
    x = pre ++ TrimSpace x /\ made_of space_encodings pre
    /\ clear_edges (TrimSpace x).
Proof.
  intros H. apply TrimRight_fixed in H.
  destruct (trim_decompose space_encodings x encodings_prefix_free)
    as (pre & Hx & Hpre & Hleft).
  fold (TrimLeft x) in Hx, Hleft.
  assert (Hright : strip_any rev_encodings (reverse (TrimLeft x)) = None).
  { apply (clear_end pre). rewrite <- Hx. exact H. }
  assert (Ht : TrimSpace x = TrimLeft x).
  { unfold TrimSpace, TrimRight. fold rev_encodings.
    rewrite (trim_clear _ _ rev_encodings_prefix_free Hright).
    apply reverse_involutive. }
  exists pre. rewrite Ht. split; [ exact Hx | ].
  split; [ exact Hpre | split; assumption ].
Qed.

(** Plain text: ASCII bytes other than white space. *)
Lemma plain_head (a : ascii) (r : string) :
  plain a = true ->
  strip_any space_encodings (String a r) = None
  /\ strip_any rev_encodings (String a r) = None
  /\ continuation a = false.
Proof.
  destruct a as [b0 b1 b2 b3 b4 b5 b6 b7].
  destruct b7;
    [ destruct b0, b1, b2, b3, b4, b5, b6; discriminate | ].
  destruct b0, b1, b2, b3, b4, b5, b6; intros H;
    first [ discriminate H | repeat split; reflexivity ].
Qed.

Lemma plain_text_app (a b : string) :
  plain_text (a ++ b) = (plain_text a && plain_text b)%bool.
Proof.
  induction a as [ | x a IH]; [ reflexivity | ].
  simpl. rewrite IH. apply andb_assoc.
Qed.

Lemma plain_text_reverse (s : string) :
  plain_text s = true -> plain_text (reverse s) = true.
Proof.
  induction s as [ | a r IH]; [ reflexivity | ].
  simpl. intros H. apply andb_prop in H. destruct H as [Ha Hr].
  rewrite plain_text_app, (IH Hr). simpl. rewrite Ha. reflexivity.
Qed.

Lemma plain_text_slice (s : string) (n : nat) :
  plain_text s = true -> plain_text (slice_from s n) = true.
Proof.
  revert s. induction n as [ | n IH]; intros s H; [ exact H | ].
  destruct s as [ | a r]; [ reflexivity | ].
  simpl in H. apply andb_prop in H. destruct H as [_ Hr].
  exact (IH r Hr).
Qed.

Lemma plain_text_starts (s : string) :
  plain_text s = true -> starts_rune s = true.
Proof.
  destruct s as [ | a r]; [ reflexivity | ].
  simpl. intros H. apply andb_prop in H. destruct H as [Ha _].
  destruct (plain_head a r Ha) as (_ & _ & Hc). rewrite Hc. reflexivity.
Qed.

Lemma plain_text_ascii (s : string) :
  plain_text s = true -> isASCII s = true.
Proof.
  induction s as [ | a r IH]; [ reflexivity | ].
  simpl. intros H. apply andb_prop in H. destruct H as [Ha Hr].
  unfold plain in Ha. apply andb_prop in Ha. destruct Ha as [Ha _].
  rewrite Ha, (IH Hr). reflexivity.
Qed.

(** Plain text after a text with clear edges: the edges stay clear. *)
Lemma clear_edges_plain (t s : string) :
  clear_edges t -> plain_text s = true -> s <> "" ->
  clear_edges (t ++ s).
Proof.
  intros [Hl Hr] Hs Hne. split.
  - destruct t as [ | a t].
    + destruct s as [ | b s]; [ contradiction | ].
      simpl in Hs. apply andb_prop in Hs. destruct Hs as [Hb _].
      exact (proj1 (plain_head b s Hb)).
    + exact (strip_any_app _ s Hl ltac:(discriminate)
               (plain_text_starts s Hs)).
  - rewrite reverse_app.
    pose proof (plain_text_reverse s Hs) as Hrev.
    destruct (reverse s) as [ | b r] eqn:E.
    + apply (f_equal String.length) in E.
      rewrite reverse_length in E. destruct s; [ contradiction | ].
      discriminate E.
    + simpl in Hrev. apply andb_prop in Hrev. destruct Hrev as [Hb _].
      exact (proj1 (proj2 (plain_head b (r ++ reverse t) Hb))).
Qed.

End WhiteSpace.

(** ** Decoding and mapping *)

Section Mapping.
Import Spec.

Lemma first_range (s0 sz lo hi : Z) :
  first s0 = Some (sz, lo, hi) ->
  0x80 <= lo /\ hi <= 0xBF /\ (sz = 2 \/ sz = 3 \/ sz = 4).
Proof.
  unfold first.
  repeat match goal with
         | |- context [if ?c then _ else _] => destruct c
         end;
    intros H; try discriminate H; injection H as <- <- <-; lia.
Qed.

Lemma cont_byte_app (lo hi : Z) (r t : string) :
  0x80 <= lo -> hi <= 0xBF -> starts_rune t = true ->
  cont_byte lo hi (r ++ t)
  = match cont_byte lo hi r with
    | Some (c, r') => Some (c, r' ++ t)
    | None => None
    end.
Proof.
  intros Hlo Hhi Ht. destruct r as [ | a r]; simpl.
  - destruct t as [ | b t]; [ reflexivity | ]. simpl.
    simpl in Ht. apply negb_true_iff in Ht. unfold continuation in Ht.
    destruct (byte b <? lo) eqn:E1; [ reflexivity | ].
    destruct (hi <? byte b) eqn:E2; [ reflexivity | ].
    apply Z.ltb_ge in E1, E2.
    apply andb_false_iff in Ht.
    destruct Ht as [Ht | Ht]; [ apply Z.leb_gt in Ht | apply Z.leb_gt in Ht ];
      lia.
  - destruct ((byte a <? lo) || (hi <? byte a))%bool; reflexivity.
Qed.

Lemma cont_byte_Some (lo hi : Z) (r : string) (c : Z) (r' : string) :
  cont_byte lo hi r = Some (c, r') -> exists a, r = String a r'.
Proof.
  destruct r as [ | a r]; simpl; [ discriminate | ].
  destruct ((byte a <? lo) || (hi <? byte a))%bool; [ discriminate | ].
  intros H. injection H as _ <-. exists a. reflexivity.
Qed.

(** A rune is decoded from the bytes of its encoding alone: what follows
    does not matter when it starts a rune. *)
Lemma Decode_app (x t : string) :
  x <> "" -> starts_rune t = true ->
  DecodeRuneInString (x ++ t) = DecodeRuneInString x.
Proof.
  intros Hx Ht. destruct x as [ | a0 r0]; [ contradiction | ].
  simpl. destruct (byte a0 <? RuneSelf); [ reflexivity | ].
  destruct (first (byte a0)) as [[[sz lo] hi] | ] eqn:F; [ | reflexivity ].
  destruct (first_range _ _ _ _ F) as (Hlo & Hhi & _).
  rewrite (cont_byte_app lo hi r0 t Hlo Hhi Ht).
  destruct (cont_byte lo hi r0) as [[c1 r1] | ]; [ | reflexivity ].
  destruct (sz =? 2); [ reflexivity | ].
  rewrite (cont_byte_app 0x80 0xBF r1 t ltac:(lia) ltac:(lia) Ht).
  destruct (cont_byte 0x80 0xBF r1) as [[c2 r2] | ]; [ | reflexivity ].
  destruct (sz =? 3); [ reflexivity | ].
  rewrite (cont_byte_app 0x80 0xBF r2 t ltac:(lia) ltac:(lia) Ht).
  destruct (cont_byte 0x80 0xBF r2) as [[c3 r3] | ]; reflexivity.
Qed.

Lemma Decode_width (x : string) (c : Z) (w : nat) :
  x <> "" -> DecodeRuneInString x = (c, w) ->
  (1 <= w <= String.length x)%nat.
Proof.
  intros Hx. destruct x as [ | a0 r0]; [ contradiction | ].
  simpl. destruct (byte a0 <? RuneSelf);
    [ intros H; injection H as _ <-; lia | ].
  destruct (first (byte a0)) as [[[sz lo] hi] | ];
    [ | intros H; injection H as _ <-; lia ].
  destruct (cont_byte lo hi r0) as [[c1 r1] | ] eqn:E1;
    [ | intros H; injection H as _ <-; lia ].
  destruct (cont_byte_Some _ _ _ _ _ E1) as (a1 & ->).
  destruct (sz =? 2); [ intros H; injection H as _ <-; simpl; lia | ].
  destruct (cont_byte 0x80 0xBF r1) as [[c2 r2] | ] eqn:E2;
    [ | intros H; injection H as _ <-; simpl; lia ].
  destruct (cont_byte_Some _ _ _ _ _ E2) as (a2 & ->).
  destruct (sz =? 3); [ intros H; injection H as _ <-; simpl; lia | ].
  destruct (cont_byte 0x80 0xBF r2) as [[c3 r3] | ] eqn:E3;
    [ | intros H; injection H as _ <-; simpl; lia ].
  destruct (cont_byte_Some _ _ _ _ _ E3) as (a3 & ->).
  intros H; injection H as _ <-; simpl; lia.
Qed.

(** The fuel of [Map] is enough. *)
Lemma Map_from_enough (f : Z -> Z) (n m : nat) (s : string) :
  (String.length s <= n)%nat -> (String.length s <= m)%nat ->
  Map_from n f s = Map_from m f s.
Proof.
  revert m s. induction n as [ | n IH]; intros m s Hn Hm.
  - destruct s; [ | simpl in Hn; lia ]. destruct m; reflexivity.
  - destruct m as [ | m].
    + destruct s; [ reflexivity | simpl in Hm; lia ].
    + destruct s as [ | a r]; [ reflexivity | ].
      cbn [Map_from].
      destruct (DecodeRuneInString (String a r)) as [c w] eqn:E.
      destruct (Decode_width (String a r) c w ltac:(discriminate) E) as [Hw _].
      f_equal. cbn [String.length] in Hn, Hm.
      apply IH; rewrite slice_from_length; cbn [String.length]; lia.
Qed.

Lemma Map_step (f : Z -> Z) (s : string) :
  s <> "" ->
  Map f s
  = (if f (fst (DecodeRuneInString s)) <? 0 then ""
     else EncodeRune (f (fst (DecodeRuneInString s))))
    ++ Map f (slice_from s (snd (DecodeRuneInString s))).
Proof.
  intros Hs. destruct s as [ | a r]; [ contradiction | ].
  unfold Map. cbn [String.length Map_from].
  destruct (DecodeRuneInString (String a r)) as [c w] eqn:E.
  destruct (Decode_width (String a r) c w ltac:(discriminate) E) as [Hw _].
  cbn [fst snd]. f_equal.
  apply Map_from_enough; rewrite ?slice_from_length; cbn [String.length]; lia.
Qed.

Lemma Map_empty (f : Z -> Z) : Map f "" = "".
Proof. reflexivity. Qed.

(** Mapping goes through a concatenation at a rune boundary. *)
Lemma Map_app (f : Z -> Z) (x t : string) :
  starts_rune t = true -> Map f (x ++ t) = Map f x ++ Map f t.
Proof.
  intros Ht.
  remember (String.length x) as n eqn:Hn.
  revert x Hn. induction n as [n IH] using lt_wf_ind. intros x Hn.
  destruct x as [ | a r]; [ reflexivity | ].
  assert (Hx : String a r <> "") by discriminate.
  rewrite (Map_step f (String a r ++ t)) by discriminate.
  rewrite (Map_step f (String a r) Hx).
  rewrite (Decode_app (String a r) t Hx Ht).
  destruct (DecodeRuneInString (String a r)) as [c w] eqn:E.
  destruct (Decode_width _ _ _ Hx E) as [Hw1 Hw2].
  cbn [fst snd].
  rewrite (slice_from_app (String a r) t w Hw2).
  rewrite (IH (String.length (slice_from (String a r) w)));
    [ | rewrite slice_from_length; subst n; cbn [String.length] in *; lia
      | reflexivity ].
  symmetry. apply append_assoc.
Qed.

Context {tables : CaseTables}.

(** On ASCII text the two paths of [ToLower] agree. *)
Lemma lower_byte (a : ascii) :
  (byte a <? RuneSelf) = true ->
  (unicode_ToLower (byte a) <? 0) = false
  /\ EncodeRune (unicode_ToLower (byte a)) = String (lower_ascii a) "".
Proof.
  destruct a as [b0 b1 b2 b3 b4 b5 b6 b7].
  destruct b7; [ destruct b0, b1, b2, b3, b4, b5, b6; discriminate | ].
  intros _.
  destruct b0, b1, b2, b3, b4, b5, b6; split; vm_compute; reflexivity.
Qed.

Lemma Map_ascii (s : string) :
  isASCII s = true -> Map unicode_ToLower s = map_bytes lower_ascii s.
Proof.
  induction s as [ | a r IH]; [ reflexivity | ].
  simpl. intros H. apply andb_prop in H. destruct H as [Ha Hr].
  rewrite (Map_step _ (String a r)) by discriminate.
  simpl. rewrite Ha. cbn [fst snd slice_from].
  destruct (lower_byte a Ha) as [-> ->].
  rewrite (IH Hr). reflexivity.
Qed.

Lemma ToLower_Map (s : string) : ToLower s = Map unicode_ToLower s.
Proof.
  unfold ToLower. destruct (isASCII s) eqn:E; [ | reflexivity ].
  symmetry. exact (Map_ascii s E).
Qed.

Lemma ToLower_app (x t : string) :
  starts_rune t = true -> ToLower (x ++ t) = ToLower x ++ ToLower t.
Proof. intros Ht. rewrite !ToLower_Map. exact (Map_app _ x t Ht). Qed.

(** Lower case keeps the white space at the front of a text. *)
Lemma ToLower_space (p s : string) :
  In p space_encodings -> ToLower (p ++ s) = p ++ ToLower s.
Proof.
  intros Hp. rewrite !ToLower_Map.
  rewrite (Map_step _ (p ++ s)).
  2: { vm_compute in Hp.
       repeat (destruct Hp as [<- | Hp]; [ discriminate | ]).
       contradiction. }
  vm_compute in Hp.
  repeat (destruct Hp as [<- | Hp]; [ reflexivity | ]).
  contradiction.
Qed.

Lemma ToLower_clear (s : string) :
  clear_edges (ToLower s) -> clear_edges s.
Proof.
  intros [Hl Hr]. split.
  - destruct (strip_any space_encodings s) as [r | ] eqn:E; [ | reflexivity ].
    destruct (strip_any_Some _ _ _ E) as (p & Hp & ->).
    rewrite (ToLower_space p r Hp) in Hl.
    rewrite (strip_any_found _ p _ encodings_prefix_free Hp) in Hl.
    discriminate Hl.
  - destruct (strip_any rev_encodings (reverse s)) as [r | ] eqn:E;
      [ | reflexivity ].
    destruct (strip_any_Some _ _ _ E) as (q & Hq & Hs).
    unfold rev_encodings in Hq. apply in_map_iff in Hq.
    destruct Hq as (p & <- & Hp).
    assert (Es : s = reverse r ++ p).
    { rewrite <- (reverse_involutive s), Hs, reverse_app,
        reverse_involutive. reflexivity. }
    assert (Hstart : starts_rune p = true).
    { apply made_of_starts_rune. rewrite <- (append_empty p).
      apply made_of_cons; [ exact Hp | constructor ]. }
    rewrite Es, (ToLower_app _ p Hstart) in Hr.
    rewrite <- (append_empty p) in Hr at 1.
    rewrite (ToLower_space p "" Hp) in Hr.
    change (ToLower "") with "" in Hr. rewrite append_empty in Hr.
    rewrite reverse_app in Hr.
    rewrite (strip_any_found _ (reverse p) _ rev_encodings_prefix_free) in Hr;
      [ discriminate Hr | ].
    unfold rev_encodings. apply in_map. exact Hp.
Qed.

(** Lower case of ASCII text, byte by byte. *)
Lemma ToLower_ascii (s : string) :
  isASCII s = true -> ToLower s = map_bytes lower_ascii s.
Proof. intros H. unfold ToLower. rewrite H. reflexivity. Qed.

Lemma isASCII_slice (s : string) (n : nat) :
  isASCII s = true -> isASCII (slice_from s n) = true.
Proof.
  revert s. induction n as [ | n IH]; intros s H; [ exact H | ].
  destruct s as [ | a r]; [ reflexivity | ].
  simpl in H. apply andb_prop in H. destruct H as [_ Hr].
  exact (IH r Hr).
Qed.

Lemma map_bytes_slice (f : ascii -> ascii) (s : string) (n : nat) :
  slice_from (map_bytes f s) n = map_bytes f (slice_from s n).
Proof.
  revert s. induction n as [ | n IH]; intros s; [ reflexivity | ].
  destruct s as [ | x s]; [ reflexivity | ]. simpl. apply IH.
Qed.

Lemma slice_from_lower (s : string) (n : nat) :
  isASCII s = true ->
  slice_from (ToLower s) n = ToLower (slice_from s n).
Proof.
  intros H. rewrite (ToLower_ascii s H),
    (ToLower_ascii _ (isASCII_slice s n H)).
  apply map_bytes_slice.
Qed.

End Mapping.

(** ** Colour parsing *)

Section ColourParsing.
Import Colors Spec.
Context {tables : CaseTables}.

Lemma IsSpace_runes (r : Z) : IsSpace r = true -> In r space_runes.
Proof.
  unfold IsSpace, White_Space. cbn [existsb fst snd]. intros H.
  repeat (apply orb_true_iff in H; destruct H as [H | H]);
    try discriminate H;
    apply andb_prop in H; destruct H as [H1 H2];
    apply Z.leb_le in H1, H2;
    assert (Hr : r = 0x9 \/ r = 0xA \/ r = 0xB \/ r = 0xC \/ r = 0xD
                 \/ r = 0x20 \/ r = 0x85 \/ r = 0xA0 \/ r = 0x1680
                 \/ r = 0x2000 \/ r = 0x2001 \/ r = 0x2002 \/ r = 0x2003
                 \/ r = 0x2004 \/ r = 0x2005 \/ r = 0x2006 \/ r = 0x2007
                 \/ r = 0x2008 \/ r = 0x2009 \/ r = 0x200A \/ r = 0x2028
                 \/ r = 0x2029 \/ r = 0x202F \/ r = 0x205F \/ r = 0x3000)
      by lia;
    clear H1 H2;
    repeat (destruct Hr as [-> | Hr]; [ vm_compute; tauto | ]);
    subst r; vm_compute; tauto.
Qed.

Lemma white_space_made_of (s : string) :
  white_space s -> made_of space_encodings s.
Proof.
  intros H. induction H as [ | r s Hr Hs IH]; [ constructor | ].
  apply made_of_cons; [ | exact IH ].
  unfold space_encodings. apply in_map. exact (IsSpace_runes r Hr).
Qed.

(** ASCII white space is white space. *)
Lemma isSpace_rune (a : ascii) :
  isSpace a = true ->
  IsSpace (byte a) = true /\ EncodeRune (byte a) = String a "".
Proof.
  destruct a as [[] [] [] [] [] [] [] []];
    intros H; try discriminate H; split; reflexivity.
Qed.

Lemma all_space_white (s : string) : all_space s = true -> white_space s.
Proof.
  induction s as [ | a r IH]; [ constructor | ].
  simpl. intros H. apply andb_prop in H. destruct H as [Ha Hr].
  destruct (isSpace_rune a Ha) as [Hs He].
  change (String a r) with (String a "" ++ r). rewrite <- He.
  apply white_rune; [ exact Hs | exact (IH Hr) ].
Qed.

(** White space around a text with clear edges is removed. *)
Lemma TrimSpace_padded (pre s post : string) :
  white_space pre -> white_space post -> clear_edges s ->
  TrimSpace (pre ++ s ++ post) = s.
Proof.
  intros Hpre Hpost Hs.
  exact (TrimSpace_around pre s post (white_space_made_of pre Hpre)
           (white_space_made_of post Hpost) Hs).
Qed.

(** Reading the name table. *)
Lemma name_table_found (k : string) (c : Color) :
  map_get String.eqb ColorBlack colorNameMap k = (c, true) ->
  In (k, c) colorNameMap.
Proof.
  unfold map_get.
  destruct (find (fun kv => String.eqb (fst kv) k) colorNameMap)
    as [[k' c'] | ] eqn:E; [ | discriminate ].
  apply find_some in E. destruct E as [Hin Heq].
  apply String.eqb_eq in Heq. simpl in Heq. subst k'.
  intros H. injection H as <-. exact Hin.
Qed.

Lemma name_table_absent (k : string) :
  ~ In k recognized ->
  map_get String.eqb ColorBlack colorNameMap k = (ColorBlack, false).
Proof.
  intros H. unfold map_get.
  destruct (find (fun kv => String.eqb (fst kv) k) colorNameMap)
    as [[k' c'] | ] eqn:E; [ | reflexivity ].
  apply find_some in E. destruct E as [Hin Heq].
  apply String.eqb_eq in Heq. simpl in Heq. subst k'.
  elim H. unfold recognized.
  exact (in_map fst colorNameMap (k, c') Hin).
Qed.

Lemma ParseColor_names (c : Color) :
  is_color c -> ParseColor (Name (GetColorInfo c)) = (c, true).
Proof.
  intros Hc. apply is_color_range in Hc.
  by_color c; unfold_colors; try lia; evaluate.
Qed.

Lemma names_clear (c : Color) :
  is_color c -> clear_edges (ToLower (Name (GetColorInfo c))).
Proof.
  intros Hc. apply is_color_range in Hc.
  by_color c; unfold_colors; try lia; split; evaluate.
Qed.

Lemma ParseColor_lower_names (c : Color) :
  is_color c ->
  map_get String.eqb ColorBlack colorNameMap
          (ToLower (Name (GetColorInfo c))) = (c, true).
Proof.
  intros Hc. apply is_color_range in Hc.
  by_color c; unfold_colors; try lia; evaluate.
Qed.

(** C9. Colour parsing round-trips and never defaults: for each of the
    twelve colours, [ParseColor] applied to the display name returns the
    colour with found = true, also for any text with the same lower case
    as the name and with white space, ASCII or not, around it; GREY and
    gray give the same colour; a successful parse is the parse of a
    recognized name; and for every text that, trimmed and in lower case,
    is none of the recognized names, found = false.  The statement holds
    for every case table of the Unicode letters: a no-break space and an
    em space around red are ignored, and BLAC followed by the Kelvin sign
    is Black when the table maps the sign to k, as Unicode's does. *)
Theorem C9_parse_color_round_trip :
  (forall c : Color,
      is_color c -> ParseColor (Name (GetColorInfo c)) = (c, true))
  /\ AllColorNames = map (fun c => Name (GetColorInfo c)) AllColors
  /\ (forall (c : Color) (pre s post : string),
      is_color c ->
      white_space pre -> white_space post ->
      ToLower s = ToLower (Name (GetColorInfo c)) ->
      ParseColor (pre ++ s ++ post) = (c, true))
  /\ ParseColor "GREY" = ParseColor "gray"
  /\ ParseColor "gray" = (ColorGrey, true)
  /\ ParseColor "  GrEy " = (ColorGrey, true)
  /\ ParseColor (EncodeRune 0xA0 ++ "red" ++ EncodeRune 0x2003)
     = (ColorRed, true)
  /\ (LowerCase 0x212A = 0x6B ->
      ParseColor ("BLAC" ++ EncodeRune 0x212A) = (ColorBlack, true))
  /\ (forall (s : string) (c : Color),
      ParseColor s = (c, true) ->
      is_color c
      /\ (ToLower (TrimSpace s) = ToLower (Name (GetColorInfo c))
          \/ (c = ColorGrey /\ ToLower (TrimSpace s) = "gray")))
  /\ (forall s : string,
      ~ In (ToLower (TrimSpace s)) recognized ->
      ParseColor s = (ColorBlack, false))
  /\ snd (ParseColor "purple") = false
  /\ snd (ParseColor "") = false
  /\ snd (ParseColor "re d") = false.
Proof.
  split; [ exact ParseColor_names | ].
  split; [ evaluate | ].
  split.
  { intros c pre s post Hc Hpre Hpost Hs. unfold ParseColor.
    assert (Hclear : clear_edges s).
    { apply ToLower_clear. rewrite Hs. exact (names_clear c Hc). }
    rewrite (TrimSpace_padded pre s post Hpre Hpost Hclear), Hs.
    exact (ParseColor_lower_names c Hc). }
  do 4 (split; [ evaluate | ]).
  split.
  { intros HK. unfold ParseColor.
    replace (ToLower (TrimSpace ("BLAC" ++ EncodeRune 0x212A)))
      with "black"; [ reflexivity | ].
    cbv in HK. cbv. rewrite HK. reflexivity. }
  split.
  { intros s c H. unfold ParseColor in H. apply name_table_found in H.
    remember (ToLower (TrimSpace s)) as k eqn:Ek. clear Ek.
    simpl in H.
    repeat (destruct H as [H | H];
            [ injection H as <- <-;
              split;
              [ apply is_color_range; unfold_colors; lia
              | first [ left; evaluate | right; split; reflexivity ] ]
            | ]).
    contradiction. }
  split.
  { intros s H. unfold ParseColor. exact (name_table_absent _ H). }
  split; [ evaluate | ]. split; evaluate.
Qed.

End ColourParsing.

(** ** The general statements at concrete readings *)

Section Instances.
Import F64 Colors Types Spec Samples.
#[local] Existing Instance latin_tables.

(** Brown, Black, Black with tolerance Brown: 10 pF, absolute branch. *)
Lemma C1_at_10pF_brown :
  exists res,
    Calculator.Calculate capacitor_10pF_brown = Ok res
    /\ absolute_range (rawPF capacitor_10pF_brown) brown_tolerance res.
Proof.
  destruct C1_tolerance_branch_selection as [H _].
  destruct (H capacitor_10pF_brown brown_tolerance)
    as (res & Hres & _ & Habs & _); try (vm_compute; reflexivity).
  exists res. split; [ exact Hres | ].
  apply Habs; vm_compute; reflexivity.
Defined.

(** A resistor reading declared with seven bands. *)
Lemma C2_at_seven_bands :
  Resistor.CalculateResistor (resistor_4k7 7) = Err (InvalidBandCount 7).
Proof.
  destruct C2_band_count_rejection as [H _].
  apply (H (resistor_4k7 7)); cbn; lia.
Defined.

(** Brown, Black, Red with tolerance Grey: 1000 pF, bounds raw*0.8 and
    raw*1.8. *)
Lemma C3_at_1000pF_grey :
  exists res,
    Calculator.Calculate capacitor_1000pF_grey = Ok res
    /\ (Calculator.MinValue res, Calculator.MinUnit res)
       = Calculator.scaleCapacitance
           (rawPF capacitor_1000pF_grey * dec 8 10)%f64
    /\ (Calculator.MaxValue res, Calculator.MaxUnit res)
       = Calculator.scaleCapacitance
           (rawPF capacitor_1000pF_grey * dec 18 10)%f64.
Proof.
  destruct C3_grey_asymmetric as [H _].
  destruct (H capacitor_1000pF_grey)
    as (res & Hres & _ & _ & _ & _ & Hgt); try (vm_compute; reflexivity).
  exists res. split; [ exact Hres | ].
  apply Hgt. vm_compute. reflexivity.
Defined.

(** Four bands, type M, band 5 Brown: the voltage is looked up. *)
Lemma C4_at_type_M_brown :
  exists res,
    Calculator.Calculate capacitor_10pF_brown = Ok res
    /\ (Calculator.VoltageRating res, Calculator.VoltageValid res)
       = GetVoltageRatingFractional TypeM ColorBrown.
Proof.
  destruct C4_voltage_resolution as [H _].
  destruct (H capacitor_10pF_brown brown_tolerance)
    as (res & Hres & Hlook & _); try (vm_compute; reflexivity).
  exists res. split; [ exact Hres | ].
  apply Hlook; cbn; [ lia | discriminate ].
Defined.

(** Brown, Black, Black: the raw value of the result. *)
Lemma C5_at_10pF_brown :
  exists res,
    Calculator.Calculate capacitor_10pF_brown = Ok res
    /\ Calculator.CapacitancePF res = rawPF capacitor_10pF_brown.
Proof.
  destruct C5_raw_picofarads as [H _].
  destruct (H capacitor_10pF_brown) as (_ & _ & Hok).
  destruct Hok as [Hres _]; try (vm_compute; reflexivity).
  apply Hres. vm_compute. reflexivity.
Defined.

(** Yellow, Violet, Black, Brown, Brown with five bands. *)
Lemma C6_at_five_bands :
  exists res,
    Resistor.CalculateResistor (resistor_4k7 5) = Ok res
    /\ Resistor.ResistanceOhms res = (of_int 470 * of_int 10)%f64
    /\ Resistor.TolerancePercent res = of_int 1.
Proof.
  destruct C6_resistor_band_semantics as (_ & H & _).
  destruct (H (resistor_4k7 5))
    as (res & Hres & Hraw & Hpct & _);
    try (vm_compute; reflexivity); [ left; reflexivity | ].
  exists res. split; [ exact Hres | ]. split; [ exact Hraw | exact Hpct ].
Defined.

(** 999999 pF lies in [1000, 10^6). *)
Lemma C7_at_999999 :
  Calculator.scaleCapacitance (of_int 999999)
  = ((of_int 999999 / of_int 1000)%f64, "nF").
Proof.
  destruct C7_unit_scaling_boundary_exact as [H _].
  destruct (H (of_int 999999)) as (_ & Hn & _).
  apply Hn; vm_compute; reflexivity.
Defined.

(** Brown, Black, Black with tolerance Black: rejected by the validation,
    decoded with the percentage fallback. *)
Lemma C8_at_10pF_black :
  Validation.ValidateReading capacitor_10pF_black
  = Some (ValidationError 4 (small_capacitor_message ColorBlack))
  /\ exists res,
       Calculator.Calculate capacitor_10pF_black = Ok res
       /\ percentage_range (rawPF capacitor_10pF_black) black_tolerance res.
Proof.
  destruct C8_small_capacitor_band4_rejected as (_ & _ & _ & H & _).
  apply (H capacitor_10pF_black black_tolerance); vm_compute; reflexivity.
Defined.

(** Mixed case with white space on both sides. *)
Lemma C9_at_padded_grey :
  ParseColor ("  " ++ "GrEy" ++ " ") = (ColorGrey, true).
Proof.
  destruct (@C9_parse_color_round_trip latin_tables) as (_ & _ & H & _).
  apply (H ColorGrey "  " "GrEy" " ");
    [ apply is_color_range; unfold ColorGrey; lia
    | apply all_space_white; reflexivity
    | apply all_space_white; reflexivity
    | vm_compute; reflexivity ].
Defined.

(** Four bands with multiplier band Black. *)
Lemma C10_at_four_bands :
  Resistor.CalculateResistor (resistor_4k7 4)
  <> Err InvalidResistorMultiplier.
Proof.
  destruct C10_resistor_multiplier_total as (_ & H & _).
  apply (H (resistor_4k7 4)).
  apply is_color_range. cbn. unfold ColorBlack. lia.
Defined.

End Instances.

(* ================================================================== *)
(** * Further properties of the decoder *)
(* ================================================================== *)

(** ** Unit scaling is monotone *)

Section ScalingOrder.
Import F64 Checks.

Lemma leb_trans (x y z : float64) :
  (x <=? y)%f64 = true -> (y <=? z)%f64 = true -> (x <=? z)%f64 = true.
Proof.
  unfold leb, SFleb.
  destruct x as [sx | sx | | sx mx ex], y as [sy | sy | | sy my ey],
           z as [sz | sz | | sz mz ez]; simpl;
    try discriminate; try reflexivity;
    try (destruct sx; simpl; congruence);
    try (destruct sy; simpl; congruence);
    try (destruct sz; simpl; congruence);
    try (destruct sx, sy; simpl; congruence);
    try (destruct sx, sz; simpl; congruence);
    try (destruct sy, sz; simpl; congruence);
    try (destruct sx, sy, sz; simpl; congruence).
  change (Pos.compare_cont Eq mx my) with (Pos.compare mx my).
  change (Pos.compare_cont Eq my mz) with (Pos.compare my mz).
  change (Pos.compare_cont Eq mx mz) with (Pos.compare mx mz).
  destruct sx, sy, sz; try discriminate; try reflexivity;
    destruct (Z.compare_spec ex ey), (Z.compare_spec ey ez),
             (Z.compare_spec ex ez); try discriminate; try reflexivity;
    try lia; subst;
    destruct (Pos.compare_spec mx my), (Pos.compare_spec my mz),
             (Pos.compare_spec mx mz); simpl; try discriminate;
    try reflexivity; try lia.
Qed.

(** A value at or above a threshold stays there when it grows. *)
Lemma geb_mono (x y t : float64) :
  (x <=? y)%f64 = true -> (x >=? t)%f64 = true -> (y >=? t)%f64 = true.
Proof. intros Hxy Ht. exact (leb_trans t x y Ht Hxy). Qed.

Ltac grown_threshold Hxy :=
  repeat match goal with
  | Hx : (?x >=? ?t)%f64 = true, Hy : (?y >=? ?t)%f64 = false |- _ =>
      rewrite (geb_mono x y t Hxy Hx) in Hy; discriminate Hy
  end.

Lemma scaleCapacitance_monotone (x y : float64) :
  (x <=? y)%f64 = true ->
  capacitance_rank (snd (Calculator.scaleCapacitance x))
  <= capacitance_rank (snd (Calculator.scaleCapacitance y)).
Proof.
  intros Hxy. unfold Calculator.scaleCapacitance. cbv zeta.
  destruct (x >=? of_int 1000000000)%f64 eqn:X9;
    destruct (x >=? of_int 1000000)%f64 eqn:X6;
    destruct (x >=? of_int 1000)%f64 eqn:X3;
    destruct (y >=? of_int 1000000000)%f64 eqn:Y9;
    destruct (y >=? of_int 1000000)%f64 eqn:Y6;
    destruct (y >=? of_int 1000)%f64 eqn:Y3;
    try grown_threshold Hxy;
    cbn [snd]; vm_compute; discriminate.
Qed.

Lemma scaleResistance_monotone (x y : float64) :
  (x <=? y)%f64 = true ->
  resistance_rank (snd (Resistor.scaleResistance x))
  <= resistance_rank (snd (Resistor.scaleResistance y)).
Proof.
  intros Hxy. unfold Resistor.scaleResistance. cbv zeta.
  destruct (x >=? of_int 1000000000)%f64 eqn:X9;
    destruct (x >=? of_int 1000000)%f64 eqn:X6;
    destruct (x >=? of_int 1000)%f64 eqn:X3;
    destruct (y >=? of_int 1000000000)%f64 eqn:Y9;
    destruct (y >=? of_int 1000000)%f64 eqn:Y6;
    destruct (y >=? of_int 1000)%f64 eqn:Y3;
    try grown_threshold Hxy;
    cbn [snd]; vm_compute; discriminate.
Qed.

(** X1. Unit scaling is monotone: when a value is at most another, its
    unit is not a larger one (pF, nF, µF, mF for capacitance; Ω, kΩ, MΩ,
    GΩ for resistance). *)
Theorem X1_scale_units_monotone (x y : float64) :
  (x <=? y)%f64 = true ->
  capacitance_rank (snd (Calculator.scaleCapacitance x))
  <= capacitance_rank (snd (Calculator.scaleCapacitance y))
  /\ resistance_rank (snd (Resistor.scaleResistance x))
     <= resistance_rank (snd (Resistor.scaleResistance y)).
Proof.
  intros Hxy. split.
  - exact (scaleCapacitance_monotone x y Hxy).
  - exact (scaleResistance_monotone x y Hxy).
Qed.

(** 999 is at most 1000. *)
Lemma X1_at_999_1000 :
  capacitance_rank (snd (Calculator.scaleCapacitance (of_int 999)))
  <= capacitance_rank (snd (Calculator.scaleCapacitance (of_int 1000)))
  /\ resistance_rank (snd (Resistor.scaleResistance (of_int 999)))
     <= resistance_rank (snd (Resistor.scaleResistance (of_int 1000))).
Proof.
  apply (X1_scale_units_monotone (of_int 999) (of_int 1000)).
  vm_compute. reflexivity.
Defined.

End ScalingOrder.

(** ** Validation against decoding *)

Section ValidationVersusDecode.
Import F64 Colors Types Calculator Validation Spec.

(** What the validation of a whole capacitor reading checks. *)
Lemma ValidateReading_None_iff (r : CapacitorReading) :
  ValidateReading r = None
  <-> ValidDigit (GetColorInfo (Band1 r)) = true
      /\ ValidDigit (GetColorInfo (Band2 r)) = true
      /\ ValidMult (GetColorInfo (Band3 r)) = true
      /\ snd (GetToleranceInfo (Band4 r)) = true
      /\ ((rawPF r <=? of_int 10)%f64
          && (AbsolutePF (fst (GetToleranceInfo (Band4 r))) =? of_int 0)%f64)%bool
         = false
      /\ (4 <= BandCount r ->
          snd (GetVoltageRatingFractional (CapType r) (Band5 r)) = true).
Proof.
  unfold ValidateReading, ValidateBand1, ValidateBand2, ValidateBand3,
    ValidateBand4, ValidateBand5. cbv zeta. fold (rawPF r).
  destruct (ValidDigit (GetColorInfo (Band1 r)));
    [ | cbn; split; [ discriminate | intros (H & _); discriminate H ] ].
  destruct (ValidDigit (GetColorInfo (Band2 r)));
    [ | cbn; split; [ discriminate | intros (_ & H & _); discriminate H ] ].
  destruct (ValidMult (GetColorInfo (Band3 r)));
    [ | cbn; split; [ discriminate | intros (_ & _ & H & _); discriminate H ] ].
  cbn [negb]. cbv beta iota.
  destruct (GetToleranceInfo (Band4 r)) as [tol ex]. cbn [fst snd].
  destruct ex;
    [ | cbn; split; [ discriminate | intros (_ & _ & _ & H & _); discriminate H ] ].
  cbn [negb]. cbv beta iota.
  destruct ((rawPF r <=? of_int 10)%f64 && (AbsolutePF tol =? of_int 0)%f64)%bool;
    [ split; [ discriminate
             | intros (_ & _ & _ & _ & H & _); discriminate H ] | ].
  destruct (GetVoltageRatingFractional (CapType r) (Band5 r)) as [v valid].
  cbn [snd].
  destruct (Z.leb_spec 4 (BandCount r)) as [Hge | Hlt].
  - replace (BandCount r >=? 4) with true by (symmetry; apply Z.geb_le; lia).
    replace (BandCount r <? 4) with false by (symmetry; apply Z.ltb_ge; lia).
    destruct (GetTypeInfo (CapType r)) as [info ok].
    destruct valid; cbn.
    + split; [ intros _; repeat split | reflexivity ].
    + split; [ discriminate | ].
      intros (_ & _ & _ & _ & _ & H). specialize (H Hge). discriminate H.
  - replace (BandCount r >=? 4) with false
      by (symmetry; rewrite Z.geb_leb; apply Z.leb_gt; lia).
    split; [ intros _; repeat split; lia | reflexivity ].
Qed.

(** X2. A capacitor reading the validation accepts is decoded: the decode
    returns a result; the voltage it looks up (band count at least 4, band
    5 not Black) is valid; and a capacitance of at most 10 pF is given an
    absolute tolerance, never the percentage fallback. *)
Theorem X2_validated_reading_decodes (r : CapacitorReading) :
  ValidateReading r = None ->
  exists res,
    Calculate r = Ok res
    /\ (4 <= BandCount r -> Band5 r <> ColorBlack ->
        VoltageValid res = true)
    /\ ((rawPF r <=? of_int 10)%f64 = true ->
        ToleranceType res = "absolute").
Proof.
  intros H. apply ValidateReading_None_iff in H.
  destruct H as (H1 & H2 & H3 & H4 & Hsmall & Hvolt).
  destruct (GetToleranceInfo (Band4 r)) as [tol ex] eqn:Etol.
  cbn [fst snd] in H4, Hsmall. subst ex.
  destruct (Calculate_ok r tol H1 H2 H3 Etol) as (res & Hres & D).
  exists res. split; [ exact Hres | ].
  destruct D as [_ _ _ [_ _ _ Tabs _ _] Dvolt _]. split.
  - intros Hn Hb. specialize (Hvolt Hn).
    replace (BandCount r >=? 4) with true in Dvolt
      by (symmetry; apply Z.geb_le; lia).
    replace (Band5 r =? ColorBlack) with false in Dvolt
      by (symmetry; apply Z.eqb_neq; exact Hb).
    cbn [negb andb] in Dvolt.
    destruct (GetVoltageRatingFractional (CapType r) (Band5 r)) as [v valid].
    cbn [snd] in Hvolt. subst valid. congruence.
  - intros Hle. rewrite Hle in Hsmall. cbn [andb] in Hsmall.
    destruct (Tabs Hle Hsmall) as (Htype & _). exact Htype.
Qed.

(** Brown, Black, Black, Brown, Brown, four bands, type M. *)
Lemma X2_at_10pF_brown :
  exists res,
    Calculate Samples.capacitor_10pF_brown = Ok res
    /\ (4 <= BandCount Samples.capacitor_10pF_brown ->
        Band5 Samples.capacitor_10pF_brown <> ColorBlack ->
        VoltageValid res = true)
    /\ ((rawPF Samples.capacitor_10pF_brown <=? of_int 10)%f64 = true ->
        ToleranceType res = "absolute").
Proof.
  apply (X2_validated_reading_decodes Samples.capacitor_10pF_brown).
  vm_compute. reflexivity.
Defined.

(** X3. The validation is stricter than the decode in exactly two ways: a
    reading the decode accepts is rejected by the validation only with the
    small-capacitor error of band 4 or with the voltage-code error of band
    5. *)
Theorem X3_validation_stricter_than_decode
        (r : CapacitorReading) (res : CalculationResult) (e : error) :
  Calculate r = Ok res ->
  ValidateReading r = Some e ->
  e = ValidationError 4 (small_capacitor_message (Band4 r))
  \/ e = ValidationError 5
           (Colors.Name (GetColorInfo (Band5 r))
            ++ " is not a valid voltage code for "
            ++ Description (fst (GetTypeInfo (CapType r)))
            ++ " capacitors").
Proof.
  intros Hres Hval.
  assert (Hdec : decodable r) by (apply Calculate_Ok_iff; eauto).
  destruct Hdec as (H1 & H2 & H3 & H4).
  revert Hval.
  unfold ValidateReading, ValidateBand1, ValidateBand2, ValidateBand3,
    ValidateBand4, ValidateBand5. cbv zeta. fold (rawPF r).
  rewrite H1, H2, H3. cbn [negb]. cbv beta iota.
  destruct (GetToleranceInfo (Band4 r)) as [tol ex]. cbn [snd] in H4.
  subst ex. cbn [negb]. cbv beta iota.
  destruct ((rawPF r <=? of_int 10)%f64 && (AbsolutePF tol =? of_int 0)%f64)%bool;
    [ intros H; injection H as <-; left; reflexivity | ].
  destruct (BandCount r >=? 4); [ | discriminate ].
  destruct (BandCount r <? 4); [ discriminate | ].
  destruct (GetVoltageRatingFractional (CapType r) (Band5 r)) as [v valid].
  destruct valid; cbn [negb andb]; [ discriminate | ].
  destruct (GetTypeInfo (CapType r)) as [info ok]. cbn [fst].
  intros H; injection H as <-. right. reflexivity.
Qed.

(** Brown, Black, Black, Black: 10 pF with a colour without absolute
    value. *)
Lemma X3_at_10pF_black :
  ValidationError 4 (small_capacitor_message ColorBlack)
  = ValidationError 4
      (small_capacitor_message (Band4 Samples.capacitor_10pF_black))
  \/ ValidationError 4 (small_capacitor_message ColorBlack)
     = ValidationError 5
         (Colors.Name (GetColorInfo (Band5 Samples.capacitor_10pF_black))
          ++ " is not a valid voltage code for "
          ++ Description
               (fst (GetTypeInfo (CapType Samples.capacitor_10pF_black)))
          ++ " capacitors").
Proof.
  destruct (Calculate Samples.capacitor_10pF_black) as [res | err] eqn:E;
    [ | vm_compute in E; discriminate E ].
  apply (X3_validation_stricter_than_decode
           Samples.capacitor_10pF_black res _ E).
  vm_compute. reflexivity.
Defined.

End ValidationVersusDecode.

(** ** Results of successful decodes *)

Section DecodedResults.
Import F64 Colors Types Spec.

Lemma Calculate_Ok_decoded (r : Calculator.CapacitorReading)
      (res : Calculator.CalculationResult) :
  Calculator.Calculate r = Ok res ->
  exists tol,
    GetToleranceInfo (Calculator.Band4 r) = (tol, true) /\ decoded r tol res.
Proof.
  intros Hres.
  assert (Hdec : decodable r) by (apply Calculate_Ok_iff; eauto).
  destruct Hdec as (H1 & H2 & H3 & H4).
  destruct (GetToleranceInfo (Calculator.Band4 r)) as [tol ex] eqn:Etol.
  cbn [snd] in H4. subst ex.
  destruct (Calculate_ok r tol H1 H2 H3 Etol) as (res' & Hres' & D).
  exists tol. split; [ reflexivity | ]. congruence.
Qed.

Lemma CalculateResistor_Ok_decodable (r : Resistor.ResistorReading)
      (res : Resistor.ResistorResult) :
  Resistor.CalculateResistor r = Ok res -> resistor_decodable r.
Proof.
  intros Hres. unfold resistor_decodable.
  assert (Hn : Resistor.BandCount r = 4 \/ Resistor.BandCount r = 5
               \/ Resistor.BandCount r = 6).
  { destruct (Z.eq_dec (Resistor.BandCount r) 4) as [E | N4]; [ auto | ].
    destruct (Z.eq_dec (Resistor.BandCount r) 5) as [E | N5]; [ auto | ].
    destruct (Z.eq_dec (Resistor.BandCount r) 6) as [E | N6]; [ auto | ].
    rewrite CalculateResistor_band_count in Hres by assumption.
    discriminate. }
  split; [ exact Hn | ].
  revert Hres.
  unfold Resistor.CalculateResistor, Resistor.baseAndMultiplier,
    digits_valid, multiplier_band, tolerance_band. cbv zeta.
  destruct (band_count_cases r Hn)
    as [(E4 & E5 & E6 & G5) | [(E4 & E5 & E6 & G5) | (E4 & E5 & E6 & G5)]];
    rewrite ?E4, ?E5, ?E6, ?G5;
    destruct (ValidDigit (GetColorInfo (Resistor.Band1 r)));
    destruct (ValidDigit (GetColorInfo (Resistor.Band2 r)));
    try destruct (ValidDigit (GetColorInfo (Resistor.Band3 r)));
    cbn [negb orb andb]; try failed_decode;
    try destruct (Resistor.GetResistorTempCoefficient (Resistor.Band6 r))
      as [tc tv];
    cbv beta iota;
    match goal with
    | |- context [Resistor.GetResistorMultiplier ?c] =>
        destruct (Resistor.GetResistorMultiplier c) as [mult mv];
        destruct mv
    end;
    cbn [negb snd]; cbv beta iota; try failed_decode;
    res_fields; scaled_pair Escale;
    match goal with
    | |- context [Resistor.GetResistorTolerance ?c] =>
        destruct (Resistor.GetResistorTolerance c) as [tinfo tv'];
        destruct tv'
    end;
    cbn [negb snd]; cbv beta iota; try failed_decode;
    intros _; repeat split.
Qed.

Lemma CalculateResistor_Ok_decoded (r : Resistor.ResistorReading)
      (res : Resistor.ResistorResult) :
  Resistor.CalculateResistor r = Ok res ->
  resistor_decodable r /\ resistor_decoded r res.
Proof.
  intros Hres.
  pose proof (CalculateResistor_Ok_decodable r res Hres) as Hdec.
  split; [ exact Hdec | ].
  destruct (CalculateResistor_ok r Hdec) as (res' & Hres' & D). congruence.
Qed.

Lemma GetTempCoefficient_unknown (c : Color) :
  c < 0 \/ 11 < c -> GetTempCoefficient c = (0, false).
Proof.
  intros H. unfold GetTempCoefficient, temperatureCoefficientMap.
  absent_key.
Qed.

Lemma GetResistorTempCoefficient_unknown (c : Color) :
  c < 0 \/ 11 < c -> Resistor.GetResistorTempCoefficient c = (0, false).
Proof.
  intros H. unfold Resistor.GetResistorTempCoefficient,
    Resistor.resistorTempCoefficientMap. absent_key.
Qed.

Lemma capacitor_coefficients (c : Color) (k : Z) :
  GetTempCoefficient c = (k, true) ->
  k < 0 /\ ColorBrown <= c <= ColorViolet.
Proof.
  intros H.
  by_color c;
    [ rewrite GetTempCoefficient_unknown in H by assumption; discriminate
    | .. ];
    vm_compute in H; try discriminate; injection H as <-;
    unfold_colors; lia.
Qed.

Lemma resistor_coefficients (c : Color) (k : Z) :
  Resistor.GetResistorTempCoefficient c = (k, true) ->
  0 < k /\ ColorBlack <= c <= ColorGrey.
Proof.
  intros H.
  by_color c;
    [ rewrite GetResistorTempCoefficient_unknown in H by assumption;
      discriminate
    | .. ];
    vm_compute in H; try discriminate; injection H as <-;
    unfold_colors; lia.
Qed.

(** X4. Temperature coefficients of results: a capacitor result carries a
    valid coefficient only for a band count of 5 and a band 5 in
    Brown..Violet, and the coefficient is negative; a resistor result
    carries one only for a band count of 6 and a band 6 in Black..Grey, and
    the coefficient is positive. *)
Theorem X4_temperature_coefficients :
  (forall (r : Calculator.CapacitorReading)
          (res : Calculator.CalculationResult),
      Calculator.Calculate r = Ok res ->
      Calculator.TempCoeffValid res = true ->
      Calculator.BandCount r = 5
      /\ Calculator.TempCoefficient res < 0
      /\ ColorBrown <= Calculator.Band5 r <= ColorViolet)
  /\ (forall (r : Resistor.ResistorReading) (res : Resistor.ResistorResult),
      Resistor.CalculateResistor r = Ok res ->
      Resistor.TempCoeffValid res = true ->
      Resistor.BandCount r = 6
      /\ 0 < Resistor.TempCoefficient res
      /\ ColorBlack <= Resistor.Band6 r <= ColorGrey).
Proof.
  split.
  - intros r res Hres Hvalid.
    destruct (Calculate_Ok_decoded r res Hres) as (tol & _ & D).
    pose proof (d_temperature _ _ _ D) as Ht.
    destruct (Z.eqb_spec (Calculator.BandCount r) 5) as [E | N];
      [ | injection Ht as _ Hv; congruence ].
    split; [ exact E | ].
    rewrite Hvalid in Ht. symmetry in Ht.
    exact (capacitor_coefficients _ _ Ht).
  - intros r res Hres Hvalid.
    destruct (CalculateResistor_Ok_decoded r res Hres) as (_ & D).
    pose proof (rd_temperature _ _ D) as Ht.
    destruct (Z.eqb_spec (Resistor.BandCount r) 6) as [E | N];
      [ | injection Ht as _ Hv; congruence ].
    split; [ exact E | ].
    rewrite Hvalid in Ht. symmetry in Ht.
    exact (resistor_coefficients _ _ Ht).
Qed.

(** Red, Violet, Orange, Brown, Orange with five bands: -150. *)
Lemma X4_at_five_band_capacitor :
  exists res,
    Calculator.Calculate
      {| Calculator.Band1 := ColorRed; Calculator.Band2 := ColorViolet;
         Calculator.Band3 := ColorOrange; Calculator.Band4 := ColorBrown;
         Calculator.Band5 := ColorOrange; Calculator.BandCount := 5;
         Calculator.CapType := TypeK |} = Ok res
    /\ Calculator.TempCoefficient res < 0.
Proof.
  destruct (Calculator.Calculate
      {| Calculator.Band1 := ColorRed; Calculator.Band2 := ColorViolet;
         Calculator.Band3 := ColorOrange; Calculator.Band4 := ColorBrown;
         Calculator.Band5 := ColorOrange; Calculator.BandCount := 5;
         Calculator.CapType := TypeK |}) as [res | err] eqn:E;
    [ | vm_compute in E; discriminate E ].
  exists res. split; [ reflexivity | ].
  destruct X4_temperature_coefficients as [H _].
  destruct (H _ res E) as (_ & Hneg & _); [ | exact Hneg ].
  vm_compute in E. injection E as <-. reflexivity.
Defined.

End DecodedResults.

(** ** Validation of resistor readings *)

Section ResistorValidation.
Import F64 Colors Resistor Validation Spec.

Lemma ValidateResistorReading_None_iff (r : ResistorReading) :
  ValidateResistorReading r = None
  <-> resistor_decodable r
      /\ (BandCount r = 6 ->
          snd (GetResistorTempCoefficient (Band6 r)) = true).
Proof.
  unfold ValidateResistorReading, resistor_decodable, digits_valid,
    multiplier_band, tolerance_band, ValidateResistorBand1,
    ValidateResistorBand2, ValidateResistorBand3,
    ValidateResistorMultiplier, ValidateResistorTolerance,
    ValidateResistorTempCoeff. cbv zeta.
  destruct (Z.eqb_spec (BandCount r) 4) as [E4 | N4];
    [ | destruct (Z.eqb_spec (BandCount r) 5) as [E5 | N5];
        [ | destruct (Z.eqb_spec (BandCount r) 6) as [E6 | N6] ] ];
    try (split; [ discriminate | intros ((H & _) & _); lia ]);
    destruct (ValidDigit (GetColorInfo (Band1 r)));
    destruct (ValidDigit (GetColorInfo (Band2 r)));
    try destruct (ValidDigit (GetColorInfo (Band3 r)));
    cbn [negb andb orb check_then];
    try (split; [ discriminate | intros ((_ & H & _) & _); discriminate H ]);
    match goal with
    | |- context [GetResistorMultiplier ?c] =>
        destruct (GetResistorMultiplier c) as [mult mv]; destruct mv
    end;
    cbn [negb snd check_then];
    try (split;
         [ discriminate | intros ((_ & _ & H & _) & _); discriminate H ]);
    match goal with
    | |- context [GetResistorTolerance ?c] =>
        destruct (GetResistorTolerance c) as [tinfo tv]; destruct tv
    end;
    cbn [negb snd check_then];
    try (split;
         [ discriminate | intros ((_ & _ & _ & H) & _); discriminate H ]);
    try (destruct (GetResistorTempCoefficient (Band6 r)) as [tc tcv];
         destruct tcv; cbn [negb snd check_then]);
    try (split; [ intros _; repeat split; auto; lia | reflexivity ]);
    split; [ discriminate | intros (_ & H); specialize (H E6); discriminate H ].
Qed.

(** X5. The validation of a whole resistor reading accepts exactly the
    readings the decode accepts, with one more requirement for six bands:
    band 6 must have a temperature coefficient.  A validated reading is
    decoded, and with six bands its result carries a valid coefficient. *)
Theorem X5_resistor_validation_matches_decode (r : ResistorReading) :
  ValidateResistorReading r = None
  <-> (exists res,
         CalculateResistor r = Ok res
         /\ (BandCount r = 6 -> TempCoeffValid res = true)).
Proof.
  rewrite ValidateResistorReading_None_iff. split.
  - intros (Hdec & Htemp).
    destruct (CalculateResistor_ok r Hdec) as (res & Hres & D).
    exists res. split; [ exact Hres | ].
    intros E6. specialize (Htemp E6).
    pose proof (rd_temperature _ _ D) as Ht. rewrite E6 in Ht. cbn in Ht.
    destruct (GetResistorTempCoefficient (Band6 r)) as [tc tv].
    cbn [snd] in Htemp. subst tv. congruence.
  - intros (res & Hres & Htemp).
    destruct (CalculateResistor_Ok_decoded r res Hres) as (Hdec & D).
    split; [ exact Hdec | ].
    intros E6. specialize (Htemp E6).
    pose proof (rd_temperature _ _ D) as Ht. rewrite E6 in Ht. cbn in Ht.
    destruct (GetResistorTempCoefficient (Band6 r)) as [tc tv].
    cbn [snd]. congruence.
Qed.

End ResistorValidation.

(** ** Capacitor types and voltage lookups *)

Section VoltageTables.
Import F64 Colors Types Spec.

Lemma type_known (t : CapacitorType) :
  snd (GetTypeInfo t) = true ->
  t = TypeJ \/ t = TypeK \/ t = TypeL \/ t = TypeM \/ t = TypeN.
Proof.
  unfold GetTypeInfo, map_get.
  destruct (find (fun kv => String.eqb (fst kv) t) typeInfoMap)
    as [[k info] | ] eqn:E; [ | discriminate ].
  apply find_some in E. destruct E as [Hin Heq].
  apply String.eqb_eq in Heq. cbn [fst] in Heq. subst k. intros _.
  simpl in Hin.
  repeat (destruct Hin as [Hin | Hin]; [ injection Hin as <- _; tauto | ]).
  contradiction.
Qed.

Lemma type_unknown (t : CapacitorType) (c : Color) :
  snd (GetTypeInfo t) = false ->
  GetVoltageRatingFractional t c = (zero, false)
  /\ GetVoltageRating t c = (0, false).
Proof.
  unfold GetTypeInfo, GetVoltageRatingFractional, GetVoltageRating.
  destruct (map_get String.eqb zeroTypeInfo typeInfoMap t) as [info ex].
  cbn [snd]. intros ->. split; reflexivity.
Qed.

(** A value outside the colour enumeration has digit 0 and is read like
    Black by the voltage lookups. *)
Lemma voltage_unknown_color (t : CapacitorType) (c : Color) :
  c < 0 \/ 11 < c ->
  GetVoltageRatingFractional t c = GetVoltageRatingFractional t ColorBlack
  /\ GetVoltageRating t c = GetVoltageRating t ColorBlack
  /\ Digit (GetColorInfo c) = 0.
Proof.
  intros H. unfold GetVoltageRatingFractional, GetVoltageRating.
  rewrite (GetColorInfo_unknown c H).
  split; [ reflexivity | split; reflexivity ].
Qed.

(** X6. A voltage rating reported as valid is strictly positive and
    belongs to one of the five capacitor types; for a colour of the
    enumeration it is a digit colour (never Gold or Silver); a rating
    reported as invalid has value 0. *)
Theorem X6_valid_voltage_is_positive
        (t : CapacitorType) (c : Color) (v : float64) (valid : bool) :
  GetVoltageRatingFractional t c = (v, valid) ->
  (valid = true ->
     (zero <? v)%f64 = true
     /\ In t AllCapacitorTypes
     /\ (is_color c -> ColorBlack <= c <= ColorWhite))
  /\ (valid = false -> v = zero).
Proof.
  intros H.
  destruct (snd (GetTypeInfo t)) eqn:Et.
  - apply type_known in Et.
    assert (Hin : In t AllCapacitorTypes)
      by (unfold AllCapacitorTypes, TypeJ, TypeK, TypeL, TypeM, TypeN in *;
          simpl; intuition auto).
    by_color c;
      [ destruct (voltage_unknown_color t c ltac:(assumption)) as (E & _ & _);
        rewrite E in H; clear E
      | .. ];
      destruct Et as [-> | [-> | [-> | [-> | ->]]]];
      vm_compute in H; injection H as <- <-;
      (split;
       [ intros Hv;
         first [ discriminate Hv
               | split; [ vm_compute; reflexivity | split; [ exact Hin | ] ];
                 rewrite is_color_range; unfold_colors; lia ]
       | intros Hv; first [ discriminate Hv | reflexivity ] ]).
  - destruct (type_unknown t c Et) as [E _]. rewrite E in H.
    injection H as <- <-. split; [ discriminate | reflexivity ].
Qed.

(** Type M with Brown: 1.6 V. *)
Lemma X6_at_type_M_brown :
  (true = true ->
     (zero <? dec 16 10)%f64 = true
     /\ In TypeM AllCapacitorTypes
     /\ (is_color ColorBrown -> ColorBlack <= ColorBrown <= ColorWhite))
  /\ (true = false -> dec 16 10 = zero).
Proof.
  apply (X6_valid_voltage_is_positive TypeM ColorBrown (dec 16 10) true).
  vm_compute. reflexivity.
Defined.

(** X7. The integer voltage lookup never knows more than the fractional
    one: whenever [GetVoltageRating] reports a valid rating,
    [GetVoltageRatingFractional] reports a valid rating too, equal to it
    except for type M with digit 1, where the integer lookup gives 2 V for
    1.6 V.  The fractional lookup alone is valid exactly for type M with
    digits 2, 4 and 8 and for type N with digit 2. *)
Theorem X7_integer_and_fractional_voltage (t : CapacitorType) (c : Color) :
  (forall n : Z,
      GetVoltageRating t c = (n, true) ->
      exists f,
        GetVoltageRatingFractional t c = (f, true)
        /\ (f = of_int n
            \/ (t = TypeM /\ Digit (GetColorInfo c) = 1 /\ n = 2
                /\ f = dec 16 10)))
  /\ (snd (GetVoltageRatingFractional t c) = true
      /\ snd (GetVoltageRating t c) = false
      <-> (t = TypeM
           /\ (Digit (GetColorInfo c) = 2 \/ Digit (GetColorInfo c) = 4
               \/ Digit (GetColorInfo c) = 8))
          \/ (t = TypeN /\ Digit (GetColorInfo c) = 2)).
Proof.
  destruct (snd (GetTypeInfo t)) eqn:Et.
  - apply type_known in Et.
    by_color c;
      [ destruct (voltage_unknown_color t c ltac:(assumption))
          as (-> & -> & ->)
      | .. ];
      destruct Et as [-> | [-> | [-> | [-> | ->]]]];
      (split;
       [ intros n Hn; vm_compute in Hn; try discriminate Hn;
         injection Hn as <-; eexists;
         (split; [ vm_compute; reflexivity | ]);
         first [ left; vm_compute; reflexivity
               | right; repeat split; vm_compute; reflexivity ]
       | split;
         [ intros [Hf Hn]; vm_compute in Hf; vm_compute in Hn;
           try discriminate Hf; try discriminate Hn;
           first [ left; split; [ reflexivity | ];
                   first [ left; reflexivity
                         | right; left; reflexivity
                         | right; right; reflexivity ]
                 | right; split; reflexivity ]
         | intros [[Ht Hd] | [Ht Hd]];
           vm_compute in Ht; try discriminate Ht;
           vm_compute in Hd;
           try (destruct Hd as [Hd | [Hd | Hd]]);
           try discriminate Hd;
           vm_compute; split; reflexivity ] ]).
  - destruct (type_unknown t c Et) as [Ef En]. rewrite Ef, En.
    split; [ intros n Hn; discriminate Hn | ].
    split; [ intros [Hf _]; discriminate Hf | ].
    intros [[Ht _] | [Ht _]]; subst t; vm_compute in Et; discriminate Et.
Qed.

End VoltageTables.

(** ** Parsing a capacitor type *)

Section TypeParsing.
Import F64 Colors Types Spec.
Context {tables : CaseTables}.

Lemma type_codes_clear (t : string) :
  In t AllCapacitorTypes -> clear_edges t /\ clear_edges (ToLower t).
Proof.
  intros Ht. simpl in Ht.
  destruct Ht as [<- | [<- | [<- | [<- | [<- | []]]]]];
    split; split; vm_compute; reflexivity.
Qed.

(** X8. Parsing a capacitor type: each of the five type codes parses to
    itself, in upper case and in lower case, alone and with white space
    around it, ASCII or not (a blank and a tab around m, a no-break space
    and an ideographic space around K); a successful parse returns one of
    the five codes, which [ValidateCapacitorType] accepts and for which
    [GetTypeInfo] has the entry of that type; a failed parse returns the
    empty code, which [ValidateCapacitorType] rejects.  The statement
    holds for every case table of the Unicode letters. *)
Theorem X8_parse_capacitor_type :
  (forall t : string,
      In t AllCapacitorTypes ->
      ParseCapacitorType t = (t, true)
      /\ ParseCapacitorType (ToLower t) = (t, true))
  /\ (forall (t pre post : string),
      In t AllCapacitorTypes ->
      white_space pre -> white_space post ->
      ParseCapacitorType (pre ++ t ++ post) = (t, true)
      /\ ParseCapacitorType (pre ++ ToLower t ++ post) = (t, true))
  /\ ParseCapacitorType (" m" ++ EncodeRune 0x9) = (TypeM, true)
  /\ ParseCapacitorType (EncodeRune 0xA0 ++ "K" ++ EncodeRune 0x3000)
     = (TypeK, true)
  /\ (forall (s : string) (t : CapacitorType),
      ParseCapacitorType s = (t, true) ->
      In t AllCapacitorTypes
      /\ Validation.ValidateCapacitorType t = None
      /\ snd (GetTypeInfo t) = true
      /\ Type_ (fst (GetTypeInfo t)) = t)
  /\ (forall (s : string) (t : CapacitorType),
      ParseCapacitorType s = (t, false) ->
      t = "" /\ Validation.ValidateCapacitorType t <> None).
Proof.
  split.
  { intros t Ht. simpl in Ht.
    destruct Ht as [<- | [<- | [<- | [<- | [<- | []]]]]];
      split; vm_compute; reflexivity. }
  split.
  { intros t pre post Ht Hpre Hpost. unfold ParseCapacitorType.
    destruct (type_codes_clear t Ht) as [Hupper Hlower].
    rewrite (TrimSpace_padded pre t post Hpre Hpost Hupper).
    rewrite (TrimSpace_padded pre (ToLower t) post Hpre Hpost Hlower).
    simpl in Ht.
    destruct Ht as [<- | [<- | [<- | [<- | [<- | []]]]]];
      split; vm_compute; reflexivity. }
  do 2 (split; [ vm_compute; reflexivity | ]).
  split.
  { intros s t. unfold ParseCapacitorType. cbv zeta.
    destruct (String.eqb (ToUpper (TrimSpace s)) "J");
      [ intros H; injection H as <-; repeat split; simpl; auto | ].
    destruct (String.eqb (ToUpper (TrimSpace s)) "K");
      [ intros H; injection H as <-; repeat split; simpl; auto | ].
    destruct (String.eqb (ToUpper (TrimSpace s)) "L");
      [ intros H; injection H as <-; repeat split; simpl; auto | ].
    destruct (String.eqb (ToUpper (TrimSpace s)) "M");
      [ intros H; injection H as <-; repeat split; simpl; auto 6 | ].
    destruct (String.eqb (ToUpper (TrimSpace s)) "N");
      [ intros H; injection H as <-; repeat split; simpl; auto 6 | ].
    discriminate. }
  intros s t. unfold ParseCapacitorType. cbv zeta.
  destruct (String.eqb (ToUpper (TrimSpace s)) "J"); [ discriminate | ].
  destruct (String.eqb (ToUpper (TrimSpace s)) "K"); [ discriminate | ].
  destruct (String.eqb (ToUpper (TrimSpace s)) "L"); [ discriminate | ].
  destruct (String.eqb (ToUpper (TrimSpace s)) "M"); [ discriminate | ].
  destruct (String.eqb (ToUpper (TrimSpace s)) "N"); [ discriminate | ].
  intros H; injection H as <-. split; [ reflexivity | ].
  vm_compute. discriminate.
Qed.

End TypeParsing.

(** ** Black in band 5 *)

Section BlackBandFive.
Import F64 Colors Types Calculator Validation Spec.

(** X9. Black in band 5 passes the validation for the types J, K, L and N
    (their voltage tables have an entry for digit 0; type M is rejected),
    yet the decode never looks Black up: a validated reading with at least
    four bands and Black in band 5 is decoded without voltage rating,
    although the lookup the validation relied on is valid. *)
Theorem X9_validated_black_band5_has_no_voltage (r : CapacitorReading) :
  ValidateReading r = None ->
  4 <= BandCount r ->
  Band5 r = ColorBlack ->
  (CapType r = TypeJ \/ CapType r = TypeK \/ CapType r = TypeL
   \/ CapType r = TypeN)
  /\ snd (GetVoltageRatingFractional (CapType r) (Band5 r)) = true
  /\ exists res,
       Calculate r = Ok res
       /\ VoltageValid res = false
       /\ VoltageRating res = zero.
Proof.
  intros Hval Hn Hb.
  pose proof Hval as Hiff. apply ValidateReading_None_iff in Hiff.
  destruct Hiff as (H1 & H2 & H3 & H4 & _ & Hvolt).
  specialize (Hvolt Hn).
  split.
  { rewrite Hb in Hvolt.
    destruct (snd (GetTypeInfo (CapType r))) eqn:Et.
    - apply type_known in Et.
      destruct Et as [E | [E | [E | [E | E]]]]; auto.
      rewrite E in Hvolt. vm_compute in Hvolt. discriminate Hvolt.
    - destruct (type_unknown (CapType r) ColorBlack Et) as [E _].
      rewrite E in Hvolt. discriminate Hvolt. }
  split; [ exact Hvolt | ].
  destruct (GetToleranceInfo (Band4 r)) as [tol ex] eqn:Etol.
  cbn [snd] in H4. subst ex.
  destruct (Calculate_ok r tol H1 H2 H3 Etol) as (res & Hres & D).
  exists res. split; [ exact Hres | ].
  pose proof (d_voltage _ _ _ D) as Dv.
  rewrite Hb, Z.eqb_refl, andb_false_r in Dv.
  injection Dv as Hr Hv. split; assumption.
Qed.

(** Brown, Black, Brown, Brown, Black with four bands, type K. *)
Lemma X9_at_type_K_black :
  (TypeK = TypeJ \/ TypeK = TypeK \/ TypeK = TypeL \/ TypeK = TypeN)
  /\ snd (GetVoltageRatingFractional TypeK ColorBlack) = true
  /\ exists res,
       Calculate {| Band1 := ColorBrown; Band2 := ColorBlack;
                    Band3 := ColorBrown; Band4 := ColorBrown;
                    Band5 := ColorBlack; BandCount := 4;
                    CapType := TypeK |} = Ok res
       /\ VoltageValid res = false
       /\ VoltageRating res = zero.
Proof.
  apply (X9_validated_black_band5_has_no_voltage
           {| Band1 := ColorBrown; Band2 := ColorBlack;
              Band3 := ColorBrown; Band4 := ColorBrown;
              Band5 := ColorBlack; BandCount := 4;
              CapType := TypeK |});
    [ vm_compute; reflexivity | cbn; lia | reflexivity ].
Defined.

End BlackBandFive.

(** ** Autocomplete *)

Section AutocompleteProperties.
Import Colors Autocomplete Validation Spec Checks.
Context {tables : CaseTables}.

(** A text that starts with a prefix is the prefix followed by the slice
    after it. *)
Lemma prefix_split (p s : string) :
  HasPrefix s p = true -> s = p ++ slice_from s (String.length p).
Proof.
  unfold HasPrefix. revert s.
  induction p as [ | a p IH]; intros s H; [ reflexivity | ].
  destruct s as [ | b s]; [ discriminate H | ].
  simpl in H. destruct (ascii_dec a b) as [<- | N]; [ | discriminate H ].
  simpl. rewrite <- (IH s H). reflexivity.
Qed.

(** The loop returns the rest of the first candidate that starts with the
    input, or nothing when no candidate does. *)
Lemma firstCompletion_cases (input : string) (colors : list string) :
  (exists color,
      In color colors
      /\ HasPrefix (ToLower color) input = true
      /\ firstCompletion input colors
         = slice_from color (String.length input))
  \/ (firstCompletion input colors = ""
      /\ forall color, In color colors ->
                       HasPrefix (ToLower color) input = false).
Proof.
  induction colors as [ | c rest IH].
  - right. split; [ reflexivity | intros color [] ].
  - simpl. destruct (HasPrefix (ToLower c) input) eqn:E.
    + left. exists c. auto.
    + destruct IH as [(color & Hin & Hp & Hs) | (Hs & Hall)].
      * left. exists color. auto.
      * right. split; [ exact Hs | ].
        intros color [<- | Hin]; [ exact E | exact (Hall color Hin) ].
Qed.

Lemma candidates_names (bandNum : Z) (name : string) :
  In name (candidates bandNum) ->
  In name AllColorNames
  /\ (bandNum = 1 \/ bandNum = 2 -> name <> "Gold" /\ name <> "Silver").
Proof.
  unfold candidates.
  destruct ((bandNum =? 1) || (bandNum =? 2))%bool eqn:E.
  - intros H. apply filter_In in H. destruct H as [Hin Hf].
    split; [ exact Hin | ]. intros _.
    apply andb_prop in Hf. destruct Hf as [Hg Hs].
    apply negb_true_iff in Hg, Hs.
    apply String.eqb_neq in Hg, Hs. split; assumption.
  - intros H. split; [ exact H | ].
    apply orb_false_elim in E. destruct E as [E1 E2].
    apply Z.eqb_neq in E1, E2. intros [H1 | H2]; contradiction.
Qed.

(** Every display name is plain text, and a key of the name table in
    lower case. *)
Lemma display_name_lookup (name : string) :
  In name AllColorNames ->
  exists c,
    is_color c
    /\ map_get String.eqb ColorBlack colorNameMap (ToLower name) = (c, true)
    /\ clear_edges (ToLower name)
    /\ plain_text name = true
    /\ (name <> "Gold" -> name <> "Silver" ->
        ValidDigit (GetColorInfo c) = true).
Proof.
  intros H. simpl in H.
  repeat (destruct H as [<- | H];
          [ eexists; split; [ apply is_color_range | ];
            [ | split; [ vm_compute; reflexivity | ];
                split; [ split; vm_compute; reflexivity | ];
                split; [ vm_compute; reflexivity | ];
                intros Hg Hs;
                first [ vm_compute; reflexivity
                      | elim Hg; reflexivity | elim Hs; reflexivity ] ];
            vm_compute; split; discriminate
          | ]).
  contradiction.
Qed.

(** A non-empty suggestion is plain text and completes the trimmed,
    lower-case input to the lower-case name of a candidate. *)
Lemma suggestion_completes (input : string) (bandNum : Z) :
  GetColorSuggestion input bandNum <> "" ->
  exists name,
    In name (candidates bandNum)
    /\ ToLower (TrimSpace input) ++ ToLower (GetColorSuggestion input bandNum)
       = ToLower name
    /\ plain_text (GetColorSuggestion input bandNum) = true.
Proof.
  unfold GetColorSuggestion. cbv zeta. fold (candidates bandNum).
  destruct (String.eqb input ""); [ intros H; elim H; reflexivity | ].
  destruct (firstCompletion_cases (ToLower (TrimSpace input))
                                  (candidates bandNum))
    as [(color & Hin & Hp & Hs) | (Hs & _)];
    [ | intros H; elim H; exact Hs ].
  intros _. exists color. split; [ exact Hin | ].
  destruct (display_name_lookup color (proj1 (candidates_names _ _ Hin)))
    as (c & _ & _ & _ & Hplain & _).
  rewrite Hs. split; [ | exact (plain_text_slice color _ Hplain) ].
  rewrite <- (slice_from_lower color _ (plain_text_ascii color Hplain)).
  symmetry. exact (prefix_split _ _ Hp).
Qed.

(** X10. Accepting a suggestion gives a colour: for an input that does not
    end in white space, a non-empty suggestion appended to the input
    ([GetFullColorFromInput]) is parsed by [ParseColor] as one of the
    twelve colours; for band 1 and band 2 that colour is a digit colour
    (never Gold or Silver), so that [ValidateBand1] and [ValidateBand2]
    accept it.  White space is the white space of Unicode, and the
    statement holds for every case table of the Unicode letters. *)
Theorem X10_accepted_suggestion_parses (input : string) (bandNum : Z) :
  TrimRight input = input ->
  GetColorSuggestion input bandNum <> "" ->
  exists c,
    ParseColor (GetFullColorFromInput
                  input (GetColorSuggestion input bandNum))
    = (c, true)
    /\ is_color c
    /\ (bandNum = 1 \/ bandNum = 2 ->
        ValidateBand1 c = None /\ ValidateBand2 c = None).
Proof.
  intros Hright Hs.
  destruct (suggestion_completes input bandNum Hs)
    as (name & Hin & Hkey & Hplain).
  apply candidates_names in Hin. destruct Hin as [Hin Hband].
  destruct (display_name_lookup name Hin)
    as (c & Hc & Hget & _ & _ & Hdigit).
  remember (GetColorSuggestion input bandNum) as s eqn:Es.
  destruct (TrimSpace_left input Hright) as (pre & Hinput & Hpre & Hclear).
  exists c. split; [ | split; [ exact Hc | ] ].
  - unfold GetFullColorFromInput.
    destruct (String.eqb_spec s "") as [E | _]; [ contradiction | ].
    unfold ParseColor.
    replace (input ++ s) with (pre ++ (TrimSpace input ++ s) ++ "")
      by (rewrite append_empty, <- append_assoc, <- Hinput; reflexivity).
    rewrite (TrimSpace_around pre (TrimSpace input ++ s) "" Hpre
               (made_of_nil _)
               (clear_edges_plain _ s Hclear Hplain Hs)).
    rewrite (ToLower_app _ s (plain_text_starts s Hplain)), Hkey.
    exact Hget.
  - intros Hb. destruct (Hband Hb) as [Hg Hsv].
    unfold ValidateBand1, ValidateBand2. cbv zeta.
    rewrite (Hdigit Hg Hsv). split; reflexivity.
Qed.

(** X11. A complete colour name gets no suggestion: for every display
    name, in any letter case, the suggestion is empty for every band (for
    bands 1 and 2 also for Gold and Silver, which are no candidates
    there); and the empty input gets no suggestion. *)
Theorem X11_complete_name_has_no_suggestion :
  (forall (name s : string) (bandNum : Z),
      In name AllColorNames ->
      ToLower s = ToLower name ->
      GetColorSuggestion s bandNum = "")
  /\ (forall bandNum : Z, GetColorSuggestion "" bandNum = "").
Proof.
  split; [ | intros bandNum; reflexivity ].
  intros name s bandNum Hin Hs.
  destruct (display_name_lookup name Hin) as (c & _ & _ & Hclear & _).
  assert (Htrim : TrimSpace s = s).
  { apply TrimSpace_clear, ToLower_clear. rewrite Hs. exact Hclear. }
  unfold GetColorSuggestion. cbv zeta.
  destruct (String.eqb s ""); [ reflexivity | ].
  rewrite Htrim, Hs.
  simpl in Hin.
  destruct ((bandNum =? 1) || (bandNum =? 2))%bool;
    repeat (destruct Hin as [<- | Hin]; [ vm_compute; reflexivity | ]);
    contradiction.
Qed.

(** No lower-case display name starts with another one. *)
Lemma names_prefix_free (a b : string) :
  In a AllColorNames -> In b AllColorNames ->
  HasPrefix (ToLower a) (ToLower b) = true ->
  ToLower a = ToLower b.
Proof.
  intros Ha Hb H. simpl in Ha, Hb.
  repeat (destruct Ha as [<- | Ha]); try contradiction;
    repeat (destruct Hb as [<- | Hb]); try contradiction;
    vm_compute in H; first [ discriminate H | reflexivity ].
Qed.

(** An empty rest after a prefix: the text is the prefix. *)
Lemma empty_rest (color key : string) :
  isASCII color = true ->
  HasPrefix (ToLower color) key = true ->
  slice_from color (String.length key) = "" ->
  ToLower color = key.
Proof.
  intros Hascii Hp Hs. pose proof (prefix_split _ _ Hp) as E.
  rewrite (slice_from_lower color _ Hascii), Hs in E.
  change (ToLower "") with "" in E.
  rewrite append_empty in E. exact E.
Qed.

(** X12. Every proper beginning of a candidate name gets a suggestion: when
    the trimmed, lower-case input is a beginning of the lower-case name of
    a candidate of the band, and not the whole name, the suggestion is not
    empty. *)
Theorem X12_proper_prefix_gets_suggestion
        (input name : string) (bandNum : Z) :
  input <> "" ->
  In name (candidates bandNum) ->
  HasPrefix (ToLower name) (ToLower (TrimSpace input)) = true ->
  ToLower name <> ToLower (TrimSpace input) ->
  GetColorSuggestion input bandNum <> "".
Proof.
  intros Hinput Hin Hp Hne.
  unfold GetColorSuggestion. cbv zeta. fold (candidates bandNum).
  destruct (String.eqb_spec input "") as [E | _]; [ contradiction | ].
  destruct (firstCompletion_cases (ToLower (TrimSpace input))
                                  (candidates bandNum))
    as [(color & Hc & Hcp & Hs) | (_ & Hall)];
    [ | rewrite (Hall name Hin) in Hp; discriminate Hp ].
  rewrite Hs. intros Hempty.
  apply candidates_names in Hin, Hc.
  destruct (display_name_lookup color (proj1 Hc))
    as (c & _ & _ & _ & Hplain & _).
  pose proof (empty_rest _ _ (plain_text_ascii color Hplain) Hcp Hempty)
    as Hkey.
  rewrite <- Hkey in Hp, Hne.
  exact (Hne (names_prefix_free name color (proj1 Hin) (proj1 Hc) Hp)).
Qed.

(** X13. An input of white space only is completed to Black: the trimmed
    input is empty, every candidate starts with it, and the suggestion is
    the whole first candidate, for every band; the input with this
    suggestion parses as Black. *)
Theorem X13_blank_input_suggests_black (input : string) (bandNum : Z) :
  input <> "" ->
  all_space input = true ->
  GetColorSuggestion input bandNum = "Black"
  /\ ParseColor (GetFullColorFromInput
                   input (GetColorSuggestion input bandNum))
     = (ColorBlack, true).
Proof.
  intros Hinput Hspace.
  pose proof (all_space_white input Hspace) as Hwhite.
  assert (Htrim : TrimSpace input = "").
  { rewrite <- (append_empty input) at 1.
    apply (TrimSpace_padded input "" "" Hwhite white_empty).
    split; reflexivity. }
  assert (Hs : GetColorSuggestion input bandNum = "Black").
  { unfold GetColorSuggestion. cbv zeta.
    destruct (String.eqb_spec input "") as [E | _]; [ contradiction | ].
    rewrite Htrim.
    destruct ((bandNum =? 1) || (bandNum =? 2))%bool; reflexivity. }
  split; [ exact Hs | ].
  rewrite Hs. unfold GetFullColorFromInput, ParseColor. cbn [String.eqb Ascii.eqb].
  change (input ++ "Black") with (input ++ "Black" ++ "").
  rewrite (TrimSpace_padded input "Black" "" Hwhite white_empty);
    [ reflexivity | split; reflexivity ].
Qed.

End AutocompleteProperties.

(** ** Suggestions at concrete inputs *)

Section AutocompleteInstances.
Import Colors Autocomplete Validation Spec Checks Samples.
#[local] Existing Instance latin_tables.

(** The input bro for band 1: the suggestion wn gives brown. *)
Lemma X10_at_bro :
  exists c,
    ParseColor (GetFullColorFromInput "bro" (GetColorSuggestion "bro" 1))
    = (c, true)
    /\ is_color c
    /\ (1 = 1 \/ 1 = 2 -> ValidateBand1 c = None /\ ValidateBand2 c = None).
Proof.
  apply (X10_accepted_suggestion_parses "bro" 1);
    [ reflexivity | vm_compute; discriminate ].
Defined.

(** The hypothesis of X10 at work: after bl and a no-break space the
    suggestion is ack, and the input with it is no colour name. *)
Lemma suggestion_after_no_break_space :
  TrimRight ("bl" ++ EncodeRune 0xA0) = "bl"
  /\ GetColorSuggestion ("bl" ++ EncodeRune 0xA0) 1 = "ack"
  /\ snd (ParseColor (GetFullColorFromInput
                        ("bl" ++ EncodeRune 0xA0)
                        (GetColorSuggestion ("bl" ++ EncodeRune 0xA0) 1)))
     = false.
Proof. split; [ | split ]; vm_compute; reflexivity. Qed.

(** The input gr for band 3: Green is the first candidate that starts with
    it. *)
Lemma X12_at_gr :
  In "Grey" (candidates 3) /\ GetColorSuggestion "gr" 3 <> "".
Proof.
  split; [ vm_compute; tauto | ].
  apply (X12_proper_prefix_gets_suggestion "gr" "Grey" 3);
    [ discriminate
    | vm_compute; tauto
    | reflexivity
    | vm_compute; discriminate ].
Defined.

(** Two blanks. *)
Lemma X13_at_two_blanks :
  GetColorSuggestion "  " 1 = "Black"
  /\ ParseColor (GetFullColorFromInput "  " (GetColorSuggestion "  " 1))
     = (ColorBlack, true).
Proof.
  apply (X13_blank_input_suggests_black "  " 1);
    [ discriminate | reflexivity ].
Defined.

End AutocompleteInstances.

(** ** Ranges and exact values, by finite checks *)

Section FiniteChecks.
Import F64 Colors Types Spec Checks.

Lemma capacitor_raws_bracketed : bracketed_all capacitor_raws = true.
Proof. vm_compute. reflexivity. Qed.

Lemma capacitor_raws_below_mF :
  below_mF (of_int 990000000) (of_int 1000000000) capacitor_raws = true.
Proof. vm_compute. reflexivity. Qed.

Lemma multipliers_exact : ohms_exact (upto 10) = true.
Proof. vm_compute. reflexivity. Qed.

(** Reading the finite checks at one element. *)
Lemma bracketed_all_elim (raws : list float64) (b4 : Color)
      (tol : ToleranceInfo) (raw : float64) :
  bracketed_all raws = true ->
  In b4 (upto 12) ->
  GetToleranceInfo b4 = (tol, true) ->
  In raw raws ->
  brackets raw (tolerance_bounds raw tol) = true.
Proof.
  unfold bracketed_all. intros Hall Hb4 Htol Hraw.
  rewrite forallb_forall in Hall. specialize (Hall b4 Hb4).
  rewrite Htol in Hall. unfold bracketed_for, bracketed_by in Hall.
  cbn [fst snd] in Hall. rewrite forallb_forall in Hall.
  exact (Hall raw Hraw).
Qed.

Lemma below_mF_elim (top mF : float64) (raws : list float64)
      (raw : float64) :
  below_mF top mF raws = true ->
  In raw raws ->
  (zero <=? raw)%f64 = true /\ (raw <=? top)%f64 = true
  /\ (raw >=? mF)%f64 = false.
Proof.
  unfold below_mF. intros Hall Hraw.
  rewrite forallb_forall in Hall. specialize (Hall raw Hraw).
  cbv beta in Hall.
  apply andb_prop in Hall. destruct Hall as [Hall Hmf].
  apply andb_prop in Hall. destruct Hall as [Hzero Htop].
  apply negb_true_iff in Hmf. auto.
Qed.

Lemma ohms_exact_elim (ks : list Z) (k n : Z) :
  ohms_exact ks = true ->
  In k ks ->
  0 <= n <= 999 ->
  (of_int n * fst (Resistor.GetResistorMultiplier k))%f64
  = of_int (n * 10 ^ k).
Proof.
  unfold ohms_exact. intros Hall Hk Hn.
  rewrite forallb_forall in Hall. specialize (Hall k Hk).
  unfold ohms_exact_for in Hall. rewrite forallb_forall in Hall.
  apply same_float_eq. apply Hall. apply In_upto. lia.
Qed.

(** The raw value of a decodable reading is one of the listed values, and
    its band 4 is one of the twelve colours. *)
Lemma decodable_raw_listed (r : Calculator.CapacitorReading) :
  decodable r ->
  In (rawPF r) capacitor_raws /\ In (Calculator.Band4 r) (upto 12).
Proof.
  intros (H1 & H2 & H3 & H4).
  apply ValidDigit_iff in H1, H2. apply ValidMult_iff in H3.
  apply is_color_range in H3.
  apply tolerance_table_colors in H4. destruct H4 as [H4 _].
  apply is_color_range in H4.
  split; [ | apply In_upto; lia ].
  unfold rawPF, capacitor_raws.
  rewrite (Digit_rank _ H1), (Digit_rank _ H2). unfold_colors.
  apply in_flat_map. exists (Calculator.Band3 r).
  split; [ apply In_upto; lia | ].
  unfold raws_for. apply in_map_iff.
  exists (Calculator.Band1 r * 10 + Calculator.Band2 r).
  split; [ reflexivity | apply In_upto; lia ].
Qed.

(** The stored bounds are the scaled bounds of the selected branch. *)
Lemma stored_bounds (raw : float64) (tol : ToleranceInfo)
      (res : Calculator.CalculationResult) :
  tolerance_applied raw tol res ->
  (Calculator.MinValue res, Calculator.MinUnit res)
  = Calculator.scaleCapacitance (fst (tolerance_bounds raw tol))
  /\ (Calculator.MaxValue res, Calculator.MaxUnit res)
     = Calculator.scaleCapacitance (snd (tolerance_bounds raw tol)).
Proof.
  intros [_ _ _ Tabs Tpct Tlarge].
  unfold tolerance_bounds, bounds_with.
  destruct (raw <=? of_int 10)%f64 eqn:Hsmall;
    [ destruct (AbsolutePF tol =? of_int 0)%f64 eqn:Habs | ];
    cbn [negb andb fst snd].
  - destruct (Tpct eq_refl eq_refl) as (_ & _ & Hmin & Hmax).
    split; assumption.
  - destruct (Tabs eq_refl eq_refl) as (_ & _ & Hmin & Hmax).
    split; assumption.
  - destruct (Tlarge eq_refl) as (_ & _ & Hmin & Hmax). split; assumption.
Qed.

Lemma decoded_bracketed (r : Calculator.CapacitorReading)
      (tol : ToleranceInfo) :
  decodable r ->
  GetToleranceInfo (Calculator.Band4 r) = (tol, true) ->
  brackets (rawPF r) (tolerance_bounds (rawPF r) tol) = true.
Proof.
  intros Hdec Htol.
  destruct (decodable_raw_listed r Hdec) as [Hraw Hb4].
  exact (bracketed_all_elim _ _ _ _ capacitor_raws_bracketed Hb4 Htol Hraw).
Qed.

(** X14. The tolerance range of a decoded capacitor brackets the nominal
    value and never goes below zero: the stored minimum and maximum are
    the unit-scaled forms of two picofarad values lo and hi with
    0 <= lo <= nominal <= hi, and the unit of the minimum is not larger,
    the unit of the maximum not smaller, than the unit of the nominal
    value. *)
Theorem X14_capacitor_range_brackets_nominal
        (r : Calculator.CapacitorReading)
        (res : Calculator.CalculationResult) :
  Calculator.Calculate r = Ok res ->
  exists lo hi,
    (Calculator.MinValue res, Calculator.MinUnit res)
    = Calculator.scaleCapacitance lo
    /\ (Calculator.MaxValue res, Calculator.MaxUnit res)
       = Calculator.scaleCapacitance hi
    /\ (zero <=? lo)%f64 = true
    /\ (lo <=? Calculator.CapacitancePF res)%f64 = true
    /\ (Calculator.CapacitancePF res <=? hi)%f64 = true
    /\ capacitance_rank (Calculator.MinUnit res)
       <= capacitance_rank (Calculator.CapacitanceUnit res)
       <= capacitance_rank (Calculator.MaxUnit res).
Proof.
  intros Hres.
  assert (Hdec : decodable r) by (apply Calculate_Ok_iff; eauto).
  destruct (Calculate_Ok_decoded r res Hres) as (tol & Htol & D).
  pose proof (decoded_bracketed r tol Hdec Htol) as Hb.
  destruct (stored_bounds _ _ _ (d_tolerance _ _ _ D)) as [Hmin Hmax].
  pose proof (d_raw _ _ _ D) as Hraw.
  pose proof (d_scaled _ _ _ D) as Hscaled.
  unfold brackets in Hb.
  apply andb_prop in Hb. destruct Hb as [Hb Hhi].
  apply andb_prop in Hb. destruct Hb as [Hzero Hlo].
  exists (fst (tolerance_bounds (rawPF r) tol)),
         (snd (tolerance_bounds (rawPF r) tol)).
  rewrite Hraw.
  split; [ exact Hmin | ]. split; [ exact Hmax | ].
  split; [ exact Hzero | ]. split; [ exact Hlo | ]. split; [ exact Hhi | ].
  replace (Calculator.MinUnit res)
    with (snd (Calculator.scaleCapacitance
                 (fst (tolerance_bounds (rawPF r) tol))))
    by (rewrite <- Hmin; reflexivity).
  replace (Calculator.MaxUnit res)
    with (snd (Calculator.scaleCapacitance
                 (snd (tolerance_bounds (rawPF r) tol))))
    by (rewrite <- Hmax; reflexivity).
  replace (Calculator.CapacitanceUnit res)
    with (snd (Calculator.scaleCapacitance (rawPF r)))
    by (rewrite <- Hscaled; reflexivity).
  split; apply scaleCapacitance_monotone; assumption.
Qed.

(** Brown, Black, Red with tolerance Grey: 800 pF, 1000 pF, 1800 pF. *)
Lemma X14_at_1000pF_grey :
  exists res lo hi,
    Calculator.Calculate Samples.capacitor_1000pF_grey = Ok res
    /\ (Calculator.MinValue res, Calculator.MinUnit res)
       = Calculator.scaleCapacitance lo
    /\ (Calculator.MaxValue res, Calculator.MaxUnit res)
       = Calculator.scaleCapacitance hi
    /\ (lo <=? Calculator.CapacitancePF res)%f64 = true
    /\ (Calculator.CapacitancePF res <=? hi)%f64 = true.
Proof.
  destruct (Calculator.Calculate Samples.capacitor_1000pF_grey)
    as [res | err] eqn:E; [ | vm_compute in E; discriminate E ].
  destruct (X14_capacitor_range_brackets_nominal _ res E)
    as (lo & hi & Hmin & Hmax & _ & Hlo & Hhi & _).
  exists res, lo, hi. auto.
Defined.

(** X15. The nominal capacitance of a decoded reading lies between 0 and
    990000000 pF and is therefore never shown in mF; only the maximum of
    the range can reach mF (99 x 10^7 pF with tolerance Grey). *)
Theorem X15_nominal_capacitance_never_mF :
  (forall (r : Calculator.CapacitorReading)
          (res : Calculator.CalculationResult),
      Calculator.Calculate r = Ok res ->
      (zero <=? Calculator.CapacitancePF res)%f64 = true
      /\ (Calculator.CapacitancePF res <=? of_int 990000000)%f64 = true
      /\ Calculator.CapacitanceUnit res <> "mF"
      /\ Calculator.MinUnit res <> "mF")
  /\ (exists res,
      Calculator.Calculate
        {| Calculator.Band1 := ColorWhite; Calculator.Band2 := ColorWhite;
           Calculator.Band3 := ColorViolet; Calculator.Band4 := ColorGrey;
           Calculator.Band5 := ColorBlack; Calculator.BandCount := 3;
           Calculator.CapType := TypeK |} = Ok res
      /\ Calculator.CapacitancePF res = of_int 990000000
      /\ Calculator.CapacitanceUnit res = "µF"
      /\ Calculator.MaxUnit res = "mF").
Proof.
  split.
  - intros r res Hres.
    assert (Hdec : decodable r) by (apply Calculate_Ok_iff; eauto).
    destruct (Calculate_Ok_decoded r res Hres) as (tol & Htol & D).
    destruct (decodable_raw_listed r Hdec) as [Hraw _].
    destruct (below_mF_elim _ _ _ _ capacitor_raws_below_mF Hraw)
      as (Hzero & Htop & Hmf).
    rewrite (d_raw _ _ _ D).
    split; [ exact Hzero | ]. split; [ exact Htop | ].
    assert (Hunit : Calculator.CapacitanceUnit res <> "mF").
    { replace (Calculator.CapacitanceUnit res)
        with (snd (Calculator.scaleCapacitance (rawPF r)))
        by (rewrite <- (d_scaled _ _ _ D); reflexivity).
      unfold Calculator.scaleCapacitance. cbv zeta. rewrite Hmf.
      destruct (rawPF r >=? of_int 1000000)%f64;
        [ cbn [snd]; discriminate | ].
      destruct (rawPF r >=? of_int 1000)%f64; cbn [snd]; discriminate. }
    split; [ exact Hunit | ].
    pose proof (decoded_bracketed r tol Hdec Htol) as Hb.
    destruct (stored_bounds _ _ _ (d_tolerance _ _ _ D)) as [Hmin _].
    unfold brackets in Hb.
    apply andb_prop in Hb. destruct Hb as [Hb _].
    apply andb_prop in Hb. destruct Hb as [_ Hlo].
    pose proof (geb_not_ltb _ _ Hlo) as Hnlt.
    replace (Calculator.MinUnit res)
      with (snd (Calculator.scaleCapacitance
                   (fst (tolerance_bounds (rawPF r) tol))))
      by (rewrite <- Hmin; reflexivity).
    unfold Calculator.scaleCapacitance. cbv zeta.
    destruct (fst (tolerance_bounds (rawPF r) tol) >=? of_int 1000000000)%f64
      eqn:Hlomf.
    + rewrite (geb_mono _ _ _ Hlo Hlomf) in Hmf. discriminate Hmf.
    + destruct (fst (tolerance_bounds (rawPF r) tol) >=? of_int 1000000)%f64;
        [ cbn [snd]; discriminate | ].
      destruct (fst (tolerance_bounds (rawPF r) tol) >=? of_int 1000)%f64;
        cbn [snd]; discriminate.
  - eexists. split; [ evaluate | ]. split; [ evaluate | ].
    split; evaluate.
Qed.

(** X16. The resistance in ohms is exact for every multiplier 1 .. 10^9:
    for a decoded resistor reading whose multiplier band is Black..White,
    the raw value is the integer base x 10^band, without rounding. *)
Theorem X16_resistance_is_exact
        (r : Resistor.ResistorReading) (res : Resistor.ResistorResult) :
  Resistor.CalculateResistor r = Ok res ->
  ColorBlack <= multiplier_band r <= ColorWhite ->
  0 <= resistor_base r <= 999
  /\ Resistor.ResistanceOhms res
     = of_int (resistor_base r * 10 ^ multiplier_band r).
Proof.
  intros Hres Hm.
  destruct (CalculateResistor_Ok_decoded r res Hres)
    as ((Hn & Hd & _ & _) & D).
  unfold digits_valid in Hd.
  apply andb_prop in Hd. destruct Hd as [Hd Hd3].
  apply andb_prop in Hd. destruct Hd as [Hd1 Hd2].
  apply ValidDigit_iff in Hd1, Hd2.
  assert (Hbase : 0 <= resistor_base r <= 999).
  { unfold resistor_base. cbv zeta.
    rewrite (Digit_rank _ Hd1), (Digit_rank _ Hd2).
    destruct (Resistor.BandCount r =? 4); [ unfold_colors; lia | ].
    cbn [orb] in Hd3. apply ValidDigit_iff in Hd3.
    rewrite (Digit_rank _ Hd3). unfold_colors; lia. }
  split; [ exact Hbase | ].
  rewrite (rd_raw _ _ D).
  assert (Hk : In (multiplier_band r) (upto 10))
    by (apply In_upto; unfold_colors; lia).
  exact (ohms_exact_elim _ _ _ multipliers_exact Hk Hbase).
Qed.

(** Yellow, Violet, Black, Brown, Brown with five bands: 470 x 10. *)
Lemma X16_at_five_bands :
  exists res,
    Resistor.CalculateResistor (Samples.resistor_4k7 5) = Ok res
    /\ Resistor.ResistanceOhms res = of_int 4700.
Proof.
  destruct (Resistor.CalculateResistor (Samples.resistor_4k7 5))
    as [res | err] eqn:E; [ | vm_compute in E; discriminate E ].
  exists res. split; [ reflexivity | ].
  destruct (X16_resistance_is_exact _ res E) as [_ H];
    [ vm_compute; split; discriminate | ].
  rewrite H. vm_compute. reflexivity.
Defined.

(** ** The range of a resistor *)

Lemma resistor_raws_bracketed : percent_bracketed_all resistor_raws = true.
Proof. vm_compute. reflexivity. Qed.

Lemma percent_bracketed_elim (raws : list float64) (b : Color)
      (info : Resistor.ResistorToleranceInfo) (raw : float64) :
  percent_bracketed_all raws = true ->
  In b (upto 12) ->
  Resistor.GetResistorTolerance b = (info, true) ->
  In raw raws ->
  (zero <=? pct_low raw (Resistor.Percent info))%f64 = true
  /\ (pct_low raw (Resistor.Percent info) <=? raw)%f64 = true
  /\ (raw <=? pct_high raw (Resistor.Percent info))%f64 = true.
Proof.
  unfold percent_bracketed_all. intros Hall Hb Hinfo Hraw.
  rewrite forallb_forall in Hall. specialize (Hall b Hb).
  rewrite Hinfo in Hall. unfold percent_bracketed_for in Hall.
  cbn [fst snd] in Hall. rewrite forallb_forall in Hall.
  specialize (Hall raw Hraw). unfold factors_bracket in Hall.
  apply andb_prop in Hall. destruct Hall as [Hall Hhi].
  apply andb_prop in Hall. destruct Hall as [Hzero Hlo].
  unfold pct_low, pct_high. auto.
Qed.

(** Only the twelve colours can be tolerance colours of a resistor. *)
Lemma resistor_tolerance_color (c : Color) :
  snd (Resistor.GetResistorTolerance c) = true -> 0 <= c <= 11.
Proof.
  destruct (color_cases c) as [Hout | Hin].
  - replace (Resistor.GetResistorTolerance c)
      with (Resistor.zeroResistorToleranceInfo, false);
      [ discriminate | ].
    symmetry. unfold Resistor.GetResistorTolerance,
      Resistor.resistorToleranceMap. absent_key.
  - intros _. unfold_colors.
    repeat (destruct Hin as [-> | Hin]; [ lia | ]). subst c. lia.
Qed.

(** X17. The tolerance range of a decoded resistor with a two-digit base
    value, which every four-band reading has, brackets the nominal value
    and never goes below zero: the stored minimum and maximum are the
    unit-scaled forms of two values lo and hi in ohms with
    0 <= lo <= nominal <= hi, and the unit of the minimum is not larger,
    the unit of the maximum not smaller, than the unit of the nominal
    value. *)
Theorem X17_resistor_range_brackets_nominal
        (r : Resistor.ResistorReading) (res : Resistor.ResistorResult) :
  Resistor.CalculateResistor r = Ok res ->
  (Resistor.BandCount r = 4 -> resistor_base r <= 99)
  /\ (resistor_base r <= 99 ->
      exists lo hi,
        (Resistor.MinValue res, Resistor.MinUnit res)
        = Resistor.scaleResistance lo
        /\ (Resistor.MaxValue res, Resistor.MaxUnit res)
           = Resistor.scaleResistance hi
        /\ (zero <=? lo)%f64 = true
        /\ (lo <=? Resistor.ResistanceOhms res)%f64 = true
        /\ (Resistor.ResistanceOhms res <=? hi)%f64 = true
        /\ resistance_rank (Resistor.MinUnit res)
           <= resistance_rank (Resistor.ResistanceUnit res)
           <= resistance_rank (Resistor.MaxUnit res)).
Proof.
  intros Hres.
  destruct (CalculateResistor_Ok_decoded r res Hres)
    as ((Hn & Hd & Hm & Ht) & D).
  unfold digits_valid in Hd.
  apply andb_prop in Hd. destruct Hd as [Hd Hd3].
  apply andb_prop in Hd. destruct Hd as [Hd1 Hd2].
  apply ValidDigit_iff in Hd1, Hd2.
  assert (Hbase : 0 <= resistor_base r
                  /\ (Resistor.BandCount r = 4 -> resistor_base r <= 99)).
  { unfold resistor_base. cbv zeta.
    rewrite (Digit_rank _ Hd1), (Digit_rank _ Hd2).
    destruct (Z.eqb_spec (Resistor.BandCount r) 4) as [E | N];
      [ unfold_colors; lia | ].
    cbn [orb] in Hd3. apply ValidDigit_iff in Hd3.
    rewrite (Digit_rank _ Hd3).
    split; [ unfold_colors; lia | intros E; contradiction ]. }
  destruct Hbase as [Hbase0 Hfour].
  split; [ exact Hfour | ].
  intros Hbase.
  apply resistor_multiplier_total, is_color_range in Hm.
  pose proof (resistor_tolerance_color _ Ht) as Htc.
  destruct (Resistor.GetResistorTolerance (tolerance_band r))
    as [info ex] eqn:Einfo.
  cbn [snd] in Ht. subst ex.
  pose proof (rd_percent _ _ D) as Hpct. rewrite Einfo in Hpct.
  cbn [fst] in Hpct.
  assert (Hraw : In (Resistor.ResistanceOhms res) resistor_raws).
  { rewrite (rd_raw _ _ D). unfold resistor_raws.
    apply in_flat_map. exists (multiplier_band r).
    split; [ apply In_upto; lia | ].
    unfold raws_for. apply in_map_iff. exists (resistor_base r).
    split; [ reflexivity | apply In_upto; lia ]. }
  assert (Hb : In (tolerance_band r) (upto 12)) by (apply In_upto; lia).
  destruct (percent_bracketed_elim _ _ _ _ resistor_raws_bracketed
              Hb Einfo Hraw) as (Hzero & Hlo & Hhi).
  rewrite <- Hpct in Hzero, Hlo, Hhi.
  pose proof (rd_min _ _ D) as Hmin.
  pose proof (rd_max _ _ D) as Hmax.
  pose proof (rd_scaled _ _ D) as Hscaled.
  exists (pct_low (Resistor.ResistanceOhms res)
                  (Resistor.TolerancePercent res)),
         (pct_high (Resistor.ResistanceOhms res)
                   (Resistor.TolerancePercent res)).
  split; [ exact Hmin | ]. split; [ exact Hmax | ].
  split; [ exact Hzero | ]. split; [ exact Hlo | ]. split; [ exact Hhi | ].
  replace (Resistor.MinUnit res)
    with (snd (Resistor.scaleResistance
                 (pct_low (Resistor.ResistanceOhms res)
                          (Resistor.TolerancePercent res))))
    by (rewrite <- Hmin; reflexivity).
  replace (Resistor.MaxUnit res)
    with (snd (Resistor.scaleResistance
                 (pct_high (Resistor.ResistanceOhms res)
                           (Resistor.TolerancePercent res))))
    by (rewrite <- Hmax; reflexivity).
  replace (Resistor.ResistanceUnit res)
    with (snd (Resistor.scaleResistance (Resistor.ResistanceOhms res)))
    by (rewrite <- Hscaled; reflexivity).
  split; apply scaleResistance_monotone; assumption.
Qed.

(** Yellow, Violet, Black, Brown with four bands: 47 ohms, 1 %. *)
Lemma X17_at_four_bands :
  exists res lo hi,
    Resistor.CalculateResistor (Samples.resistor_4k7 4) = Ok res
    /\ (Resistor.MinValue res, Resistor.MinUnit res)
       = Resistor.scaleResistance lo
    /\ (Resistor.MaxValue res, Resistor.MaxUnit res)
       = Resistor.scaleResistance hi
    /\ (lo <=? Resistor.ResistanceOhms res)%f64 = true
    /\ (Resistor.ResistanceOhms res <=? hi)%f64 = true.
Proof.
  destruct (Resistor.CalculateResistor (Samples.resistor_4k7 4))
    as [res | err] eqn:E; [ | vm_compute in E; discriminate E ].
  destruct (X17_resistor_range_brackets_nominal _ res E) as [Hfour H].
  destruct (H (Hfour eq_refl))
    as (lo & hi & Hmin & Hmax & _ & Hlo & Hhi & _).
  exists res, lo, hi. auto.
Defined.

End FiniteChecks.
